(** * LLM middleware pipeline: a shallow embedding of [core.py],
      [validators.py] and [metrics.py], and the properties of the
      four-stage request pipeline.

    Python values are embedded as the inductive type [pyval]; dictionaries
    are finite maps with string keys.  A computation is a pair of the
    trace of effects it performed (log calls, HTTP posts, sleeps, metric
    updates) and its outcome: a returned value or a raised exception.

    Scope of the embedding.  Python [str] is embedded as Rocq [string],
    read as a sequence of code points below 256, with Python's
    whitespace and case mapping on that range.  The
    exception type [exn] covers the subclasses of [Exception] (what the
    [except Exception] clause of [process] matches).  Hooks come in two
    types.  A [hook] is a total function from dictionaries to outcomes,
    as the type annotation in [add_pre_hook] / [add_post_hook] says: a
    hook that updates the envelope in place and returns it is the
    function to the updated envelope.  An [Effectful.hook] can also
    update the caller's objects in place and raise an exception that
    does not derive from [Exception]; [Effectful.process] is [process]
    for such hooks, and the two agree on the hooks of the first type.
    The text of log messages is not recorded, only their level. *)

From Stdlib Require Import ZArith QArith String Ascii List.
From stdpp Require Import base option gmap strings list pretty.

Set Warnings "-register-all".
Local Open Scope string_scope.
Local Open Scope list_scope.

(** ** Python values *)

Inductive pyval : Type :=
| VNone
| VBool (b : bool)
| VInt (n : Z)
| VFloat (x : Q)
| VStr (s : string)
| VList (xs : list pyval)
| VDict (d : gmap string pyval).

Abbreviation pydict := (gmap string pyval).

(** [bool(v)]: Python truthiness. *)
Definition truthy (v : pyval) : bool :=
  match v with
  | VNone => false
  | VBool b => b
  | VInt n => negb (n =? 0)%Z
  | VFloat x => negb (Qeq_bool x 0)
  | VStr s => negb (String.eqb s EmptyString)
  | VList xs => match xs with [] => false | _ => true end
  | VDict d => negb (bool_decide (d = ∅))
  end.

(** [type(v).__name__] *)
Definition type_name (v : pyval) : string :=
  match v with
  | VNone => "NoneType"
  | VBool _ => "bool"
  | VInt _ => "int"
  | VFloat _ => "float"
  | VStr _ => "str"
  | VList _ => "list"
  | VDict _ => "dict"
  end.

(** [str(type(v))], as an f-string renders [{type(v)}]. *)
Definition type_repr (v : pyval) : string :=
  "<class '" +:+ type_name v +:+ "'>".

Definition is_str (v : pyval) : bool :=
  match v with VStr _ => true | _ => false end.

(** ** Exceptions *)

Inductive exn : Type :=
| PipelineError (msg : string)
| KeyError (arg_repr : string)
| IndexError
| TypeError
| ValueError
| AttributeError
| ValidationError
| FileNotFoundError
| PermissionError
| IsADirectoryError
| NotADirectoryError
| UnicodeDecodeError
| RequestException
| JSONDecodeError
| OtherException (cls : string).

Definition is_PipelineError (e : exn) : bool :=
  match e with PipelineError _ => true | _ => false end.

(** [isinstance(e, TypeError)] *)
Definition is_TypeError (e : exn) : bool :=
  match e with TypeError => true | _ => false end.

(** ** Effects *)

Inductive level : Type := DEBUG | INFO | WARNING | ERROR.

Inductive metric : Type :=
| requests_total
| success_total
| failure_total
| prompt_tokens_total (amount : pyval)
| completion_tokens_total (amount : pyval)
| total_tokens (amount : pyval)
| pipeline_latency
| inference_latency.

(** What [requests.post] is called with. *)
Record request : Type := Request {
  req_url : string;
  req_bearer : string;
  req_model : string;
  req_prompt : string;
  req_timeout : Z
}.

Inductive event : Type :=
| EvLog (lvl : level)
| EvPost (attempt : nat) (req : request)
| EvSleep (seconds : Z)
| EvMetric (m : metric).

Inductive outcome (A : Type) : Type :=
| Ok (a : A)
| Raise (e : exn).
Arguments Ok {A} a.
Arguments Raise {A} e.

(** A computation: the effects performed, in order, and the outcome. *)
Definition M (A : Type) : Type := (list event * outcome A)%type.

Definition ret {A} (a : A) : M A := ([], Ok a).
Definition raise {A} (e : exn) : M A := ([], Raise e).
Definition emit (ev : event) : M unit := ([ev], Ok tt).
Definition lift {A} (o : outcome A) : M A := ([], o).

Definition bind {A B} (m : M A) (k : A -> M B) : M B :=
  match m with
  | (t, Ok a) => let '(t', r) := k a in (t ++ t', r)
  | (t, Raise e) => (t, Raise e)
  end.

(** [try: m  except <classes matched by handler>: ...]: the handler
    answers [None] for an exception its clause does not match. *)
Definition try_except {A} (m : M A) (handler : exn -> option (M A)) : M A :=
  match m with
  | (t, Ok a) => (t, Ok a)
  | (t, Raise e) =>
      match handler e with
      | Some h => let '(t', r) := h in (t ++ t', r)
      | None => (t, Raise e)
      end
  end.

Declare Scope py_scope.
Delimit Scope py_scope with py.
Notation "x <- m ;; k" := (bind m (fun x => k))
  (at level 100, m at next level, right associativity) : py_scope.
Notation "m ;;; k" := (bind m (fun _ => k))
  (at level 100, right associativity) : py_scope.
Local Open Scope py_scope.

Definition trace {A} (m : M A) : list event := fst m.
Definition result {A} (m : M A) : outcome A := snd m.

Definition is_sleep (ev : event) : option Z :=
  match ev with EvSleep n => Some n | _ => None end.
Definition is_post (ev : event) : bool :=
  match ev with EvPost _ _ => true | _ => false end.

(** The backoff sleeps of a trace, in order, and the number of posts. *)
Definition sleeps_of (t : list event) : list Z := omap is_sleep t.
Definition posts_of (t : list event) : nat := length (filter (fun ev => is_post ev = true) t).

(** ** Python string methods

    A string is a sequence of characters with code points 0 to 255.  On
    that range [isspace], [strip], [split], [lower] and [repr] are
    Python's; [upper] is Python's except for U+00B5 and U+00FF, whose
    uppercase forms lie above U+00FF and which are kept. *)

Module PyStr.

(** [c.isspace()]: TAB, LF, VT, FF, CR, FS, GS, RS, US, SPACE, NEL
    (U+0085) and the no-break space (U+00A0). *)
Definition isspace (c : ascii) : bool :=
  let n := N_of_ascii c in
  (((9 <=? n) && (n <=? 13)) || ((28 <=? n) && (n <=? 32))
   || (n =? 133) || (n =? 160))%N.

Fixpoint lstrip (s : string) : string :=
  match s with
  | EmptyString => EmptyString
  | String c s' => if isspace c then lstrip s' else s
  end.

Fixpoint rstrip (s : string) : string :=
  match s with
  | EmptyString => EmptyString
  | String c s' =>
      match rstrip s' with
      | EmptyString => if isspace c then EmptyString else String c EmptyString
      | r => String c r
      end
  end.

(** [s.strip()] *)
Definition strip (s : string) : string := rstrip (lstrip s).

(** The characters with a lowercase form: A to Z, U+00C0 to U+00D6 and
    U+00D8 to U+00DE (U+00D7 is the multiplication sign). *)
Definition isupper (c : ascii) : bool :=
  let n := N_of_ascii c in
  (((65 <=? n) && (n <=? 90)) || ((192 <=? n) && (n <=? 214))
   || ((216 <=? n) && (n <=? 222)))%N.

Definition lower_char (c : ascii) : ascii :=
  if isupper c then ascii_of_N (N_of_ascii c + 32) else c.

(** The uppercase form of a character: a to z, U+00E0 to U+00F6 and
    U+00F8 to U+00FE move down by 32, and the sharp s (U+00DF) becomes
    SS. *)
Definition upper_char (c : ascii) : string :=
  let n := N_of_ascii c in
  if (((97 <=? n) && (n <=? 122)) || ((224 <=? n) && (n <=? 246))
      || ((248 <=? n) && (n <=? 254)))%N
  then String (ascii_of_N (n - 32)) EmptyString
  else if (n =? 223)%N then "SS"
  else String c EmptyString.

Fixpoint map_chars (f : ascii -> ascii) (s : string) : string :=
  match s with
  | EmptyString => EmptyString
  | String c s' => String (f c) (map_chars f s')
  end.

(** [s.lower()] *)
Definition lower (s : string) : string := map_chars lower_char s.

(** [s.upper()] *)
Fixpoint upper (s : string) : string :=
  match s with
  | EmptyString => EmptyString
  | String c s' => upper_char c +:+ upper s'
  end.

(** [s.split()]: the maximal runs of non-whitespace characters.  [word]
    is the run being read. *)
Fixpoint split_from (word : string) (s : string) : list string :=
  match s with
  | EmptyString => match word with EmptyString => [] | _ => [word] end
  | String c s' =>
      if isspace c
      then match word with
           | EmptyString => split_from EmptyString s'
           | _ => word :: split_from EmptyString s'
           end
      else split_from (word +:+ String c EmptyString) s'
  end.

Definition split (s : string) : list string := split_from EmptyString s.

(** [s[:n]] *)
Fixpoint take (n : nat) (s : string) : string :=
  match n, s with
  | S n', String c s' => String c (take n' s')
  | _, _ => EmptyString
  end.

Definition hex_digit (n : N) : ascii :=
  if (n <? 10)%N then ascii_of_N (48 + n) else ascii_of_N (87 + n).

Fixpoint count_char (q : ascii) (s : string) : nat :=
  match s with
  | EmptyString => 0%nat
  | String c s' => (if Ascii.eqb c q then 1 else 0) + count_char q s'
  end.

(** [repr(s)] escapes the quote in use, the backslash, TAB, LF, CR and
    the non-printable characters: the controls, the no-break space and
    the soft hyphen. *)
Fixpoint repr_body (quote : ascii) (s : string) : string :=
  match s with
  | EmptyString => EmptyString
  | String c s' =>
      let n := N_of_ascii c in
      (if Ascii.eqb c quote || Ascii.eqb c "\"%char
       then String "\"%char (String c EmptyString)
       else if (n =? 9)%N then "\t"
       else if (n =? 10)%N then "\n"
       else if (n =? 13)%N then "\r"
       else if ((n <? 32) || ((127 <=? n) && (n <=? 160)) || (n =? 173))%N
       then String "\"%char (String "x"%char
              (String (hex_digit (n / 16)) (String (hex_digit (n mod 16)) EmptyString)))
       else String c EmptyString) +:+ repr_body quote s'
  end.

Definition double_quote : ascii := ascii_of_N 34.

(** [repr(s)]: single quotes, unless the text has a single quote and no
    double quote. *)
Definition repr (s : string) : string :=
  let quote :=
    if (0 <? count_char "'"%char s)%nat && (count_char double_quote s =? 0)%nat
    then double_quote else "'"%char in
  String quote (repr_body quote s +:+ String quote EmptyString).

End PyStr.

(** The line feed, written [\n] in the source *)
Definition LF : string := String (ascii_of_N 10) EmptyString.

(** ** Configuration, runtime and environment *)

(** [PipelineConfig] *)
Record PipelineConfig : Type := {
  llm_api_url : string;
  llm_api_key : string;
  model_name : string;
  timeout_seconds : Z;
  max_retries : Z;
  strip_input : bool;
  lowercase_input : bool;
  uppercase_output : bool;
  template_dir : string;
  default_template : string;
  validate_schemas : bool;
  collect_metrics : bool;
  metrics_port : Z;
  expose_metrics : bool
}.

(** The dataclass defaults, with no environment variable set. *)
Definition default_config : PipelineConfig := {|
  llm_api_url := "https://api.openai.com/v1/chat/completions";
  llm_api_key := EmptyString;
  model_name := "gpt-3.5-turbo";
  timeout_seconds := 10;
  max_retries := 3;
  strip_input := true;
  lowercase_input := true;
  uppercase_output := false;
  template_dir := "prompt_templates";
  default_template := "default.txt";
  validate_schemas := true;
  collect_metrics := true;
  metrics_port := 8000;
  expose_metrics := false
|}.

(** What one [requests.post] call does: it raises a
    [RequestException], or it returns a response with a status code
    and a body; [json_body] is [None] when [response.json()] raises
    [JSONDecodeError]. *)
Inductive http_outcome : Type :=
| ConnectionFailed
| Response (status_code : Z) (json_body : option pyval).

(** The behaviour of the interpreter and of the third-party libraries
    outside the fragment that is written out below:
    - [py_str]: [str(v)] of a float, a list or a dictionary;
    - [format_rest]: [str.format] on the rest of a template that starts
      inside a replacement field with attribute access, indexing, a
      conversion or a format specification;
    - [pydantic_str], [pydantic_int], [pydantic_float]: pydantic's
      validators of the field types [str], [int] and [float] ([None] when
      the value is rejected);
    - [pydantic_dict]: pydantic's coercion to a dictionary of a value
      that is not one. *)
Record runtime : Type := {
  py_str : pyval -> string;
  format_rest : string -> pydict -> outcome string;
  pydantic_str : pyval -> option string;
  pydantic_int : pyval -> option Z;
  pydantic_float : pyval -> option Q;
  pydantic_dict : pyval -> option pydict
}.

(** The environment of one call: the template store ([open] and
    [read] of a file name under a directory), the endpoint (what the
    post of each attempt does), the clock, and which optional packages
    could be imported. *)
Record world : Type := {
  open_read : string -> string -> outcome string;
  requests_post : nat -> request -> http_outcome;
  time_time : Q;
  PYDANTIC_AVAILABLE : bool;
  PROMETHEUS_AVAILABLE : bool
}.

(** Hooks, as annotated: [Callable[[Dict[str, Any]], Dict[str, Any]]]. *)
Definition hook : Type := pydict -> outcome pydict.

(** [LLMPipeline]: the configuration and the two hook lists, in
    registration order. *)
Record LLMPipeline : Type := {
  config : PipelineConfig;
  pre_hooks : list hook;
  post_hooks : list hook
}.

Definition add_pre_hook (self : LLMPipeline) (h : hook) : LLMPipeline :=
  {| config := config self; pre_hooks := pre_hooks self ++ [h]; post_hooks := post_hooks self |}.

Definition add_post_hook (self : LLMPipeline) (h : hook) : LLMPipeline :=
  {| config := config self; pre_hooks := pre_hooks self; post_hooks := post_hooks self ++ [h] |}.

(** [@timing_decorator]: logs at INFO after the call has returned. *)
Definition timing_decorator {A} (m : M A) : M A :=
  r <- m ;; emit (EvLog INFO) ;;; ret r.

(** [d[k]] on a dictionary; [str] of the [KeyError] is [repr(k)]. *)
Definition getitem (d : pydict) (k : string) : outcome pyval :=
  match d !! k with
  | Some v => Ok v
  | None => Raise (KeyError (PyStr.repr k))
  end.

(** ** [str.format] with keyword arguments only *)

(** [format(v)] with the empty format specification *)
Definition format_value (rt : runtime) (v : pyval) : string :=
  match v with
  | VStr s => s
  | VNone => "None"
  | VBool true => "True"
  | VBool false => "False"
  | VInt n => pretty n
  | _ => py_str rt v
  end.

Definition is_digit (c : ascii) : bool :=
  let n := N_of_ascii c in ((48 <=? n) && (n <=? 57))%N.

Fixpoint all_digits (s : string) : bool :=
  match s with
  | EmptyString => true
  | String c s' => is_digit c && all_digits s'
  end.

Fixpoint digits_value (acc : Z) (s : string) : Z :=
  match s with
  | EmptyString => acc
  | String c s' => digits_value (10 * acc + Z.of_N (N_of_ascii c - 48)) s'
  end.

(** The largest index, on a 64-bit build *)
Definition PY_SSIZE_T_MAX : Z := 2 ^ 63 - 1.

(** A replacement field [{name}] whose name has been read.  With no
    positional argument, an omitted or numeric name is out of range. *)
Definition lookup_field (rt : runtime) (kwargs : pydict) (name : string) : outcome string :=
  if all_digits name then
    if (PY_SSIZE_T_MAX <? digits_value 0 name)%Z then Raise ValueError else Raise IndexError
  else match kwargs !! name with
       | Some v => Ok (format_value rt v)
       | None => Raise (KeyError (PyStr.repr name))
       end.

Definition prepend (s : string) (o : outcome string) : outcome string :=
  match o with
  | Ok r => Ok (s +:+ r)
  | Raise e => Raise e
  end.

Definition is_complex_field_char (c : ascii) : bool :=
  Ascii.eqb c "."%char || Ascii.eqb c "["%char || Ascii.eqb c "!"%char || Ascii.eqb c ":"%char.

(** The scanner of [str.format], left to right.  [field = None]: in
    literal text; [field = Some name]: in a replacement field, [name]
    read so far. *)
Fixpoint format_scan (rt : runtime) (kwargs : pydict) (field : option string)
    (s : string) : outcome string :=
  match field, s with
  | None, EmptyString => Ok EmptyString
  | None, String c rest =>
      if Ascii.eqb c "{"%char then
        match rest with
        | EmptyString => Raise ValueError
        | String c' rest' =>
            if Ascii.eqb c' "{"%char
            then prepend "{" (format_scan rt kwargs None rest')
            else format_scan rt kwargs (Some EmptyString) rest
        end
      else if Ascii.eqb c "}"%char then
        match rest with
        | EmptyString => Raise ValueError
        | String c' rest' =>
            if Ascii.eqb c' "}"%char
            then prepend "}" (format_scan rt kwargs None rest')
            else Raise ValueError
        end
      else prepend (String c EmptyString) (format_scan rt kwargs None rest)
  | Some name, EmptyString => Raise ValueError
  | Some name, String c rest =>
      if Ascii.eqb c "}"%char then
        match lookup_field rt kwargs name with
        | Ok v => prepend v (format_scan rt kwargs None rest)
        | Raise e => Raise e
        end
      else if Ascii.eqb c "{"%char then Raise ValueError
      else if is_complex_field_char c then format_rest rt (name +:+ s) kwargs
      else format_scan rt kwargs (Some (name +:+ String c EmptyString)) rest
  end.

(** [template.format] called with keyword arguments [kwargs] *)
Definition str_format (rt : runtime) (template : string) (kwargs : pydict) : outcome string :=
  format_scan rt kwargs None template.

(** ** The pipeline stages of [core.py] *)

Section Stages.
Context (rt : runtime) (w : world).

Definition fallback_template : string :=
  "User: {user_input}" +:+ LF +:+ "Context: {context}" +:+ LF +:+ "Response:".

(** [template_name or self.config.default_template] *)
Definition template_file (self : LLMPipeline) (template_name : option string) : string :=
  match template_name with
  | Some n => if String.eqb n EmptyString then default_template (config self) else n
  | None => default_template (config self)
  end.

(** [LLMPipeline._load_template] *)
Definition _load_template (self : LLMPipeline) (template_name : option string) : M string :=
  try_except
    (lift (open_read w (template_dir (config self)) (template_file self template_name)))
    (fun e => match e with
              | FileNotFoundError => Some (emit (EvLog WARNING) ;;; ret fallback_template)
              | _ => None
              end).

(** [LLMPipeline.preprocess_input] (stage 1) *)
Definition preprocess_input (self : LLMPipeline) (input_text : pyval) (context : pyval) : M pydict :=
  timing_decorator
    match input_text with
    | VStr s =>
        let processed_input := s in
        let processed_input :=
          if strip_input (config self) then PyStr.strip processed_input else processed_input in
        let processed_input :=
          if lowercase_input (config self) then PyStr.lower processed_input else processed_input in
        emit (EvLog DEBUG) ;;;
        ret ({[ "input" := VStr processed_input; "context" := context ]} : pydict)
    | _ => raise (PipelineError ("Input must be a string, got " +:+ type_repr input_text))
    end.

(** [LLMPipeline.compose_prompt] (stage 2) *)
Definition compose_prompt (self : LLMPipeline) (preprocessed_data : pydict)
    (template_name : option string) : M string :=
  timing_decorator
    (try_except
       (user_input <- lift (getitem preprocessed_data "input") ;;
        context <- lift (getitem preprocessed_data "context") ;;
        template <- _load_template self template_name ;;
        prompt <- lift (str_format rt template
                          {[ "user_input" := user_input; "context" := context ]}) ;;
        emit (EvLog DEBUG) ;;;
        ret prompt)
       (fun e => match e with
                 | KeyError k =>
                     Some (raise (PipelineError
                       ("Missing required key in preprocessed data: " +:+ k)))
                 | _ => None
                 end)).

(** *** [MetricsCollector] of [metrics.py]; [enabled] is
    [config.collect_metrics]. *)

Definition metrics_on (self : LLMPipeline) : bool :=
  collect_metrics (config self) && PROMETHEUS_AVAILABLE w.

Definition record_request (self : LLMPipeline) : M unit :=
  if metrics_on self then emit (EvMetric requests_total) else ret tt.

Definition record_success (self : LLMPipeline) : M unit :=
  if metrics_on self then emit (EvMetric success_total) else ret tt.

Definition record_failure (self : LLMPipeline) : M unit :=
  if metrics_on self then emit (EvMetric failure_total) else ret tt.

(** [Counter.inc(amount)]: a negative amount is a [ValueError], an
    amount that does not compare with [0] a [TypeError]. *)
Definition counter_inc (mk : pyval -> metric) (amount : pyval) : M unit :=
  match amount with
  | VInt n => if (n <? 0)%Z then raise ValueError else emit (EvMetric (mk amount))
  | VFloat x => if negb (Qle_bool 0 x) then raise ValueError else emit (EvMetric (mk amount))
  | VBool _ => emit (EvMetric (mk amount))
  | _ => raise TypeError
  end.

Definition record_token_usage (self : LLMPipeline) (usage_data : pyval) : M unit :=
  if negb (metrics_on self) then ret tt
  else match usage_data with
       | VDict d =>
           let prompt_tokens := default (VInt 0) (d !! "prompt_tokens") in
           let completion_tokens := default (VInt 0) (d !! "completion_tokens") in
           let total := default (VInt 0) (d !! "total_tokens") in
           counter_inc prompt_tokens_total prompt_tokens ;;;
           counter_inc completion_tokens_total completion_tokens ;;;
           counter_inc total_tokens total ;;;
           emit (EvLog INFO)
       | _ => raise AttributeError
       end.

Definition time_pipeline (self : LLMPipeline) : M unit :=
  if metrics_on self then emit (EvMetric pipeline_latency) else ret tt.

Definition time_inference (self : LLMPipeline) : M unit :=
  if metrics_on self then emit (EvMetric inference_latency) else ret tt.

(** *** Stage 3 *)

Inductive index : Type :=
| IKey (k : string)
| IPos (i : Z).

Fixpoint string_nth (n : nat) (s : string) : option ascii :=
  match s, n with
  | EmptyString, _ => None
  | String c _, O => Some c
  | String _ s', S n' => string_nth n' s'
  end.

(** A position [i] of a sequence of length [len]; negative positions
    count from the end. *)
Definition normalize_index (len : nat) (i : Z) : option nat :=
  if ((0 <=? i) && (i <? Z.of_nat len))%Z then Some (Z.to_nat i)
  else if ((i <? 0) && (0 <=? Z.of_nat len + i))%Z then Some (Z.to_nat (Z.of_nat len + i))
  else None.

(** [v[ix]] on a parsed JSON value *)
Definition subscript (v : pyval) (ix : index) : outcome pyval :=
  match v, ix with
  | VDict d, IKey k => getitem d k
  | VDict d, IPos i => Raise (KeyError (pretty i))
  | VList xs, IPos i =>
      match normalize_index (length xs) i with
      | Some n => match xs !! n with Some x => Ok x | None => Raise IndexError end
      | None => Raise IndexError
      end
  | VStr s, IPos i =>
      match normalize_index (String.length s) i with
      | Some n => match string_nth n s with
                  | Some c => Ok (VStr (String c EmptyString))
                  | None => Raise IndexError
                  end
      | None => Raise IndexError
      end
  | _, _ => Raise TypeError
  end.

(** The response of the development mode *)
Definition mock_response (prompt : string) : pydict :=
  {[ "content" := VStr ("[Development Mode] Mock response for: " +:+ PyStr.take 50 prompt +:+ "...");
     "usage" := VDict {[ "prompt_tokens" := VInt (Z.of_nat (length (PyStr.split prompt)));
                         "completion_tokens" := VInt 10;
                         "total_tokens" := VInt (Z.of_nat (length (PyStr.split prompt)) + 10) ]} ]}.

Definition make_request (self : LLMPipeline) (prompt : string) : request :=
  {| req_url := llm_api_url (config self);
     req_bearer := llm_api_key (config self);
     req_model := model_name (config self);
     req_prompt := prompt;
     req_timeout := timeout_seconds (config self) |}.

(** [result['choices'][0]['message']['content']] *)
Definition response_content (result : pyval) : outcome pyval :=
  match subscript result (IKey "choices") with
  | Ok choices =>
      match subscript choices (IPos 0) with
      | Ok choice =>
          match subscript choice (IKey "message") with
          | Ok message => subscript message (IKey "content")
          | Raise e => Raise e
          end
      | Raise e => Raise e
      end
  | Raise e => Raise e
  end.

(** The status-200 branch: read the content, report the usage when
    metrics are collected and the body has a [usage] key, and return. *)
Definition read_response (self : LLMPipeline) (result : pyval) : M pydict :=
  content <- lift (response_content result) ;;
  match result with
  | VDict d =>
      (if collect_metrics (config self) && bool_decide (is_Some (d !! "usage"))
       then record_token_usage self (default VNone (d !! "usage")) ;;; time_inference self
       else ret tt) ;;;
      ret ({[ "content" := content; "usage" := default (VDict ∅) (d !! "usage") ]} : pydict)
  | _ => raise TypeError
  end.

(** The body of [for attempt in range(max_retries)], over the attempts
    that remain, and the statement after the loop. *)
Fixpoint attempts_loop (self : LLMPipeline) (prompt : string) (attempts : list nat) : M pydict :=
  match attempts with
  | [] => raise (PipelineError "Inference failed")
  | attempt :: rest =>
      let transport_failure : M pydict :=
        emit (EvLog ERROR) ;;;
        if (Z.of_nat attempt =? max_retries (config self) - 1)%Z
        then raise (PipelineError
               ("Failed to get response after " +:+ pretty (max_retries (config self)) +:+ " attempts"))
        else emit (EvSleep (2 ^ Z.of_nat attempt)) ;;; attempts_loop self prompt rest in
      emit (EvPost attempt (make_request self prompt)) ;;;
      match requests_post w attempt (make_request self prompt) with
      | ConnectionFailed => transport_failure
      | Response status_code json_body =>
          if (status_code =? 200)%Z then
            match json_body with
            | Some result => read_response self result
            | None => transport_failure
            end
          else emit (EvLog ERROR) ;;; attempts_loop self prompt rest
      end
  end.

(** [range(n)] *)
Definition range (n : Z) : list nat := seq 0 (Z.to_nat n).

(** [LLMPipeline.run_inference] (stage 3) *)
Definition run_inference (self : LLMPipeline) (prompt : string) : M pydict :=
  timing_decorator
    (if String.eqb prompt EmptyString
     then raise (PipelineError "Cannot run inference with empty prompt")
     else if String.eqb (llm_api_key (config self)) EmptyString
     then emit (EvLog WARNING) ;;; ret (mock_response prompt)
     else attempts_loop self prompt (range (max_retries (config self)))).

(** *** Stage 4 *)

(** [LLMPipeline.postprocess_output] (stage 4) *)
Definition postprocess_output (self : LLMPipeline) (inference_result : pydict)
    (context : pyval) : M pydict :=
  timing_decorator
    (let output := default (VStr EmptyString) (inference_result !! "content") in
     let usage := default (VDict ∅) (inference_result !! "usage") in
     match output with
     | VStr s =>
         let processed_output :=
           if uppercase_output (config self) then PyStr.upper s else s in
         ret ({[ "final_output" := VStr processed_output;
                 "context_used" := context;
                 "timestamp" := VFloat (time_time w);
                 "token_usage" := if truthy usage then usage else VNone ]} : pydict)
     | _ => raise (PipelineError ("Output must be a string, got " +:+ type_repr output))
     end).

End Stages.

(** ** Schema validation of [validators.py] *)

Module Validators.
Section Validators.
Context (rt : runtime) (w : world).

(** The validators [input_not_empty] and [output_not_empty]:
    [if not v.strip(): raise ValueError]. *)
Definition not_empty (v : string) : outcome string :=
  if String.eqb (PyStr.strip v) EmptyString then Raise ValueError else Ok v.

(** A required field of type [str] with the non-empty validator. *)
Definition text_field (data : pydict) (name : string) : option string :=
  v ← data !! name;
  s ← pydantic_str rt v;
  match not_empty s with Ok s => Some s | Raise _ => None end.

(** A field of type [Optional[Dict[str, int]]] with default [None]. *)
Definition int_values (d : pydict) : option pyval :=
  if bool_decide (map_Forall (fun _ v => is_Some (pydantic_int rt v)) d)
  then Some (VDict (VInt <$> omap (pydantic_int rt) d))
  else None.

Definition usage_field (data : pydict) (name : string) : option pyval :=
  match data !! name with
  | None | Some VNone => Some VNone
  | Some (VDict d) => int_values d
  | Some v => pydantic_dict rt v ≫= int_values
  end.

(** [PipelineInput( **input_data).dict()]; a rejected field raises
    pydantic's [ValidationError]. *)
Definition PipelineInput (input_data : pydict) : outcome pydict :=
  match text_field input_data "input_text" with
  | Some input_text =>
      Ok {[ "input_text" := VStr input_text;
            "context" := default VNone (input_data !! "context") ]}
  | None => Raise ValidationError
  end.

(** [PipelineOutput( **output_data).dict()] *)
Definition PipelineOutput (output_data : pydict) : outcome pydict :=
  match text_field output_data "final_output",
        output_data !! "timestamp" ≫= pydantic_float rt,
        usage_field output_data "token_usage" with
  | Some final_output, Some timestamp, Some token_usage =>
      Ok {[ "final_output" := VStr final_output;
            "context_used" := default VNone (output_data !! "context_used");
            "timestamp" := VFloat timestamp;
            "token_usage" := token_usage ]}
  | _, _, _ => Raise ValidationError
  end.

Definition validate_input (input_data : pydict) : M pydict :=
  if negb (PYDANTIC_AVAILABLE w) then ret input_data
  else try_except (lift (PipelineInput input_data))
         (fun e => Some (emit (EvLog ERROR) ;;; raise e)).

Definition validate_output (output_data : pydict) : M pydict :=
  if negb (PYDANTIC_AVAILABLE w) then ret output_data
  else try_except (lift (PipelineOutput output_data))
         (fun e => Some (emit (EvLog ERROR) ;;; raise e)).

End Validators.
End Validators.

(** ** The orchestrator *)

Section Orchestrator.
Context (rt : runtime) (w : world).

(** [for hook in hooks: data = hook(data)] *)
Fixpoint run_hooks (hooks : list hook) (data : pydict) : outcome pydict :=
  match hooks with
  | [] => Ok data
  | h :: rest =>
      match h data with
      | Ok data' => run_hooks rest data'
      | Raise e => Raise e
      end
  end.

(** [v[:50]], evaluated for the log line of [process]; a value that
    is neither a string nor a list cannot be sliced. *)
Definition slice_50 (v : pyval) : outcome pyval :=
  match v with
  | VStr s => Ok (VStr (PyStr.take 50 s))
  | VList xs => Ok (VList (take 50 xs))
  | _ => Raise TypeError
  end.

(** The token-usage log line of [process]: [result["token_usage"].get]
    needs a dictionary when the value is truthy. *)
Definition log_token_usage (result : pydict) : M unit :=
  match result !! "token_usage" with
  | Some v =>
      if truthy v
      then match v with
           | VDict _ => emit (EvLog INFO)
           | _ => raise AttributeError
           end
      else ret tt
  | None => ret tt
  end.

(** The [try] block of [process] *)
Definition process_body (self : LLMPipeline) (input_text context : pyval)
    (template_name : option string) : M pydict :=
  let input_data : pydict := {[ "input_text" := input_text; "context" := context ]} in
  input_data <- lift (run_hooks (pre_hooks self) input_data) ;;
  input_data <- (if validate_schemas (config self)
                 then Validators.validate_input rt w input_data
                 else ret input_data) ;;
  logged <- lift (getitem input_data "input_text") ;;
  _ <- lift (slice_50 logged) ;;
  emit (EvLog INFO) ;;;
  text <- lift (getitem input_data "input_text") ;;
  ctx <- lift (getitem input_data "context") ;;
  preprocessed <- preprocess_input self text ctx ;;
  prompt <- compose_prompt rt w self preprocessed template_name ;;
  inference_result <- run_inference w self prompt ;;
  ctx <- lift (getitem input_data "context") ;;
  result <- postprocess_output w self inference_result ctx ;;
  log_token_usage result ;;;
  result <- (if validate_schemas (config self)
             then Validators.validate_output rt w result
             else ret result) ;;
  result <- lift (run_hooks (post_hooks self) result) ;;
  record_success w self ;;;
  time_pipeline w self ;;;
  emit (EvLog INFO) ;;;
  ret result.

Definition failure_envelope (msg : string) (input_text context : pyval) : pydict :=
  {[ "error" := VStr msg; "input" := input_text; "context" := context;
     "status" := VStr "failed" ]}.

Definition internal_failure_envelope : pydict :=
  {[ "error" := VStr "Internal pipeline error"; "status" := VStr "failed" ]}.

(** [LLMPipeline.process] *)
Definition process (self : LLMPipeline) (input_text context : pyval)
    (template_name : option string) : M pydict :=
  record_request w self ;;;
  try_except (process_body self input_text context template_name)
    (fun e =>
       match e with
       | PipelineError msg =>
           Some (emit (EvLog ERROR) ;;; record_failure w self ;;;
                 ret (failure_envelope msg input_text context))
       | _ =>
           Some (emit (EvLog ERROR) ;;; record_failure w self ;;;
                 ret internal_failure_envelope)
       end).

End Orchestrator.

(** ** Sample runtime, environments and pipelines *)

(** A runtime whose pydantic validators accept only values of the exact
    type, and no format string beyond plain named fields. *)
Definition strict_runtime : runtime := {|
  py_str := fun v => "<" +:+ type_name v +:+ ">";
  format_rest := fun _ _ => Raise ValueError;
  pydantic_str := fun v => match v with VStr s => Some s | _ => None end;
  pydantic_int := fun v => match v with VInt n => Some n | _ => None end;
  pydantic_float := fun v => match v with VFloat x => Some x | _ => None end;
  pydantic_dict := fun v => match v with VDict d => Some d | _ => None end
|}.

(** No template file, no reachable endpoint. *)
Definition offline_world : world := {|
  open_read := fun _ _ => Raise FileNotFoundError;
  requests_post := fun _ _ => ConnectionFailed;
  time_time := 0;
  PYDANTIC_AVAILABLE := true;
  PROMETHEUS_AVAILABLE := false
|}.

(** The template directory cannot be opened. *)
Definition locked_world : world := {|
  open_read := fun _ _ => Raise PermissionError;
  requests_post := fun _ _ => ConnectionFailed;
  time_time := 0;
  PYDANTIC_AVAILABLE := true;
  PROMETHEUS_AVAILABLE := false
|}.

Definition chat_completion (content : string) : pyval :=
  VDict {[ "choices" := VList [VDict {[ "message" := VDict {[ "content" := VStr content ]} ]}];
           "usage" := VDict {[ "prompt_tokens" := VInt 10; "completion_tokens" := VInt 7;
                               "total_tokens" := VInt 17 ]} ]}.

(** The endpoint of the retry scenario: the connection fails, then the
    body does not parse, then the call succeeds. *)
Definition flaky_world : world := {|
  open_read := fun _ _ => Raise FileNotFoundError;
  requests_post := fun attempt _ =>
    match attempt with
    | 0%nat => ConnectionFailed
    | 1%nat => Response 200 None
    | _ => Response 200 (Some (chat_completion "Hello, how can I help you?"))
    end;
  time_time := 0;
  PYDANTIC_AVAILABLE := true;
  PROMETHEUS_AVAILABLE := true
|}.

(** The endpoint answers every post with status 400. *)
Definition bad_request_world : world := {|
  open_read := fun _ _ => Raise FileNotFoundError;
  requests_post := fun _ _ => Response 400 None;
  time_time := 0;
  PYDANTIC_AVAILABLE := true;
  PROMETHEUS_AVAILABLE := false
|}.

Definition with_key (key : string) (retries : Z) (c : PipelineConfig) : PipelineConfig := {|
  llm_api_url := llm_api_url c;
  llm_api_key := key;
  model_name := model_name c;
  timeout_seconds := timeout_seconds c;
  max_retries := retries;
  strip_input := strip_input c;
  lowercase_input := lowercase_input c;
  uppercase_output := uppercase_output c;
  template_dir := template_dir c;
  default_template := default_template c;
  validate_schemas := validate_schemas c;
  collect_metrics := collect_metrics c;
  metrics_port := metrics_port c;
  expose_metrics := expose_metrics c
|}.

(** [LLMPipeline(config)]: no hook registered. *)
Definition new_pipeline (c : PipelineConfig) : LLMPipeline :=
  {| config := c; pre_hooks := []; post_hooks := [] |}.

(** ** Envelope shapes *)

Definition has_key (d : pydict) (k : string) : bool := bool_decide (is_Some (d !! k)).

Definition has_success_fields (d : pydict) : bool :=
  has_key d "final_output" && has_key d "context_used"
  && has_key d "timestamp" && has_key d "token_usage".

Definition status_failed (d : pydict) : bool :=
  match d !! "status" with
  | Some (VStr s) => String.eqb s "failed"
  | _ => false
  end.

Definition has_failure_fields (d : pydict) : bool :=
  has_key d "error" && status_failed d.

(** Exactly one of the two field sets *)
Definition well_shaped (d : pydict) : bool :=
  xorb (has_success_fields d) (has_failure_fields d).

Definition success_shaped (d : pydict) : bool :=
  has_success_fields d && negb (has_failure_fields d).

(** ** The whitespace word count, by word starts *)

(** A word starts at a non-whitespace character that is the first one
    or follows a whitespace character. *)
Fixpoint count_word_starts (after_space : bool) (s : string) : nat :=
  match s with
  | EmptyString => 0
  | String c s' =>
      (if negb (PyStr.isspace c) && after_space then 1 else 0)
      + count_word_starts (PyStr.isspace c) s'
  end.

Definition word_count (s : string) : nat := count_word_starts true s.

(** ** Templates made of literal text and the two placeholders *)

Inductive piece : Type :=
| Text (s : string)
| UserInput
| Context.

Fixpoint brace_free (s : string) : bool :=
  match s with
  | EmptyString => true
  | String c s' => negb (Ascii.eqb c "{"%char) && negb (Ascii.eqb c "}"%char) && brace_free s'
  end.

Definition plain_piece (p : piece) : bool :=
  match p with Text s => brace_free s | _ => true end.

Definition piece_source (p : piece) : string :=
  match p with
  | Text s => s
  | UserInput => "{user_input}"
  | Context => "{context}"
  end.

Definition piece_value (rt : runtime) (user_input context : pyval) (p : piece) : string :=
  match p with
  | Text s => s
  | UserInput => format_value rt user_input
  | Context => format_value rt context
  end.

Fixpoint concat_strings (l : list string) : string :=
  match l with
  | [] => EmptyString
  | s :: l' => s +:+ concat_strings l'
  end.

Definition template_source (ps : list piece) : string :=
  concat_strings (map piece_source ps).

Definition template_value (rt : runtime) (user_input context : pyval) (ps : list piece) : string :=
  concat_strings (map (piece_value rt user_input context) ps).

(** ** The retry schedule *)

(** A transport-level failure: the post raised, or the body of a
    status-200 response did not parse. *)
Definition transport_failure (o : http_outcome) : bool :=
  match o with
  | ConnectionFailed => true
  | Response status_code None => (status_code =? 200)%Z
  | Response _ (Some _) => false
  end.

Definition non_200 (o : http_outcome) : bool :=
  match o with
  | ConnectionFailed => false
  | Response status_code _ => negb (status_code =? 200)%Z
  end.

Definition failed_attempt (o : http_outcome) : bool :=
  transport_failure o || non_200 o.

(** The effects of an attempt that fails and is followed by the next
    one: the post, the error log and, after a transport failure, the
    backoff sleep. *)
Definition failure_events (w : world) (req : request) (attempt : nat) : list event :=
  if transport_failure (requests_post w attempt req)
  then [EvPost attempt req; EvLog ERROR; EvSleep (2 ^ Z.of_nat attempt)]
  else [EvPost attempt req; EvLog ERROR].

(** [m] after the effects [t] *)
Definition after {A} (t : list event) (m : M A) : M A := (t ++ fst m, snd m).

(** No post and no sleep *)
Definition quiet (t : list event) : Prop :=
  Forall (fun ev => is_post ev = false /\ is_sleep ev = None) t.

(** ** Whitespace at the ends of a string *)

Fixpoint all_space (s : string) : bool :=
  match s with
  | EmptyString => true
  | String c s' => PyStr.isspace c && all_space s'
  end.

Definition first_char (s : string) : option ascii :=
  match s with EmptyString => None | String c _ => Some c end.

Fixpoint last_char (s : string) : option ascii :=
  match s with
  | EmptyString => None
  | String c EmptyString => Some c
  | String _ s' => last_char s'
  end.

Definition not_space (c : option ascii) : Prop :=
  match c with Some c => PyStr.isspace c = false | None => True end.

(** ** What stripping and lowercasing mean, by code point

    The two relations say what [str.strip] and [str.lower] compute
    without using the embedded methods: they are what stage 1 is
    compared with. *)

(** The whitespace characters below U+0100. *)
Definition whitespace : list N := [9; 10; 11; 12; 13; 28; 29; 30; 31; 32; 133; 160]%N.

Definition is_whitespace (c : ascii) : bool := existsb (N.eqb (N_of_ascii c)) whitespace.

Fixpoint blank (s : string) : bool :=
  match s with
  | EmptyString => true
  | String c s' => is_whitespace c && blank s'
  end.

Definition solid (c : option ascii) : Prop :=
  match c with Some c => is_whitespace c = false | None => True end.

(** [trimmed s t]: [t] is [s] without the whitespace at its two ends. *)
Definition trimmed (s t : string) : Prop :=
  exists pre post,
    s = pre +:+ t +:+ post
    /\ blank pre = true /\ blank post = true
    /\ solid (first_char t) /\ solid (last_char t).

(** The letters with a lowercase form 32 code points above: A to Z,
    U+00C0 to U+00D6 and U+00D8 to U+00DE. *)
Definition uppercase_letter (n : N) : bool :=
  existsb (fun '(first, last) => (first <=? n) && (n <=? last))%N
          [(65, 90); (192, 214); (216, 222)]%N.

(** [lowercased s t]: [t] is [s], character by character, with every
    uppercase letter replaced by its lowercase form. *)
Fixpoint lowercased (s t : string) : Prop :=
  match s, t with
  | EmptyString, EmptyString => True
  | String c s', String d t' =>
      N_of_ascii d = (if uppercase_letter (N_of_ascii c)
                      then N_of_ascii c + 32 else N_of_ascii c)%N
      /\ lowercased s' t'
  | _, _ => False
  end.

(** A text with a no-break space at both ends and an accented capital *)
Definition padded_text : string :=
  String (ascii_of_N 160) ("Hi " +:+ String (ascii_of_N 201) "COLE" +:+ String (ascii_of_N 160) " ").

Definition trimmed_text : string := "Hi " +:+ String (ascii_of_N 201) "COLE".

Definition lowered_text : string := "hi " +:+ String (ascii_of_N 233) "cole".



(** The pipeline of the retry scenario and of the status-400 scenario *)
Definition retry_pipeline : LLMPipeline := new_pipeline (with_key "test_key" 3 default_config).
Definition single_attempt_pipeline : LLMPipeline :=
  new_pipeline (with_key "test_key" 1 default_config).

(** A post-hook in the manner of [add_timestamp_hook] *)
Definition add_timestamp_hook : hook :=
  fun result => Ok (<[ "processed_at" := VFloat 0 ]> result).

(** A post-hook that drops every field *)
Definition clear_hook : hook := fun _ => Ok ∅.

Definition hooked_pipeline (h : hook) : LLMPipeline :=
  {| config := default_config; pre_hooks := []; post_hooks := [h] |}.

(** A post-hook keeps the success shape when every result it returns
    for a success-shaped envelope is success-shaped. *)
Definition keeps_success_shape (h : hook) : Prop :=
  forall d d' : pydict, success_shaped d = true -> h d = Ok d' -> success_shaped d' = true.

(** What [process] returns for an outcome of its [try] block *)
Definition envelope_of (input_text context : pyval) (o : outcome pydict) : pydict :=
  match o with
  | Ok r => r
  | Raise (PipelineError msg) => failure_envelope msg input_text context
  | Raise _ => internal_failure_envelope
  end.

(** The environment of the unit tests: the template is given and the
    endpoint answers every post with status 200 and the given body. *)
Definition test_world (template : string) (body : pyval) : world := {|
  open_read := fun _ _ => Ok template;
  requests_post := fun _ _ => Response 200 (Some body);
  time_time := 0;
  PYDANTIC_AVAILABLE := true;
  PROMETHEUS_AVAILABLE := false
|}.

(** The configuration of [setUp] in the tests, with a credential:
    neither schema validation nor metrics. *)
Definition test_config : PipelineConfig := {|
  llm_api_url := llm_api_url default_config;
  llm_api_key := "test_key";
  model_name := model_name default_config;
  timeout_seconds := timeout_seconds default_config;
  max_retries := max_retries default_config;
  strip_input := true;
  lowercase_input := true;
  uppercase_output := false;
  template_dir := template_dir default_config;
  default_template := default_template default_config;
  validate_schemas := false;
  collect_metrics := false;
  metrics_port := metrics_port default_config;
  expose_metrics := false
|}.

(** The hooks of [test_hooks] *)
Definition pre_hook : hook :=
  fun data =>
    match data !! "input_text" with
    | Some (VStr s) => Ok (<[ "input_text" := VStr (s +:+ " PRE") ]> data)
    | Some _ => Raise TypeError
    | None => Raise (KeyError (PyStr.repr "input_text"))
    end.

Definition post_hook : hook :=
  fun result =>
    match result !! "final_output" with
    | Some (VStr s) => Ok (<[ "final_output" := VStr (s +:+ " POST") ]> result)
    | Some _ => Raise TypeError
    | None => Raise (KeyError (PyStr.repr "final_output"))
    end.

(** ** Counting the events of a kind *)

Definition count_events (P : event -> bool) (t : list event) : nat :=
  length (filter (fun ev => P ev = true) t).

(** No event of the kind [P] *)
Definition silent (P : event -> bool) (t : list event) : Prop :=
  Forall (fun ev => P ev = false) t.

Definition is_request_metric (ev : event) : bool :=
  match ev with EvMetric requests_total => true | _ => false end.

Definition is_success_metric (ev : event) : bool :=
  match ev with EvMetric success_total => true | _ => false end.

Definition is_failure_metric (ev : event) : bool :=
  match ev with EvMetric failure_total => true | _ => false end.

(** The three request counters of [MetricsCollector] *)
Definition is_accounting (ev : event) : bool :=
  is_request_metric ev || is_success_metric ev || is_failure_metric ev.

Definition is_network (ev : event) : bool :=
  match ev with EvPost _ _ | EvSleep _ => true | _ => false end.

Definition sum_Z (l : list Z) : Z := foldr Z.add 0%Z l.

(** The seconds slept by a computation *)
Definition total_sleep {A} (m : M A) : Z := sum_Z (sleeps_of (trace m)).

(** The sleep that follows a failed attempt, if any *)
Definition backoff_of (w : world) (req : request) (attempt : nat) : option Z :=
  if transport_failure (requests_post w attempt req) then Some (2 ^ Z.of_nat attempt)%Z else None.

(** An envelope with a key that the input schema does not have *)
Definition annotated_input : pydict :=
  {[ "input_text" := VStr " Hello "; "context" := VStr "Polite Tone"; "trace_id" := VInt 7 ]}.

(** Each attempt but the last one of the budget can add its backoff. *)
Definition sleep_budget (n : Z) (attempt : nat) : Z :=
  if (Z.of_nat attempt =? n - 1)%Z then 0%Z else (2 ^ Z.of_nat attempt)%Z.

(** A field name that [str.format] reads as a plain name: no brace, no
    attribute access, no index, no conversion, no format
    specification. *)
Fixpoint plain_name (s : string) : bool :=
  match s with
  | EmptyString => true
  | String c s' =>
      negb (Ascii.eqb c "{"%char) && negb (Ascii.eqb c "}"%char)
      && negb (is_complex_field_char c) && plain_name s'
  end.

(** The text that stage 1 returns for [s] *)
Definition normalized (c : PipelineConfig) (s : string) : string :=
  (if lowercase_input c then PyStr.lower else id) ((if strip_input c then PyStr.strip else id) s).

(** A usage block with a negative total *)
Definition negative_total_usage : pyval :=
  VDict {[ "prompt_tokens" := VInt 3; "completion_tokens" := VInt 4; "total_tokens" := VInt (-1) ]}.

(** A kind of event that no log call produces *)
Definition log_free (P : event -> bool) : Prop := forall lvl, P (EvLog lvl) = false.




(** What [process] returns in development mode for "Hello" and the
    context "Polite Tone", the template file missing *)
Definition mock_envelope : pydict :=
  {[ "final_output" := VStr ("[Development Mode] Mock response for: User: hello"
                             +:+ LF +:+ "Context: Polite Tone" +:+ LF +:+ "Response:...");
     "context_used" := VStr "Polite Tone";
     "timestamp" := VFloat 0;
     "token_usage" := VDict {[ "prompt_tokens" := VInt 6; "completion_tokens" := VInt 10;
                               "total_tokens" := VInt 16 ]} ]}.




(** The posts of a trace, in order *)
Definition posts (t : list event) : list event := filter (fun ev => is_post ev = true) t.

(** A result with a key that the output schema does not have *)
Definition annotated_output : pydict :=
  {[ "final_output" := VStr "Test POST"; "timestamp" := VFloat 3; "processed_at" := VFloat 4 ]}.

(** ** The validation and the four stages of [process]

    What the [try] block of [process] does between the pre-hooks and
    the post-hooks. *)

Definition validated_stages (rt : runtime) (w : world) (self : LLMPipeline)
    (input_data : pydict) (template_name : option string) : M pydict :=
  input_data <- (if validate_schemas (config self)
                 then Validators.validate_input rt w input_data
                 else ret input_data) ;;
  logged <- lift (getitem input_data "input_text") ;;
  _ <- lift (slice_50 logged) ;;
  emit (EvLog INFO) ;;;
  text <- lift (getitem input_data "input_text") ;;
  ctx <- lift (getitem input_data "context") ;;
  preprocessed <- preprocess_input self text ctx ;;
  prompt <- compose_prompt rt w self preprocessed template_name ;;
  inference_result <- run_inference w self prompt ;;
  ctx <- lift (getitem input_data "context") ;;
  result <- postprocess_output w self inference_result ctx ;;
  log_token_usage result ;;;
  result <- (if validate_schemas (config self)
             then Validators.validate_output rt w result
             else ret result) ;;
  ret result.

(** ** Hooks that act on the caller's objects

    A hook is any callable.  Besides returning an envelope or raising
    an [Exception], it can update in place an object that the caller
    passed to [process] (the envelope holds the very objects, and a
    hook can hold a reference of its own), and it can raise an
    exception that does not derive from [Exception], which no
    [except Exception] clause matches.  Here a hook says both what it
    returns and what the caller's two objects contain after the call;
    the hooks of type [hook] above are those that leave the objects
    alone and raise exceptions of class [Exception] only. *)

Module Effectful.

(** The exception classes that derive from [BaseException] directly *)
Inductive base_exception : Type := KeyboardInterrupt | SystemExit | GeneratorExit.

(** The objects passed as [input_text] and [context], by their content *)
Record caller_objects : Type := {
  input_text_object : pyval;
  context_object : pyval
}.

(** How a call of a hook, or the [try] block, ends *)
Inductive completion : Type :=
| Returns (data : pydict)
| Raises (e : exn)
| Escapes (b : base_exception).

Definition hook : Type := pydict -> caller_objects -> caller_objects * completion.

(** The values that can be updated in place: lists and dictionaries.
    [None], booleans, numbers and strings are immutable. *)
Definition mutable (v : pyval) : bool :=
  match v with
  | VList _ | VDict _ => true
  | _ => false
  end.

(** An update in place: only a list or a dictionary has one, and it
    remains a list or a dictionary. *)
Definition in_place (old new : pyval) : pyval :=
  match old, new with
  | VList _, VList _ => new
  | VDict _, VDict _ => new
  | _, _ => old
  end.

(** What every update in place keeps: the type of the object and, for
    an immutable object, its value. *)
Definition kept (old new : pyval) : Prop :=
  type_name new = type_name old
  /\ mutable new = mutable old
  /\ (mutable old = false -> new = old).

Definition updated (old new : caller_objects) : caller_objects := {|
  input_text_object := in_place (input_text_object old) (input_text_object new);
  context_object := in_place (context_object old) (context_object new)
|}.

Record LLMPipeline : Type := {
  config : PipelineConfig;
  pre_hooks : list hook;
  post_hooks : list hook
}.

(** [for hook in hooks: data = hook(data)] *)
Fixpoint run_hooks (hooks : list hook) (data : pydict) (objects : caller_objects)
    : caller_objects * completion :=
  match hooks with
  | [] => (objects, Returns data)
  | h :: rest =>
      let '(objects', done) := h data objects in
      match done with
      | Returns data' => run_hooks rest data' (updated objects objects')
      | _ => (updated objects objects', done)
      end
  end.

(** A run: the effects performed, the caller's objects afterwards, and
    how it ended. *)
Record run (A : Type) : Type := Run {
  events : list event;
  objects : caller_objects;
  ending : A
}.
Arguments Run {A} events objects ending.
Arguments events {A} r.
Arguments objects {A} r.
Arguments ending {A} r.

(** How a call of [process] ends: with the envelope returned, or with
    an exception propagated to the caller. *)
Inductive call : Type :=
| Returned (envelope : pydict)
| Propagated (b : base_exception).

Section Orchestrator.
Context (rt : runtime) (w : world).

(** The [try] block of [process] *)
Definition process_body (self : LLMPipeline) (input_text context : pyval)
    (template_name : option string) : run completion :=
  let stages := new_pipeline (config self) in
  let input_data : pydict := {[ "input_text" := input_text; "context" := context ]} in
  let '(objects, pre) :=
    run_hooks (pre_hooks self) input_data
      {| input_text_object := input_text; context_object := context |} in
  match pre with
  | Returns input_data =>
      match validated_stages rt w stages input_data template_name with
      | (t, Ok result) =>
          let '(objects, post) := run_hooks (post_hooks self) result objects in
          match post with
          | Returns result =>
              Run (t ++ trace (record_success w stages ;;; time_pipeline w stages ;;;
                               emit (EvLog INFO)))
                  objects (Returns result)
          | _ => Run t objects post
          end
      | (t, Raise e) => Run t objects (Raises e)
      end
  | _ => Run [] objects pre
  end.

(** [LLMPipeline.process]: the two [except] clauses build their
    envelope from the local names [input_text] and [context], which are
    the caller's objects. *)
Definition process (self : LLMPipeline) (input_text context : pyval)
    (template_name : option string) : run call :=
  let stages := new_pipeline (config self) in
  let body := process_body self input_text context template_name in
  let started := trace (record_request w stages) ++ events body in
  let failed := started ++ trace (emit (EvLog ERROR) ;;; record_failure w stages) in
  match ending body with
  | Returns result => Run started (objects body) (Returned result)
  | Raises (PipelineError msg) =>
      Run failed (objects body)
        (Returned (failure_envelope msg (input_text_object (objects body))
                                        (context_object (objects body))))
  | Raises _ => Run failed (objects body) (Returned internal_failure_envelope)
  | Escapes b => Run started (objects body) (Propagated b)
  end.

End Orchestrator.

(** A hook of type [pydict -> outcome pydict], as a hook here *)
Definition pure_hook (h : pydict -> outcome pydict) : hook :=
  fun data objects =>
    (objects, match h data with Ok data' => Returns data' | Raise e => Raises e end).

(** A hook that leaves the caller's objects as they are *)
Definition leaves_objects (h : hook) : Prop :=
  forall data objects, updated objects (fst (h data objects)) = objects.

(** A hook that raises exceptions of class [Exception] only *)
Definition raises_exceptions_only (h : hook) : Prop :=
  forall data objects b, snd (h data objects) <> Escapes b.

End Effectful.

(** The pipeline with the same configuration and hooks, the hooks
    leaving the caller's objects alone *)
Definition with_pure_hooks (self : LLMPipeline) : Effectful.LLMPipeline := {|
  Effectful.config := config self;
  Effectful.pre_hooks := Effectful.pure_hook <$> pre_hooks self;
  Effectful.post_hooks := Effectful.pure_hook <$> post_hooks self
|}.

(** The errors that the specification calls classified pipeline errors:
    those raised by a stage, of the pipeline's own class, and the
    rejections of the schema validation. *)
Definition classified (e : exn) : bool :=
  match e with
  | PipelineError _ | ValidationError => true
  | _ => false
  end.

(** A hook interrupted from the keyboard *)
Definition interrupted_hook : Effectful.hook :=
  fun _ objects => (objects, Effectful.Escapes Effectful.KeyboardInterrupt).

(** [def mark(data): data["context"]["seen"] = True; return data],
    registered as the first pre-hook: [data["context"]] is the caller's
    object. *)
Definition marking_hook : Effectful.hook :=
  fun data objects =>
    match data !! "context" with
    | Some (VDict ctx) =>
        let marked := VDict (<[ "seen" := VBool true ]> ctx) in
        ({| Effectful.input_text_object := Effectful.input_text_object objects;
            Effectful.context_object := marked |},
         Effectful.Returns (<[ "context" := marked ]> data))
    | Some _ => (objects, Effectful.Raises TypeError)
    | None => (objects, Effectful.Raises (KeyError (PyStr.repr "context")))
    end.

Definition effectful_pipeline (c : PipelineConfig) (pre post : list Effectful.hook)
    : Effectful.LLMPipeline :=
  {| Effectful.config := c; Effectful.pre_hooks := pre; Effectful.post_hooks := post |}.

(* ================================================================ *)
(** * Properties *)

(** ** Computations *)

Lemma result_bind_ok {A B} (m : M A) (k : A -> M B) (a : A) :
  result m = Ok a -> result (bind m k) = result (k a).
Proof.
  destruct m as [t o]; simpl; intros ->. unfold bind. by destruct (k a).
Qed.

Lemma result_bind_raise {A B} (m : M A) (k : A -> M B) (e : exn) :
  result m = Raise e -> result (bind m k) = Raise e.
Proof. destruct m as [t o]; simpl; intros ->. reflexivity. Qed.

Lemma result_bind_inv {A B} (m : M A) (k : A -> M B) (b : B) :
  result (bind m k) = Ok b -> exists a, result m = Ok a /\ result (k a) = Ok b.
Proof.
  destruct m as [t [a|e]]; simpl.
  - intros H. exists a. split; [done|]. unfold bind in H. by destruct (k a).
  - discriminate.
Qed.

(** In [H : result (x <- m ;; k x) = Ok b], step over [m]. *)
Ltac skip_bind H := apply result_bind_inv in H as (? & _ & H).

Lemma trace_bind_ok {A B} (m : M A) (k : A -> M B) (a : A) :
  result m = Ok a -> trace (bind m k) = trace m ++ trace (k a).
Proof.
  destruct m as [t o]; simpl; intros ->. unfold bind. by destruct (k a).
Qed.

Lemma result_timing_decorator {A} (m : M A) :
  result (timing_decorator m) = result m.
Proof. by destruct m as [t [a|e]]. Qed.

Lemma result_lift {A} (o : outcome A) : result (lift o) = o.
Proof. reflexivity. Qed.

(** ** Stage 1 *)

Lemma preprocess_input_str (self : LLMPipeline) (s : string) (ctx : pyval) :
  preprocess_input self (VStr s) ctx =
  ([EvLog DEBUG; EvLog INFO],
   Ok {[ "input" := VStr
           ((if lowercase_input (config self) then PyStr.lower else id)
              ((if strip_input (config self) then PyStr.strip else id) s));
         "context" := ctx ]}).
Proof.
  unfold preprocess_input, timing_decorator.
  by destruct (strip_input _), (lowercase_input _).
Qed.

(** [strip] removes whitespace from both ends and nothing else. *)

Lemma append_cons (c : ascii) (s t : string) : String c s +:+ t = String c (s +:+ t).
Proof. reflexivity. Qed.

Lemma append_empty (t : string) : EmptyString +:+ t = t.
Proof. reflexivity. Qed.

Lemma lstrip_split (s : string) :
  exists pre, s = pre +:+ PyStr.lstrip s /\ all_space pre = true
              /\ not_space (first_char (PyStr.lstrip s)).
Proof.
  induction s as [|c s [pre (Hs & Hpre & Hfirst)]]; simpl.
  - by exists EmptyString.
  - destruct (PyStr.isspace c) eqn:Hc.
    + exists (String c pre). simpl. rewrite Hc, Hpre, append_cons. repeat split; try done.
      by f_equal.
    + by exists EmptyString.
Qed.

Lemma rstrip_split (s : string) :
  exists post, s = PyStr.rstrip s +:+ post /\ all_space post = true
               /\ not_space (last_char (PyStr.rstrip s)).
Proof.
  induction s as [|c s [post (Hs & Hpost & Hlast)]]; simpl.
  - by exists EmptyString.
  - destruct (PyStr.rstrip s) as [|c' r] eqn:Hr.
    + destruct (PyStr.isspace c) eqn:Hc.
      * exists (String c post). rewrite append_empty in *. simpl. rewrite Hc, Hpost.
        repeat split; try done. by subst s.
      * exists post. rewrite append_empty in Hs. rewrite append_cons, append_empty.
        simpl. repeat split; try done. by subst s.
    + exists post. rewrite append_cons. repeat split; try done. by f_equal.
Qed.

Lemma rstrip_first_char (s : string) :
  not_space (first_char s) -> not_space (first_char (PyStr.rstrip s)).
Proof.
  destruct s as [|c s]; simpl; [done|]. intros Hc.
  destruct (PyStr.rstrip s); [by rewrite Hc|done].
Qed.

Lemma strip_split (s : string) :
  exists pre post,
    s = pre +:+ PyStr.strip s +:+ post
    /\ all_space pre = true /\ all_space post = true
    /\ not_space (first_char (PyStr.strip s))
    /\ not_space (last_char (PyStr.strip s)).
Proof.
  destruct (lstrip_split s) as [pre (Hs & Hpre & Hfirst)].
  destruct (rstrip_split (PyStr.lstrip s)) as [post (Hl & Hpost & Hlast)].
  exists pre, post. unfold PyStr.strip. repeat split; try done.
  - by rewrite <- Hl.
  - by apply rstrip_first_char.
Qed.

Lemma lower_char_not_upper (c : ascii) : PyStr.isupper (PyStr.lower_char c) = false.
Proof.
  destruct c as [[] [] [] [] [] [] [] []]; reflexivity.
Qed.

Lemma lower_length (s : string) : String.length (PyStr.lower s) = String.length s.
Proof. unfold PyStr.lower. induction s; simpl; congruence. Qed.

Lemma lstrip_id (s : string) : not_space (first_char s) -> PyStr.lstrip s = s.
Proof. destruct s as [|c s]; simpl; [done|]. by intros ->. Qed.

Lemma rstrip_id (s : string) : not_space (last_char s) -> PyStr.rstrip s = s.
Proof.
  induction s as [|c s IH]; [done|]. destruct s as [|c' s].
  - simpl. by intros ->.
  - intros Hlast. change (PyStr.rstrip (String c (String c' s)))
      with (match PyStr.rstrip (String c' s) with
            | EmptyString => if PyStr.isspace c then EmptyString else String c EmptyString
            | r => String c r
            end).
    by rewrite IH.
Qed.

(** The embedded methods against the two relations *)

Lemma isspace_whitespace (c : ascii) : PyStr.isspace c = is_whitespace c.
Proof. destruct c as [[] [] [] [] [] [] [] []]; reflexivity. Qed.

Lemma isupper_uppercase_letter (c : ascii) : PyStr.isupper c = uppercase_letter (N_of_ascii c).
Proof. destruct c as [[] [] [] [] [] [] [] []]; reflexivity. Qed.

Lemma all_space_blank (s : string) : all_space s = blank s.
Proof. induction s as [|c s IH]; simpl; [done|]. by rewrite isspace_whitespace, IH. Qed.

Lemma not_space_solid (c : option ascii) : not_space c <-> solid c.
Proof. destruct c as [c|]; simpl; [by rewrite isspace_whitespace|done]. Qed.

Lemma strip_trimmed (s : string) : trimmed s (PyStr.strip s).
Proof.
  destruct (strip_split s) as (pre & post & Hs & Hpre & Hpost & Hfirst & Hlast).
  exists pre, post. rewrite <- !all_space_blank, <- !not_space_solid. by repeat split.
Qed.

Lemma lstrip_blank (pre s : string) :
  blank pre = true -> PyStr.lstrip (pre +:+ s) = PyStr.lstrip s.
Proof.
  induction pre as [|c pre IH]; [done|]. rewrite append_cons. simpl.
  rewrite isspace_whitespace. intros [-> Hpre]%andb_true_iff. by apply IH.
Qed.

Lemma rstrip_all_blank (post : string) : blank post = true -> PyStr.rstrip post = EmptyString.
Proof.
  induction post as [|c post IH]; [done|]. simpl.
  intros [Hc Hpost]%andb_true_iff. by rewrite IH, isspace_whitespace, Hc.
Qed.

Lemma rstrip_blank (s post : string) :
  blank post = true -> PyStr.rstrip (s +:+ post) = PyStr.rstrip s.
Proof.
  intros Hpost. induction s as [|c s IH].
  - rewrite append_empty. by apply rstrip_all_blank.
  - rewrite append_cons. simpl. by rewrite IH.
Qed.

(** [strip] is the only trimming. *)
Lemma trimmed_strip (s t : string) : trimmed s t -> t = PyStr.strip s.
Proof.
  intros (pre & post & -> & Hpre & Hpost & Hfirst & Hlast).
  unfold PyStr.strip. rewrite lstrip_blank by done.
  destruct t as [|c t].
  - rewrite append_empty. clear Hfirst Hlast.
    assert (PyStr.lstrip post = EmptyString) as ->; [|done].
    induction post as [|c post IH]; [done|]. simpl in *.
    apply andb_true_iff in Hpost as [Hc Hpost]. rewrite isspace_whitespace, Hc. by apply IH.
  - rewrite lstrip_id.
    + rewrite rstrip_blank by done. symmetry. apply rstrip_id. by apply not_space_solid.
    + rewrite append_cons. by apply not_space_solid.
Qed.

Lemma lower_lowercased (s : string) : lowercased s (PyStr.lower s).
Proof.
  induction s as [|c s IH]; simpl; [done|]. split; [|done].
  destruct c as [[] [] [] [] [] [] [] []]; reflexivity.
Qed.

(** [lower] is the only lowercasing. *)
Lemma lowercased_lower (s t : string) : lowercased s t -> t = PyStr.lower s.
Proof.
  revert t. induction s as [|c s IH]; intros [|d t]; simpl; try done.
  intros [Hd Ht]. unfold PyStr.lower. simpl. f_equal; [|by apply IH].
  rewrite <- (ascii_N_embedding d), Hd. unfold PyStr.lower_char.
  rewrite isupper_uppercase_letter.
  destruct (uppercase_letter _); [done|apply ascii_N_embedding].
Qed.

(** C6. For every string and every context, [preprocess_input] returns
    the context unchanged and the text normalized by the enabled
    transforms only, strip first and lowercase second.  With its flag
    set, strip returns the text without the whitespace at its two ends
    (the result neither begins nor ends with a whitespace character and
    what was removed is whitespace only), and lowercase returns the text
    with every uppercase letter replaced by its lowercase form and
    every other character kept; with its flag cleared the transform
    leaves the text as it is.  The text so described is the only one,
    and it is what the embedded [strip] and [lower] compute; with the
    default configuration it is [lower (strip s)]. *)
Theorem preprocess_input_strip_then_lower (self : LLMPipeline) (s : string) (ctx : pyval) :
  (exists text out : string,
     (if strip_input (config self) then trimmed s text else text = s)
     /\ (if lowercase_input (config self) then lowercased text out else out = text)
     /\ result (preprocess_input self (VStr s) ctx)
        = Ok {[ "input" := VStr out; "context" := ctx ]})
  /\ (forall text out : string,
        (if strip_input (config self) then trimmed s text else text = s) ->
        (if lowercase_input (config self) then lowercased text out else out = text) ->
        result (preprocess_input self (VStr s) ctx)
        = Ok {[ "input" := VStr out; "context" := ctx ]}
        /\ out = match strip_input (config self), lowercase_input (config self) with
                 | true, true => PyStr.lower (PyStr.strip s)
                 | true, false => PyStr.strip s
                 | false, true => PyStr.lower s
                 | false, false => s
                 end)
  /\ result (preprocess_input (new_pipeline default_config) (VStr s) ctx)
     = Ok {[ "input" := VStr (PyStr.lower (PyStr.strip s)); "context" := ctx ]}
  /\ trimmed s (PyStr.strip s)
  /\ lowercased (PyStr.strip s) (PyStr.lower (PyStr.strip s)).
Proof.
  assert (forall text out : string,
            (if strip_input (config self) then trimmed s text else text = s) ->
            (if lowercase_input (config self) then lowercased text out else out = text) ->
            out = (if lowercase_input (config self) then PyStr.lower else id)
                    ((if strip_input (config self) then PyStr.strip else id) s)) as Honly.
  { intros text out Hstrip Hlower.
    destruct (strip_input _), (lowercase_input _); simpl.
    - apply trimmed_strip in Hstrip. apply lowercased_lower in Hlower. by subst.
    - apply trimmed_strip in Hstrip. by subst.
    - apply lowercased_lower in Hlower. by subst.
    - by subst. }
  split; [|split; [|split; [|split]]].
  - exists ((if strip_input (config self) then PyStr.strip else id) s),
           ((if lowercase_input (config self) then PyStr.lower else id)
              ((if strip_input (config self) then PyStr.strip else id) s)).
    rewrite preprocess_input_str.
    destruct (strip_input _), (lowercase_input _); simpl;
      repeat split; auto using strip_trimmed, lower_lowercased.
  - intros text out Hstrip Hlower.
    rewrite (Honly text out Hstrip Hlower), preprocess_input_str.
    by destruct (strip_input _), (lowercase_input _).
  - by rewrite preprocess_input_str.
  - apply strip_trimmed.
  - apply lower_lowercased.
Qed.

Lemma preprocess_input_strip_then_lower_witness :
  result (preprocess_input (new_pipeline default_config) (VStr padded_text) (VStr "Polite Tone"))
  = Ok {[ "input" := VStr lowered_text; "context" := VStr "Polite Tone" ]}
  /\ lowered_text = PyStr.lower (PyStr.strip padded_text).
Proof.
  destruct (preprocess_input_strip_then_lower (new_pipeline default_config)
              padded_text (VStr "Polite Tone")) as (_ & Hall & _).
  apply (Hall trimmed_text lowered_text).
  - exists (String (ascii_of_N 160) EmptyString), (String (ascii_of_N 160) " ").
    repeat split; reflexivity.
  - vm_compute. repeat split; reflexivity.
Defined.

Example strip_no_break_space : PyStr.strip padded_text = trimmed_text.
Proof. reflexivity. Qed.

Example lower_accented_capital : PyStr.lower trimmed_text = lowered_text.
Proof. reflexivity. Qed.

Example upper_sharp_s :
  PyStr.upper ("stra" +:+ String (ascii_of_N 223) "e") = "STRASSE".
Proof. reflexivity. Qed.

Example preprocess_input_test :
  result (preprocess_input (new_pipeline default_config) (VStr "  TEST Input  ") (VStr "test context"))
  = Ok {[ "input" := VStr "test input"; "context" := VStr "test context" ]}.
Proof. reflexivity. Qed.

(** C9, as stated: a non-string raw text makes [preprocess_input] fail
    with an error of class [TypeError].  It does not: the error raised
    for the integer 5 is not a [TypeError]. *)
Lemma preprocess_input_error_is_not_TypeError :
  ~ (forall (self : LLMPipeline) (v ctx : pyval),
       is_str v = false ->
       exists e, result (preprocess_input self v ctx) = Raise e /\ is_TypeError e = true).
Proof.
  intros H.
  destruct (H (new_pipeline default_config) (VInt 5) VNone eq_refl) as (e & He & Hty).
  vm_compute in He. injection He as <-. discriminate.
Qed.

(** C9, amended. For every non-string value passed as the raw text,
    [preprocess_input] fails with a [PipelineError] that names the type
    received, whatever the context; for a string, the context is
    returned unchanged. *)
Theorem preprocess_input_rejects_non_string (self : LLMPipeline) (v ctx : pyval) :
  is_str v = false ->
  preprocess_input self v ctx
  = ([], Raise (PipelineError ("Input must be a string, got " +:+ type_repr v)))
  /\ (forall s, exists out,
        result (preprocess_input self (VStr s) ctx) = Ok out /\ out !! "context" = Some ctx).
Proof.
  intros Hv. split.
  - by destruct v.
  - intros s. rewrite preprocess_input_str. eexists. by split.
Qed.

Lemma preprocess_input_rejects_non_string_witness :
  is_str (VList [VStr "a"]) = false
  /\ preprocess_input (new_pipeline default_config) (VList [VStr "a"]) VNone
     = ([], Raise (PipelineError "Input must be a string, got <class 'list'>")).
Proof.
  split; [reflexivity|].
  apply (preprocess_input_rejects_non_string (new_pipeline default_config)
           (VList [VStr "a"]) VNone); reflexivity.
Defined.

(** ** Stage 4 *)

Lemma postprocess_output_eq (w : world) (self : LLMPipeline) (d : pydict) (ctx : pyval) :
  postprocess_output w self d ctx =
  match default (VStr EmptyString) (d !! "content") with
  | VStr s =>
      ([EvLog INFO],
       Ok {[ "final_output" := VStr (if uppercase_output (config self) then PyStr.upper s else s);
             "context_used" := ctx;
             "timestamp" := VFloat (time_time w);
             "token_usage" := if truthy (default (VDict ∅) (d !! "usage"))
                              then default (VDict ∅) (d !! "usage") else VNone ]})
  | v => ([], Raise (PipelineError ("Output must be a string, got " +:+ type_repr v)))
  end.
Proof.
  unfold postprocess_output, timing_decorator.
  by destruct (default _ (d !! "content")).
Qed.

(** C10. For every inference result without a [content] key,
    [postprocess_output] does not raise: the content defaults to the
    empty string and the envelope returned has [final_output] empty.
    It raises exactly when a [content] value is present and is not a
    string. *)
Theorem postprocess_output_missing_content (w : world) (self : LLMPipeline)
    (inference_result : pydict) (ctx : pyval) :
  inference_result !! "content" = None ->
  (exists out,
     result (postprocess_output w self inference_result ctx) = Ok out
     /\ out !! "final_output" = Some (VStr EmptyString)
     /\ success_shaped out = true)
  /\ (forall (d : pydict),
        (exists e, result (postprocess_output w self d ctx) = Raise e)
        <-> (exists v, d !! "content" = Some v /\ is_str v = false)).
Proof.
  intros Hnone. split.
  - rewrite postprocess_output_eq, Hnone. simpl. eexists. split; [reflexivity|].
    split; [by destruct (uppercase_output _)|reflexivity].
  - intros d. rewrite postprocess_output_eq. split.
    + intros [e He]. destruct (d !! "content") as [v|]; simpl in He.
      * exists v. split; [done|]. by destruct v.
      * discriminate.
    + intros (v & -> & Hv). simpl. destruct v; try discriminate; by eexists.
Qed.

Lemma postprocess_output_missing_content_witness :
  exists out,
    result (postprocess_output offline_world (new_pipeline default_config)
              {[ "usage" := VDict ∅ ]} (VStr "c")) = Ok out
    /\ out !! "final_output" = Some (VStr EmptyString)
    /\ success_shaped out = true.
Proof.
  apply (postprocess_output_missing_content offline_world (new_pipeline default_config)
           {[ "usage" := VDict ∅ ]} (VStr "c")).
  reflexivity.
Defined.

(** ** Template loading *)

(** C8, as stated: whenever the template file cannot be read, loading
    returns the fallback template.  It does not when the file exists
    and opening it is refused: the error propagates. *)
Lemma load_template_unreadable_propagates :
  ~ (forall (w : world) (self : LLMPipeline) (template_name : option string) (e : exn),
       open_read w (template_dir (config self)) (template_file self template_name) = Raise e ->
       result (_load_template w self template_name) = Ok fallback_template).
Proof.
  intros H.
  specialize (H locked_world (new_pipeline default_config) (Some "tone.txt")
                PermissionError eq_refl).
  discriminate H.
Qed.

(** C8, amended. For every template name whose file does not exist
    under the configured template directory ([open] raises
    [FileNotFoundError]), template loading logs a warning and returns
    the built-in fallback template; any other failure to read the file
    is raised to the caller. *)
Theorem load_template_not_found_fallback (w : world) (self : LLMPipeline)
    (template_name : option string) :
  open_read w (template_dir (config self)) (template_file self template_name)
    = Raise FileNotFoundError ->
  _load_template w self template_name = ([EvLog WARNING], Ok fallback_template)
  /\ fallback_template
     = "User: {user_input}" +:+ LF +:+ "Context: {context}" +:+ LF +:+ "Response:".
Proof.
  intros Hopen. split; [|reflexivity].
  unfold _load_template. by rewrite Hopen.
Qed.

Lemma load_template_not_found_fallback_witness :
  _load_template offline_world (new_pipeline default_config) (Some "tone.txt")
  = ([EvLog WARNING], Ok fallback_template).
Proof.
  apply (load_template_not_found_fallback offline_world (new_pipeline default_config)
           (Some "tone.txt")).
  reflexivity.
Defined.

Lemma load_template_other_error (w : world) (self : LLMPipeline)
    (template_name : option string) (e : exn) :
  open_read w (template_dir (config self)) (template_file self template_name) = Raise e ->
  e <> FileNotFoundError ->
  _load_template w self template_name = ([], Raise e).
Proof.
  intros Hopen Hne. unfold _load_template. rewrite Hopen. simpl.
  by destruct e.
Qed.

Lemma load_template_found (w : world) (self : LLMPipeline)
    (template_name : option string) (text : string) :
  open_read w (template_dir (config self)) (template_file self template_name) = Ok text ->
  _load_template w self template_name = ([], Ok text).
Proof. intros Hopen. unfold _load_template. by rewrite Hopen. Qed.

(** ** [str.format] on literal text and named fields *)

Lemma append_assoc (a b c : string) : (a +:+ b) +:+ c = a +:+ (b +:+ c).
Proof. induction a as [|x a IH]; [done|]. by rewrite !append_cons, IH. Qed.

Lemma prepend_prepend (a b : string) (o : outcome string) :
  prepend a (prepend b o) = prepend (a +:+ b) o.
Proof. destruct o; simpl; [|done]. by rewrite append_assoc. Qed.

Lemma prepend_empty (o : outcome string) : prepend EmptyString o = o.
Proof. by destruct o. Qed.

Lemma format_scan_text (rt : runtime) (kwargs : pydict) (s rest : string) :
  brace_free s = true ->
  format_scan rt kwargs None (s +:+ rest) = prepend s (format_scan rt kwargs None rest).
Proof.
  induction s as [|c s IH]; intros Hs.
  - by rewrite append_empty, prepend_empty.
  - simpl in Hs. apply andb_prop in Hs as [Hc Hs]. apply andb_prop in Hc as [Hopen Hclose].
    apply negb_true_iff in Hopen, Hclose.
    rewrite append_cons. simpl. rewrite Hopen, Hclose, IH by done.
    by rewrite prepend_prepend.
Qed.

Lemma format_scan_user_input (rt : runtime) (kwargs : pydict) (v : pyval) (rest : string) :
  kwargs !! "user_input" = Some v ->
  format_scan rt kwargs None ("{user_input}" +:+ rest)
  = prepend (format_value rt v) (format_scan rt kwargs None rest).
Proof.
  intros Hv. rewrite !append_cons, append_empty. cbn.
  change (lookup_field rt kwargs _) with (lookup_field rt kwargs "user_input").
  unfold lookup_field. change (all_digits "user_input") with false.
  cbv iota. by rewrite Hv.
Qed.

Lemma format_scan_context (rt : runtime) (kwargs : pydict) (v : pyval) (rest : string) :
  kwargs !! "context" = Some v ->
  format_scan rt kwargs None ("{context}" +:+ rest)
  = prepend (format_value rt v) (format_scan rt kwargs None rest).
Proof.
  intros Hv. rewrite !append_cons, append_empty. cbn.
  change (lookup_field rt kwargs _) with (lookup_field rt kwargs "context").
  unfold lookup_field. change (all_digits "context") with false.
  cbv iota. by rewrite Hv.
Qed.

Lemma str_format_pieces (rt : runtime) (user_input context : pyval) (ps : list piece) :
  forallb plain_piece ps = true ->
  str_format rt (template_source ps) {[ "user_input" := user_input; "context" := context ]}
  = Ok (template_value rt user_input context ps).
Proof.
  unfold str_format, template_source, template_value.
  induction ps as [|p ps IH]; intros Hps; [done|].
  simpl in Hps. apply andb_prop in Hps as [Hp Hps].
  destruct p; cbn [concat_strings map piece_source piece_value].
  - rewrite format_scan_text, IH by done. reflexivity.
  - rewrite (format_scan_user_input _ _ user_input), IH by done. reflexivity.
  - rewrite (format_scan_context _ _ context), IH by done. reflexivity.
Qed.

(** ** Stage 2 *)

Lemma result_try_except_ok {A} (m : M A) (h : exn -> option (M A)) (a : A) :
  result m = Ok a -> result (try_except m h) = Ok a.
Proof. destruct m as [t o]; simpl; by intros ->. Qed.

Lemma result_try_except_raise {A} (m : M A) (h : exn -> option (M A)) (e : exn) (m' : M A) :
  result m = Raise e -> h e = Some m' -> result (try_except m h) = result m'.
Proof.
  destruct m as [t o]; simpl; intros -> Hh. unfold try_except. rewrite Hh.
  by destruct m'.
Qed.

Lemma compose_prompt_missing_key (rt : runtime) (w : world) (self : LLMPipeline)
    (data : pydict) (template_name : option string) (k : string) :
  (k = "input" /\ data !! "input" = None)
  \/ (k = "context" /\ is_Some (data !! "input") /\ data !! "context" = None) ->
  result (compose_prompt rt w self data template_name)
  = Raise (PipelineError ("Missing required key in preprocessed data: " +:+ PyStr.repr k)).
Proof.
  intros Hk. unfold compose_prompt. rewrite result_timing_decorator.
  rewrite (result_try_except_raise _ _ (KeyError (PyStr.repr k))
             (raise (PipelineError
                ("Missing required key in preprocessed data: " +:+ PyStr.repr k))));
    [reflexivity| |reflexivity].
  destruct Hk as [[-> Hin]|(-> & [v Hin] & Hctx)].
  - apply result_bind_raise. unfold getitem. by rewrite Hin.
  - erewrite result_bind_ok by (unfold getitem; by rewrite Hin).
    apply result_bind_raise. unfold getitem. by rewrite Hctx.
Qed.

(** C7. For every preprocessed mapping with both keys, and a template
    made of brace-free text and the placeholders [{user_input}] and
    [{context}], [compose_prompt] returns the template with each
    placeholder replaced by the value given for it; for every mapping
    without the [input] key or without the [context] key it raises a
    [PipelineError] that names the missing key. *)
Theorem compose_prompt_substitutes (rt : runtime) (w : world) (self : LLMPipeline)
    (data : pydict) (template_name : option string) :
  (forall (user_input context : pyval) (ps : list piece),
     data !! "input" = Some user_input ->
     data !! "context" = Some context ->
     result (_load_template w self template_name) = Ok (template_source ps) ->
     forallb plain_piece ps = true ->
     result (compose_prompt rt w self data template_name)
     = Ok (template_value rt user_input context ps))
  /\ (data !! "input" = None \/ data !! "context" = None ->
      exists k, (k = "input" \/ k = "context") /\ data !! k = None
        /\ result (compose_prompt rt w self data template_name)
           = Raise (PipelineError
                      ("Missing required key in preprocessed data: '" +:+ k +:+ "'"))).
Proof.
  split.
  - intros user_input context ps Hin Hctx Hload Hps.
    unfold compose_prompt. rewrite result_timing_decorator.
    apply result_try_except_ok.
    erewrite result_bind_ok by (unfold getitem; by rewrite Hin).
    erewrite result_bind_ok by (unfold getitem; by rewrite Hctx).
    erewrite result_bind_ok by exact Hload.
    erewrite result_bind_ok by (rewrite result_lift; by apply str_format_pieces).
    reflexivity.
  - intros Hmiss. destruct (data !! "input") as [v|] eqn:Hin.
    + destruct Hmiss as [?|Hctx]; [done|]. exists "context".
      split; [by right|]. split; [done|].
      apply (compose_prompt_missing_key _ _ _ _ _ "context"). right.
      by rewrite Hin.
    + exists "input". split; [by left|]. split; [done|].
      apply (compose_prompt_missing_key _ _ _ _ _ "input"). by left.
Qed.

Lemma compose_prompt_substitutes_witness :
  result (compose_prompt strict_runtime offline_world (new_pipeline default_config)
            {[ "input" := VStr "hello"; "context" := VStr "greeting" ]} None)
  = Ok ("User: hello" +:+ LF +:+ "Context: greeting" +:+ LF +:+ "Response:")
  /\ exists k, (k = "input" \/ k = "context")
       /\ ({[ "context" := VStr "greeting" ]} : pydict) !! k = None
       /\ result (compose_prompt strict_runtime offline_world (new_pipeline default_config)
                    {[ "context" := VStr "greeting" ]} None)
          = Raise (PipelineError
                     ("Missing required key in preprocessed data: '" +:+ k +:+ "'")).
Proof.
  split.
  - apply (proj1 (compose_prompt_substitutes strict_runtime offline_world
                    (new_pipeline default_config)
                    {[ "input" := VStr "hello"; "context" := VStr "greeting" ]} None)
             (VStr "hello") (VStr "greeting")
             [Text "User: "; UserInput; Text (LF +:+ "Context: "); Context;
              Text (LF +:+ "Response:")]);
      reflexivity.
  - apply (proj2 (compose_prompt_substitutes strict_runtime offline_world
                    (new_pipeline default_config)
                    {[ "context" := VStr "greeting" ]} None)).
    left. reflexivity.
Defined.

(** ** Stage 3: the development mode *)

Lemma split_from_length (word s : string) :
  length (PyStr.split_from word s)
  = match word with
    | EmptyString => count_word_starts true s
    | _ => S (count_word_starts false s)
    end.
Proof.
  revert word. induction s as [|c s IH]; intros word.
  - by destruct word.
  - simpl. destruct (PyStr.isspace c) eqn:Hc; simpl.
    + destruct word; simpl; by rewrite IH.
    + rewrite IH. by destruct word.
Qed.

(** [len(prompt.split())] is the number of word starts. *)
Lemma split_length (s : string) : length (PyStr.split s) = word_count s.
Proof. apply split_from_length. Qed.

Lemma take_prefix (n : nat) (s : string) :
  exists rest, s = PyStr.take n s +:+ rest
               /\ String.length (PyStr.take n s) = Nat.min n (String.length s).
Proof.
  revert s. induction n as [|n IH]; intros s.
  - by exists s.
  - destruct s as [|c s]; [by exists EmptyString|].
    destruct (IH s) as (rest & Hs & Hlen). exists rest. simpl.
    rewrite append_cons, Hlen. split; [by f_equal|done].
Qed.

(** C3, as stated: without a credential, [run_inference] never raises,
    for every prompt.  It raises for the empty prompt, which is
    rejected before the credential is looked at. *)
Lemma run_inference_mock_rejects_empty_prompt :
  ~ (forall (w : world) (self : LLMPipeline) (prompt : string),
       llm_api_key (config self) = EmptyString ->
       exists out, result (run_inference w self prompt) = Ok out).
Proof.
  intros H.
  destruct (H offline_world (new_pipeline default_config) EmptyString eq_refl) as [out Hout].
  discriminate Hout.
Qed.

(** C3, amended. For every non-empty prompt, when no credential is
    configured, [run_inference] does not raise and posts nothing; it
    returns as content the development-mode marker followed by the
    first 50 characters of the prompt, and as usage [prompt_tokens]
    equal to the whitespace word count of the prompt,
    [completion_tokens] equal to 10 and [total_tokens] equal to the
    word count plus 10. *)
Theorem run_inference_mock (w : world) (self : LLMPipeline) (prompt : string) :
  llm_api_key (config self) = EmptyString ->
  prompt <> EmptyString ->
  exists usage : pydict,
    run_inference w self prompt
    = ([EvLog WARNING; EvLog INFO],
       Ok {[ "content" := VStr ("[Development Mode] Mock response for: "
                                +:+ PyStr.take 50 prompt +:+ "...");
             "usage" := VDict usage ]})
    /\ usage !! "prompt_tokens" = Some (VInt (Z.of_nat (word_count prompt)))
    /\ usage !! "completion_tokens" = Some (VInt 10)
    /\ usage !! "total_tokens" = Some (VInt (Z.of_nat (word_count prompt) + 10)).
Proof.
  intros Hkey Hprompt. unfold run_inference.
  destruct (String.eqb_spec prompt EmptyString) as [|_]; [done|].
  rewrite Hkey. simpl. unfold mock_response. rewrite split_length.
  eexists. split; [reflexivity|]. by repeat split.
Qed.

Lemma run_inference_mock_witness :
  exists usage : pydict,
    run_inference offline_world (new_pipeline default_config) "Hello there, how are you?"
    = ([EvLog WARNING; EvLog INFO],
       Ok {[ "content" := VStr "[Development Mode] Mock response for: Hello there, how are you?...";
             "usage" := VDict usage ]})
    /\ usage !! "prompt_tokens" = Some (VInt 5)
    /\ usage !! "completion_tokens" = Some (VInt 10)
    /\ usage !! "total_tokens" = Some (VInt 15).
Proof.
  apply (run_inference_mock offline_world (new_pipeline default_config)
           "Hello there, how are you?"); [reflexivity|discriminate].
Defined.

(** ** Stage 3: the retry loop *)

Lemma after_nil {A} (m : M A) : after [] m = m.
Proof. by destruct m. Qed.

Lemma after_after {A} (t t' : list event) (m : M A) :
  after t (after t' m) = after (t ++ t') m.
Proof. unfold after. simpl. by rewrite app_assoc. Qed.

Lemma bind_emit {A} (ev : event) (m : M A) : bind (emit ev) (fun _ => m) = after [ev] m.
Proof. by destruct m. Qed.

Lemma timing_decorator_raise {A} (t : list event) (e : exn) :
  timing_decorator ((t, Raise e) : M A) = (t, Raise e).
Proof. reflexivity. Qed.

Lemma timing_decorator_ok {A} (t : list event) (a : A) :
  timing_decorator ((t, Ok a) : M A) = (t ++ [EvLog INFO], Ok a).
Proof. reflexivity. Qed.

(** One turn of the loop, by what the post does. *)

Lemma attempts_loop_transport (w : world) (self : LLMPipeline) (prompt : string)
    (attempt : nat) (rest : list nat) :
  transport_failure (requests_post w attempt (make_request self prompt)) = true ->
  attempts_loop w self prompt (attempt :: rest)
  = if (Z.of_nat attempt =? max_retries (config self) - 1)%Z
    then ([EvPost attempt (make_request self prompt); EvLog ERROR],
          Raise (PipelineError ("Failed to get response after "
                                +:+ pretty (max_retries (config self)) +:+ " attempts")))
    else after [EvPost attempt (make_request self prompt); EvLog ERROR;
                EvSleep (2 ^ Z.of_nat attempt)]
               (attempts_loop w self prompt rest).
Proof.
  intros Hfail. cbn [attempts_loop]. rewrite !bind_emit.
  destruct (requests_post w attempt _) as [|status [body|]]; simpl in Hfail; try done.
  - destruct (Z.of_nat attempt =? _)%Z; [done|].
    rewrite !after_after. reflexivity.
  - rewrite Hfail.
    destruct (Z.of_nat attempt =? _)%Z; [done|].
    rewrite !after_after. reflexivity.
Qed.

Lemma attempts_loop_non_200 (w : world) (self : LLMPipeline) (prompt : string)
    (attempt : nat) (rest : list nat) :
  non_200 (requests_post w attempt (make_request self prompt)) = true ->
  attempts_loop w self prompt (attempt :: rest)
  = after [EvPost attempt (make_request self prompt); EvLog ERROR]
          (attempts_loop w self prompt rest).
Proof.
  intros Hfail. cbn [attempts_loop]. rewrite !bind_emit.
  destruct (requests_post w attempt _) as [|status body]; simpl in Hfail; [done|].
  apply negb_true_iff in Hfail. rewrite Hfail, after_after. reflexivity.
Qed.

Lemma attempts_loop_200 (w : world) (self : LLMPipeline) (prompt : string)
    (attempt : nat) (rest : list nat) (body : pyval) :
  requests_post w attempt (make_request self prompt) = Response 200 (Some body) ->
  attempts_loop w self prompt (attempt :: rest)
  = after [EvPost attempt (make_request self prompt)] (read_response w self body).
Proof.
  intros Hpost. cbn [attempts_loop]. rewrite !bind_emit, Hpost. reflexivity.
Qed.

Lemma transport_failure_not_non_200 (o : http_outcome) :
  transport_failure o = true -> non_200 o = false.
Proof. destruct o as [|status [body|]]; simpl; try done. by intros ->. Qed.

(** Failed attempts, none of them a transport failure on the last
    attempt, are followed by the rest of the loop. *)
Lemma attempts_loop_failures (w : world) (self : LLMPipeline) (prompt : string)
    (failed rest : list nat) :
  Forall (fun attempt =>
            failed_attempt (requests_post w attempt (make_request self prompt)) = true
            /\ (transport_failure (requests_post w attempt (make_request self prompt)) = true ->
                Z.of_nat attempt <> (max_retries (config self) - 1)%Z)) failed ->
  attempts_loop w self prompt (failed ++ rest)
  = after (flat_map (failure_events w (make_request self prompt)) failed)
          (attempts_loop w self prompt rest).
Proof.
  induction 1 as [|attempt failed [Hfail Hlast] _ IH].
  - by rewrite after_nil.
  - cbn [app flat_map]. unfold failure_events at 1.
    destruct (transport_failure _) eqn:Htr.
    + rewrite attempts_loop_transport by done.
      destruct (Z.eqb_spec (Z.of_nat attempt) (max_retries (config self) - 1)) as [Heq|_].
      * by destruct Hlast.
      * by rewrite IH, after_after.
    + unfold failed_attempt in Hfail. rewrite Htr in Hfail.
      rewrite attempts_loop_non_200 by done.
      by rewrite IH, after_after.
Qed.

(** What a trace posts and sleeps. *)

Lemma sleeps_of_app (t t' : list event) : sleeps_of (t ++ t') = sleeps_of t ++ sleeps_of t'.
Proof. apply omap_app. Qed.

Lemma posts_of_app (t t' : list event) : posts_of (t ++ t') = (posts_of t + posts_of t')%nat.
Proof. unfold posts_of. by rewrite filter_app, length_app. Qed.

Lemma quiet_sleeps (t : list event) : quiet t -> sleeps_of t = [].
Proof.
  induction 1 as [|ev t [_ Hs] _ IH]; [done|].
  unfold sleeps_of in *. cbn [omap list_omap]. by rewrite Hs, IH.
Qed.

Lemma quiet_posts (t : list event) : quiet t -> posts_of t = 0%nat.
Proof.
  induction 1 as [|ev t [Hp _] _ IH]; [done|].
  unfold posts_of in *. rewrite filter_cons. by rewrite decide_False by congruence.
Qed.

Lemma quiet_app (t t' : list event) : quiet t -> quiet t' -> quiet (t ++ t').
Proof. apply Forall_app_2. Qed.

Lemma quiet_bind {A B} (m : M A) (k : A -> M B) :
  quiet (trace m) -> (forall a, quiet (trace (k a))) -> quiet (trace (bind m k)).
Proof.
  destruct m as [t [a|e]]; simpl; intros Ht Hk; [|done].
  specialize (Hk a). unfold bind. destruct (k a). by apply quiet_app.
Qed.

Lemma quiet_log (lvl : level) : quiet (trace (emit (EvLog lvl))).
Proof. by repeat constructor. Qed.

Lemma quiet_metric (m : metric) : quiet (trace (emit (EvMetric m))).
Proof. by repeat constructor. Qed.

Lemma quiet_counter_inc (mk : pyval -> metric) (amount : pyval) :
  quiet (trace (counter_inc mk amount)).
Proof.
  destruct amount as [|b|n|x|s|xs|d]; simpl; try by constructor.
  - destruct (n <? 0)%Z; [by constructor|apply quiet_metric].
  - destruct (negb _); [by constructor|apply quiet_metric].
Qed.

Lemma quiet_record_token_usage (w : world) (self : LLMPipeline) (usage : pyval) :
  quiet (trace (record_token_usage w self usage)).
Proof.
  unfold record_token_usage. destruct (negb _); [by constructor|].
  destruct usage; try by constructor.
  repeat (apply quiet_bind; [apply quiet_counter_inc|intros _]).
  apply quiet_log.
Qed.

Lemma quiet_read_response (w : world) (self : LLMPipeline) (body : pyval) :
  quiet (trace (read_response w self body)).
Proof.
  unfold read_response. apply quiet_bind; [by constructor|intros content].
  destruct body; try by constructor.
  apply quiet_bind; [|intros _; by constructor].
  destruct (_ && _); [|by constructor].
  apply quiet_bind; [apply quiet_record_token_usage|intros _].
  unfold time_inference. destruct (metrics_on _ _); [apply quiet_metric|by constructor].
Qed.

Lemma read_response_content (w : world) (self : LLMPipeline) (body : pyval) (out : pydict) :
  result (read_response w self body) = Ok out ->
  exists content, response_content body = Ok content /\ out !! "content" = Some content.
Proof.
  unfold read_response. intros H.
  apply result_bind_inv in H as (content & Hc & H). exists content. split; [done|].
  destruct body; try discriminate H.
  apply result_bind_inv in H as (_ & _ & H). by injection H as <-.
Qed.

Lemma posts_of_failure_events (w : world) (req : request) (l : list nat) :
  posts_of (flat_map (failure_events w req) l) = length l.
Proof.
  induction l as [|a l IH]; [done|].
  cbn [flat_map]. rewrite posts_of_app, IH. unfold failure_events.
  by destruct (transport_failure _).
Qed.

Lemma run_inference_with_key (w : world) (self : LLMPipeline) (prompt : string) :
  prompt <> EmptyString ->
  llm_api_key (config self) <> EmptyString ->
  run_inference w self prompt
  = timing_decorator (attempts_loop w self prompt (range (max_retries (config self)))).
Proof.
  intros Hprompt Hkey. unfold run_inference.
  destruct (String.eqb_spec prompt EmptyString); [done|].
  by destruct (String.eqb_spec (llm_api_key (config self)) EmptyString).
Qed.

Lemma trace_after {A} (t : list event) (m : M A) : trace (after t m) = t ++ trace m.
Proof. reflexivity. Qed.

Lemma result_after {A} (t : list event) (m : M A) : result (after t m) = result m.
Proof. reflexivity. Qed.

Lemma trace_timing_decorator {A} (m : M A) :
  exists t, quiet t /\ trace (timing_decorator m) = trace m ++ t.
Proof.
  destruct m as [t [a|e]].
  - exists [EvLog INFO]. split; [by repeat constructor|reflexivity].
  - exists []. split; [constructor|]. simpl. by rewrite app_nil_r.
Qed.

Lemma posts_of_timing_decorator {A} (m : M A) :
  posts_of (trace (timing_decorator m)) = posts_of (trace m).
Proof.
  destruct (trace_timing_decorator m) as (t & Ht & ->).
  rewrite posts_of_app, (quiet_posts t) by done. lia.
Qed.

Lemma sleeps_of_timing_decorator {A} (m : M A) :
  sleeps_of (trace (timing_decorator m)) = sleeps_of (trace m).
Proof.
  destruct (trace_timing_decorator m) as (t & Ht & ->).
  by rewrite sleeps_of_app, (quiet_sleeps t), app_nil_r.
Qed.

Lemma http_outcome_cases (o : http_outcome) :
  transport_failure o = true \/ non_200 o = true
  \/ exists body, o = Response 200 (Some body).
Proof.
  destruct o as [|status [body|]]; simpl; [by left| |].
  - destruct (Z.eqb_spec status 200) as [->|]; [|by right; left].
    right; right. by exists body.
  - destruct (status =? 200)%Z; [by left|by right; left].
Qed.

Lemma attempts_loop_head (w : world) (self : LLMPipeline) (prompt : string)
    (attempt : nat) (rest : list nat) :
  exists m, attempts_loop w self prompt (attempt :: rest)
            = after [EvPost attempt (make_request self prompt)] m.
Proof. cbn [attempts_loop]. rewrite bind_emit. by eexists. Qed.

Lemma posts_of_cons (ev : event) (t : list event) :
  posts_of (ev :: t) = ((if is_post ev then 1 else 0) + posts_of t)%nat.
Proof.
  unfold posts_of. rewrite filter_cons. destruct (is_post ev); by case_decide.
Qed.

Lemma sleeps_of_cons (ev : event) (t : list event) :
  sleeps_of (ev :: t) = match is_sleep ev with Some n => n :: sleeps_of t | None => sleeps_of t end.
Proof. reflexivity. Qed.

(** The loop posts at most once per attempt. *)
Lemma posts_of_attempts_loop (w : world) (self : LLMPipeline) (prompt : string)
    (attempts : list nat) :
  (posts_of (trace (attempts_loop w self prompt attempts)) <= length attempts)%nat.
Proof.
  induction attempts as [|attempt rest IH]; [by apply Nat.le_refl|].
  cbn [length].
  destruct (http_outcome_cases (requests_post w attempt (make_request self prompt)))
    as [Htr|[Hnon|[body Hok]]].
  - rewrite attempts_loop_transport by done.
    destruct (_ =? _)%Z.
    + unfold trace, fst. rewrite !posts_of_cons. cbn. lia.
    + rewrite trace_after, posts_of_app, !posts_of_cons. cbn. lia.
  - rewrite attempts_loop_non_200 by done.
    rewrite trace_after, posts_of_app, !posts_of_cons. cbn. lia.
  - rewrite (attempts_loop_200 _ _ _ _ _ body) by done.
    rewrite trace_after, posts_of_app, (quiet_posts (trace (read_response _ _ _))),
      !posts_of_cons by apply quiet_read_response.
    cbn. lia.
Qed.

Lemma attempts_loop_all_non_200 (w : world) (self : LLMPipeline) (prompt : string)
    (attempts : list nat) :
  Forall (fun attempt => non_200 (requests_post w attempt (make_request self prompt)) = true)
         attempts ->
  attempts_loop w self prompt attempts
  = (flat_map (fun attempt => [EvPost attempt (make_request self prompt); EvLog ERROR]) attempts,
     Raise (PipelineError "Inference failed")).
Proof.
  induction 1 as [|attempt rest Hnon _ IH]; [done|].
  by rewrite attempts_loop_non_200, IH.
Qed.

Lemma range_lt (n : Z) (attempt : nat) :
  attempt ∈ range n -> (attempt < Z.to_nat n)%nat.
Proof. unfold range. rewrite elem_of_seq. lia. Qed.

Lemma posts_of_non_200_events (req : request) (attempts : list nat) :
  posts_of (flat_map (fun attempt => [EvPost attempt req; EvLog ERROR]) attempts)
  = length attempts.
Proof.
  induction attempts as [|attempt rest IH]; [done|].
  cbn [flat_map length]. by rewrite posts_of_app, IH, !posts_of_cons.
Qed.

Lemma sleeps_of_non_200_events (req : request) (attempts : list nat) :
  sleeps_of (flat_map (fun attempt => [EvPost attempt req; EvLog ERROR]) attempts) = [].
Proof.
  induction attempts as [|attempt rest IH]; [done|].
  cbn [flat_map]. by rewrite sleeps_of_app, IH.
Qed.

(** C5. With a credential configured, when every attempt receives a
    status other than 200, [run_inference] posts once per attempt of the
    budget, never sleeps, and then raises the error "Inference failed",
    which differs from the error of a transport failure on the last
    attempt whatever the attempt count. *)
Theorem run_inference_non_200_exhausts (w : world) (self : LLMPipeline) (prompt : string) :
  prompt <> EmptyString ->
  llm_api_key (config self) <> EmptyString ->
  (forall attempt, (attempt < Z.to_nat (max_retries (config self)))%nat ->
     non_200 (requests_post w attempt (make_request self prompt)) = true) ->
  run_inference w self prompt
  = (flat_map (fun attempt => [EvPost attempt (make_request self prompt); EvLog ERROR])
              (range (max_retries (config self))),
     Raise (PipelineError "Inference failed"))
  /\ posts_of (trace (run_inference w self prompt)) = Z.to_nat (max_retries (config self))
  /\ sleeps_of (trace (run_inference w self prompt)) = []
  /\ (forall k : Z,
        "Inference failed" <> "Failed to get response after " +:+ pretty k +:+ " attempts").
Proof.
  intros Hprompt Hkey Hnon.
  assert (run_inference w self prompt
          = (flat_map (fun attempt => [EvPost attempt (make_request self prompt); EvLog ERROR])
                      (range (max_retries (config self))),
             Raise (PipelineError "Inference failed"))) as Hrun.
  { rewrite run_inference_with_key by done.
    rewrite attempts_loop_all_non_200; [done|].
    apply Forall_forall. intros attempt Hin. apply Hnon. by apply range_lt. }
  rewrite Hrun. split; [done|]. unfold trace, fst.
  split; [|split; [|discriminate]].
  - rewrite posts_of_non_200_events. unfold range. by rewrite length_seq.
  - apply sleeps_of_non_200_events.
Qed.

Lemma run_inference_non_200_exhausts_witness :
  run_inference bad_request_world single_attempt_pipeline "Test prompt"
  = ([EvPost 0 (make_request single_attempt_pipeline "Test prompt"); EvLog ERROR],
     Raise (PipelineError "Inference failed")).
Proof.
  apply (run_inference_non_200_exhausts bad_request_world single_attempt_pipeline
           "Test prompt");
    [discriminate|discriminate|reflexivity].
Defined.

Lemma failures_before (w : world) (self : LLMPipeline) (prompt : string) (k : nat) :
  (forall a, (a < k)%nat ->
     failed_attempt (requests_post w a (make_request self prompt)) = true) ->
  (Z.of_nat k <= max_retries (config self) - 1)%Z ->
  Forall (fun attempt =>
            failed_attempt (requests_post w attempt (make_request self prompt)) = true
            /\ (transport_failure (requests_post w attempt (make_request self prompt)) = true ->
                Z.of_nat attempt <> (max_retries (config self) - 1)%Z)) (seq 0 k).
Proof.
  intros Hfail Hk. apply Forall_forall. intros a Ha.
  apply elem_of_seq in Ha. split; [apply Hfail; lia|lia].
Qed.

Lemma range_split (n : Z) (k : nat) :
  (Z.of_nat k < n)%Z -> range n = seq 0 k ++ k :: seq (S k) (Z.to_nat n - S k).
Proof.
  intros Hk. unfold range.
  replace (Z.to_nat n) with (k + S (Z.to_nat n - S k))%nat at 1 by lia.
  by rewrite seq_app.
Qed.

(** C2. With a credential configured, [run_inference] posts at most
    [max_retries] times.  A failed attempt that is not the last one is
    followed by the next attempt, after a sleep of [2^attempt] seconds
    when the failure is one of transport (attempts counted from 0: 1s,
    2s, 4s, ...).  A transport failure on the last attempt raises,
    without sleeping, the error that reports [max_retries].  With
    [max_retries = 3], transport failures on the first two attempts and
    a success on the third, [run_inference] returns the content of the
    third response after exactly the sleeps of 1s and 2s. *)
Theorem run_inference_retry_backoff (w : world) (self : LLMPipeline) (prompt : string) :
  prompt <> EmptyString ->
  llm_api_key (config self) <> EmptyString ->
  let n := max_retries (config self) in
  let req := make_request self prompt in
  (posts_of (trace (run_inference w self prompt)) <= Z.to_nat n)%nat
  /\ (forall k : nat,
        (Z.of_nat k < n)%Z ->
        (forall a, (a < k)%nat -> failed_attempt (requests_post w a req) = true) ->
        exists t, trace (run_inference w self prompt)
                  = flat_map (failure_events w req) (seq 0 k) ++ EvPost k req :: t)
  /\ (forall a : nat,
        transport_failure (requests_post w a req) = true ->
        failure_events w req a = [EvPost a req; EvLog ERROR; EvSleep (2 ^ Z.of_nat a)])
  /\ (forall k : nat,
        Z.of_nat k = (n - 1)%Z ->
        (forall a, (a < k)%nat -> failed_attempt (requests_post w a req) = true) ->
        transport_failure (requests_post w k req) = true ->
        run_inference w self prompt
        = (flat_map (failure_events w req) (seq 0 k) ++ [EvPost k req; EvLog ERROR],
           Raise (PipelineError
                    ("Failed to get response after " +:+ pretty n +:+ " attempts"))))
  /\ (n = 3%Z ->
      transport_failure (requests_post w 0 req) = true ->
      transport_failure (requests_post w 1 req) = true ->
      forall (body : pyval) (out : pydict),
        requests_post w 2 req = Response 200 (Some body) ->
        result (read_response w self body) = Ok out ->
        result (run_inference w self prompt) = Ok out
        /\ (exists content, response_content body = Ok content
                            /\ out !! "content" = Some content)
        /\ sleeps_of (trace (run_inference w self prompt)) = [1; 2]%Z
        /\ posts_of (trace (run_inference w self prompt)) = 3%nat).
Proof.
  intros Hprompt Hkey. cbv zeta.
  rewrite run_inference_with_key by done.
  split; [|split; [|split; [|split]]].
  - rewrite posts_of_timing_decorator.
    etrans; [apply posts_of_attempts_loop|]. unfold range. by rewrite length_seq.
  - intros k Hk Hfail.
    rewrite (range_split _ k) by done.
    rewrite attempts_loop_failures by (apply failures_before; [done|lia]).
    destruct (attempts_loop_head w self prompt k (seq (S k) (Z.to_nat (max_retries (config self)) - S k)))
      as [m ->].
    destruct (trace_timing_decorator
                (after (flat_map (failure_events w (make_request self prompt)) (seq 0 k)) (after [EvPost k (make_request self prompt)] m)))
      as (t & _ & ->).
    exists (trace m ++ t). rewrite !trace_after. by rewrite <- !app_assoc.
  - intros a Ha. unfold failure_events. by rewrite Ha.
  - intros k Hk Hfail Hlast.
    rewrite (range_split _ k) by lia.
    replace (Z.to_nat (max_retries (config self)) - S k)%nat with 0%nat by lia.
    rewrite attempts_loop_failures by (apply failures_before; [done|lia]).
    rewrite attempts_loop_transport by done.
    destruct (Z.eqb_spec (Z.of_nat k) (max_retries (config self) - 1)); [|done].
    reflexivity.
  - intros Hn Hfirst Hsecond body out Hthird Hout.
    rewrite Hn. change (range 3) with ([0; 1] ++ [2])%nat.
    rewrite attempts_loop_failures.
    2:{ repeat constructor; unfold failed_attempt; rewrite ?Hfirst, ?Hsecond; try done; lia. }
    rewrite (attempts_loop_200 _ _ _ _ _ body) by done.
    cbn [flat_map app]. unfold failure_events. rewrite Hfirst, Hsecond.
    split; [|split; [|split]].
    + by rewrite result_timing_decorator, !result_after.
    + by apply (read_response_content w self).
    + rewrite sleeps_of_timing_decorator, !trace_after, !sleeps_of_app.
      rewrite (quiet_sleeps (trace (read_response _ _ _))) by apply quiet_read_response.
      reflexivity.
    + rewrite posts_of_timing_decorator, !trace_after, !posts_of_app.
      rewrite (quiet_posts (trace (read_response _ _ _))) by apply quiet_read_response.
      by rewrite !posts_of_cons.
Qed.

Lemma run_inference_retry_backoff_witness :
  result (run_inference flaky_world retry_pipeline "Test prompt")
  = Ok {[ "content" := VStr "Hello, how can I help you?";
          "usage" := VDict {[ "prompt_tokens" := VInt 10; "completion_tokens" := VInt 7;
                              "total_tokens" := VInt 17 ]} ]}
  /\ (exists content,
        response_content (chat_completion "Hello, how can I help you?") = Ok content
        /\ ({[ "content" := VStr "Hello, how can I help you?";
               "usage" := VDict {[ "prompt_tokens" := VInt 10; "completion_tokens" := VInt 7;
                                   "total_tokens" := VInt 17 ]} ]} : pydict) !! "content"
           = Some content)
  /\ sleeps_of (trace (run_inference flaky_world retry_pipeline "Test prompt")) = [1; 2]%Z
  /\ posts_of (trace (run_inference flaky_world retry_pipeline "Test prompt")) = 3%nat.
Proof.
  apply (run_inference_retry_backoff flaky_world retry_pipeline "Test prompt");
    [discriminate|discriminate|reflexivity..].
Defined.

(** ** The orchestrator *)

Lemma process_result (rt : runtime) (w : world) (self : LLMPipeline)
    (input_text context : pyval) (template_name : option string) :
  result (process rt w self input_text context template_name)
  = Ok (envelope_of input_text context
          (result (process_body rt w self input_text context template_name))).
Proof.
  unfold process, record_request, record_failure.
  destruct (process_body rt w self input_text context template_name) as [t [r|e]];
    destruct (metrics_on w self); try reflexivity; by destruct e.
Qed.

(** A rejection by the schema validation is not a [PipelineError]: the
    envelope is the opaque one, without the input and the context. *)
Lemma process_validation_rejection (rt : runtime) (w : world) (c : PipelineConfig)
    (s : string) (context : pyval) (template_name : option string) :
  validate_schemas c = true ->
  PYDANTIC_AVAILABLE w = true ->
  pydantic_str rt (VStr s) = Some s ->
  PyStr.strip s = EmptyString ->
  result (process rt w (new_pipeline c) (VStr s) context template_name)
  = Ok internal_failure_envelope.
Proof.
  intros Hval Hpyd Hstr Hstrip. rewrite process_result. f_equal.
  unfold process_body. simpl. rewrite Hval.
  unfold Validators.validate_input. rewrite Hpyd. simpl.
  unfold Validators.PipelineInput, Validators.text_field.
  rewrite lookup_insert_eq. simpl. rewrite Hstr. simpl.
  unfold Validators.not_empty. rewrite Hstrip. reflexivity.
Qed.

Example process_empty_input :
  result (process strict_runtime offline_world (new_pipeline default_config)
            (VStr "   ") (VStr "Polite Tone") None)
  = Ok {[ "error" := VStr "Internal pipeline error"; "status" := VStr "failed" ]}.
Proof. reflexivity. Qed.

Example process_mock :
  result (process strict_runtime offline_world (new_pipeline default_config)
            (VStr "  Hello THERE ") (VStr "Polite Tone") None)
  = Ok {[ "final_output" := VStr ("[Development Mode] Mock response for: User: hello there"
                                  +:+ LF +:+ "Context: Polite Tone" +:+ LF +:+ "Response:...");
          "context_used" := VStr "Polite Tone";
          "timestamp" := VFloat 0;
          "token_usage" := VDict {[ "prompt_tokens" := VInt 7; "completion_tokens" := VInt 10;
                                    "total_tokens" := VInt 17 ]} ]}.
Proof. reflexivity. Qed.
(** ** The shape of the envelope *)

Lemma success_shaped_well_shaped (d : pydict) :
  success_shaped d = true -> well_shaped d = true.
Proof.
  unfold success_shaped, well_shaped. intros H. apply andb_prop in H as [-> H].
  apply negb_true_iff in H. by rewrite H.
Qed.

Lemma postprocess_output_shape (w : world) (self : LLMPipeline) (d : pydict)
    (ctx : pyval) (r : pydict) :
  result (postprocess_output w self d ctx) = Ok r -> success_shaped r = true.
Proof.
  rewrite postprocess_output_eq.
  destruct (default _ (d !! "content")); try discriminate.
  by intros [= <-].
Qed.

Lemma PipelineOutput_shape (rt : runtime) (d r : pydict) :
  Validators.PipelineOutput rt d = Ok r -> success_shaped r = true.
Proof.
  unfold Validators.PipelineOutput.
  destruct (Validators.text_field _ _ _); [|discriminate].
  destruct (_ ≫= _); [|discriminate].
  destruct (Validators.usage_field _ _ _); [|discriminate].
  by intros [= <-].
Qed.

Lemma validate_output_shape (rt : runtime) (w : world) (d r : pydict) :
  success_shaped d = true ->
  result (Validators.validate_output rt w d) = Ok r -> success_shaped r = true.
Proof.
  intros Hd. unfold Validators.validate_output.
  destruct (PYDANTIC_AVAILABLE w); simpl.
  - destruct (Validators.PipelineOutput rt d) as [r'|e] eqn:Hout; simpl.
    + intros [= <-]. by apply (PipelineOutput_shape rt d).
    + discriminate.
  - by intros [= <-].
Qed.

Lemma run_hooks_shape (hooks : list hook) (d r : pydict) :
  Forall keeps_success_shape hooks ->
  success_shaped d = true ->
  run_hooks hooks d = Ok r -> success_shaped r = true.
Proof.
  intros Hhooks. revert d.
  induction Hhooks as [|h hooks Hh _ IH]; intros d Hd; simpl.
  - by intros [= <-].
  - destruct (h d) as [d'|e] eqn:Hhd; [|discriminate].
    apply IH. by apply (Hh d).
Qed.

Lemma process_body_shape (rt : runtime) (w : world) (self : LLMPipeline)
    (input_text context : pyval) (template_name : option string) (r : pydict) :
  Forall keeps_success_shape (post_hooks self) ->
  result (process_body rt w self input_text context template_name) = Ok r ->
  success_shaped r = true.
Proof.
  intros Hhooks H. unfold process_body in H.
  do 11 skip_bind H.
  apply result_bind_inv in H as (r0 & Hpost & H).
  skip_bind H.
  apply result_bind_inv in H as (r1 & Hval & H).
  apply result_bind_inv in H as (r2 & Hrun & H).
  do 3 skip_bind H.
  injection H as <-.
  apply postprocess_output_shape in Hpost.
  assert (success_shaped r1 = true) as Hr1.
  { destruct (validate_schemas (config self)).
    - by apply (validate_output_shape rt w r0).
    - by injection Hval as <-. }
  by apply (run_hooks_shape (post_hooks self) r1).
Qed.

(** C4, as stated: every envelope that [process] returns has exactly
    one of the two field sets, whatever the hooks.  A post-hook that
    returns the empty dictionary makes [process] return an envelope
    with neither. *)
Lemma process_post_hook_breaks_shape :
  ~ (forall (rt : runtime) (w : world) (self : LLMPipeline) (input_text context : pyval)
            (template_name : option string) (envelope : pydict),
       result (process rt w self input_text context template_name) = Ok envelope ->
       well_shaped envelope = true).
Proof.
  intros H.
  specialize (H strict_runtime offline_world (hooked_pipeline clear_hook)
                (VStr "Hello") (VStr "Polite Tone") None ∅ eq_refl).
  discriminate H.
Qed.

(** C4, amended. For every input and every sequence of pre-hooks, when
    each post-hook returns a success-shaped envelope for a
    success-shaped one, every envelope returned by [process] has
    exactly one of the success field set and the failure field set. *)
Theorem process_well_shaped (rt : runtime) (w : world) (self : LLMPipeline)
    (input_text context : pyval) (template_name : option string) (envelope : pydict) :
  Forall keeps_success_shape (post_hooks self) ->
  result (process rt w self input_text context template_name) = Ok envelope ->
  well_shaped envelope = true.
Proof.
  intros Hhooks. rewrite process_result. intros [= <-].
  destruct (result (process_body rt w self input_text context template_name))
    as [r|e] eqn:Hbody.
  - apply success_shaped_well_shaped. by eapply process_body_shape.
  - by destruct e.
Qed.

Lemma add_timestamp_hook_keeps_shape : keeps_success_shape add_timestamp_hook.
Proof.
  intros d d' Hd [= <-]. unfold success_shaped, has_success_fields, has_failure_fields,
    has_key, status_failed in *.
  by rewrite !lookup_insert_ne.
Qed.

Lemma process_well_shaped_witness :
  well_shaped
    {[ "final_output" := VStr ("[Development Mode] Mock response for: User: hello"
                               +:+ LF +:+ "Context: None" +:+ LF +:+ "Response:...");
       "context_used" := VNone;
       "timestamp" := VFloat 0;
       "token_usage" := VDict {[ "prompt_tokens" := VInt 5; "completion_tokens" := VInt 10;
                                 "total_tokens" := VInt 15 ]};
       "processed_at" := VFloat 0 ]} = true.
Proof.
  apply (process_well_shaped strict_runtime offline_world (hooked_pipeline add_timestamp_hook)
           (VStr "Hello") VNone None).
  - repeat constructor. apply add_timestamp_hook_keeps_shape.
  - reflexivity.
Defined.

(** ** Hooks run in registration order *)

Lemma run_hooks_app (hooks hooks' : list hook) (d : pydict) :
  run_hooks (hooks ++ hooks') d
  = match run_hooks hooks d with
    | Ok d' => run_hooks hooks' d'
    | Raise e => Raise e
    end.
Proof.
  revert d. induction hooks as [|h hooks IH]; intros d; simpl; [done|].
  by destruct (h d).
Qed.

Lemma add_pre_hook_last (self : LLMPipeline) (h : hook) (d : pydict) :
  run_hooks (pre_hooks (add_pre_hook self h)) d
  = match run_hooks (pre_hooks self) d with
    | Ok d' => h d'
    | Raise e => Raise e
    end.
Proof.
  unfold add_pre_hook. simpl. rewrite run_hooks_app.
  destruct (run_hooks (pre_hooks self) d) as [d'|e]; simpl; [|done].
  by destruct (h d').
Qed.

Lemma add_post_hook_last (self : LLMPipeline) (h : hook) (d : pydict) :
  run_hooks (post_hooks (add_post_hook self h)) d
  = match run_hooks (post_hooks self) d with
    | Ok d' => h d'
    | Raise e => Raise e
    end.
Proof.
  unfold add_post_hook. simpl. rewrite run_hooks_app.
  destruct (run_hooks (post_hooks self) d) as [d'|e]; simpl; [|done].
  by destruct (h d').
Qed.

(** ** The cases of the test suite *)

Example test_preprocess_input_custom :
  result (preprocess_input
            {| config := {| llm_api_url := EmptyString; llm_api_key := EmptyString;
                            model_name := EmptyString; timeout_seconds := 10;
                            max_retries := 3; strip_input := false;
                            lowercase_input := false; uppercase_output := false;
                            template_dir := EmptyString; default_template := EmptyString;
                            validate_schemas := false; collect_metrics := false;
                            metrics_port := 8000; expose_metrics := false |};
               pre_hooks := []; post_hooks := [] |}
            (VStr "  TEST Input  ") (VStr "test context"))
  = Ok {[ "input" := VStr "  TEST Input  "; "context" := VStr "test context" ]}.
Proof. reflexivity. Qed.

Example test_run_inference_success :
  result (run_inference (test_world "{user_input}" (chat_completion "Hello, how can I help you?"))
            (new_pipeline test_config) "Test prompt")
  = Ok {[ "content" := VStr "Hello, how can I help you?";
          "usage" := VDict {[ "prompt_tokens" := VInt 10; "completion_tokens" := VInt 7;
                              "total_tokens" := VInt 17 ]} ]}.
Proof. reflexivity. Qed.

Example test_postprocess_output :
  result (postprocess_output offline_world (new_pipeline test_config)
            {[ "content" := VStr "test output";
               "usage" := VDict {[ "total_tokens" := VInt 10 ]} ]} (VStr "test context"))
  = Ok {[ "final_output" := VStr "test output"; "context_used" := VStr "test context";
          "timestamp" := VFloat 0; "token_usage" := VDict {[ "total_tokens" := VInt 10 ]} ]}.
Proof. reflexivity. Qed.

Example test_process_end_to_end :
  result (process strict_runtime
            (test_world ("User: {user_input}" +:+ LF +:+ "Context: {context}")
               (VDict {[ "choices" := VList [VDict {[ "message" :=
                                       VDict {[ "content" := VStr "Test response" ]} ]}];
                         "usage" := VDict {[ "prompt_tokens" := VInt 5;
                                             "completion_tokens" := VInt 2;
                                             "total_tokens" := VInt 7 ]} ]}))
            (new_pipeline test_config) (VStr "test input") (VStr "test context") None)
  = Ok {[ "final_output" := VStr "Test response"; "context_used" := VStr "test context";
          "timestamp" := VFloat 0;
          "token_usage" := VDict {[ "prompt_tokens" := VInt 5; "completion_tokens" := VInt 2;
                                    "total_tokens" := VInt 7 ]} ]}.
Proof. reflexivity. Qed.

Example test_hooks :
  result (process strict_runtime
            (test_world "{user_input}"
               (VDict {[ "choices" := VList [VDict {[ "message" :=
                                       VDict {[ "content" := VStr "Test" ]} ]}] ]}))
            (add_post_hook (add_pre_hook (new_pipeline test_config) pre_hook) post_hook)
            (VStr "Hello") VNone None)
  = Ok {[ "final_output" := VStr "Test POST"; "context_used" := VNone;
          "timestamp" := VFloat 0; "token_usage" := VNone ]}.
Proof. reflexivity. Qed.

(** ** A [PipelineError] of each stage, as [process] reports it *)

Example process_reports_preprocess_error :
  result (process strict_runtime offline_world (new_pipeline test_config)
            (VList [VStr "a"]) (VStr "ctx") None)
  = Ok {[ "error" := VStr "Input must be a string, got <class 'list'>";
          "input" := VList [VStr "a"]; "context" := VStr "ctx"; "status" := VStr "failed" ]}.
Proof. reflexivity. Qed.

Example process_reports_compose_error :
  result (process strict_runtime (test_world "Dear {name}," VNone) (new_pipeline test_config)
            (VStr "Hello") (VStr "ctx") None)
  = Ok {[ "error" := VStr "Missing required key in preprocessed data: 'name'";
          "input" := VStr "Hello"; "context" := VStr "ctx"; "status" := VStr "failed" ]}.
Proof. reflexivity. Qed.

Example process_reports_inference_error :
  result (process strict_runtime offline_world (new_pipeline test_config)
            (VStr "Hello") (VStr "ctx") None)
  = Ok {[ "error" := VStr "Failed to get response after 3 attempts";
          "input" := VStr "Hello"; "context" := VStr "ctx"; "status" := VStr "failed" ]}.
Proof. reflexivity. Qed.

Example process_reports_postprocess_error :
  result (process strict_runtime
            (test_world "{user_input}"
               (VDict {[ "choices" := VList [VDict {[ "message" :=
                                       VDict {[ "content" := VNone ]} ]}] ]}))
            (new_pipeline test_config) (VStr "Hello") (VStr "ctx") None)
  = Ok {[ "error" := VStr "Output must be a string, got <class 'NoneType'>";
          "input" := VStr "Hello"; "context" := VStr "ctx"; "status" := VStr "failed" ]}.
Proof. reflexivity. Qed.

(** An exception that is not a [PipelineError]: an integer input text
    cannot be sliced for the log line. *)
Example process_hides_unexpected_error :
  result (process strict_runtime offline_world (new_pipeline test_config)
            (VInt 5) (VStr "ctx") None)
  = Ok {[ "error" := VStr "Internal pipeline error"; "status" := VStr "failed" ]}.
Proof. reflexivity. Qed.

(** ** A body that parses but has not the expected fields *)

(** Only [RequestException] and [JSONDecodeError] are transport
    failures: a status-200 body that is valid JSON without [choices]
    raises [KeyError] out of [run_inference] at once, without retry. *)
Example run_inference_unexpected_body :
  run_inference (test_world "{user_input}" (VDict ∅)) (new_pipeline test_config) "Test prompt"
  = ([EvPost 0 (make_request (new_pipeline test_config) "Test prompt")],
     Raise (KeyError "'choices'")).
Proof. reflexivity. Qed.

(* ================================================================ *)
(** * Further properties of the code *)

(** ** Hooks *)

(** X1. Hooks run in registration order, each on the result of the
    one before: after [add_pre_hook self h] (resp. [add_post_hook]) the
    hooks of [self] run first and [h] is applied to what they return;
    when one of them raises, [h] is not called and the exception is the
    outcome. *)
Theorem hooks_run_in_registration_order (self : LLMPipeline) (h : hook) (d : pydict) :
  run_hooks (pre_hooks (add_pre_hook self h)) d
    = match run_hooks (pre_hooks self) d with Ok d' => h d' | Raise e => Raise e end
  /\ run_hooks (post_hooks (add_post_hook self h)) d
    = match run_hooks (post_hooks self) d with Ok d' => h d' | Raise e => Raise e end
  /\ post_hooks (add_pre_hook self h) = post_hooks self
  /\ pre_hooks (add_post_hook self h) = pre_hooks self
  /\ config (add_pre_hook self h) = config self
  /\ config (add_post_hook self h) = config self.
Proof.
  split; [apply add_pre_hook_last|]. split; [apply add_post_hook_last|]. done.
Qed.

(** ** Schema validation *)

(** X2. With schema validation enabled and pydantic importable, an
    input text that is blank after trimming makes [process] return the
    opaque failure envelope, without the input and the context: the
    rejection is not a [PipelineError]. *)
Theorem process_blank_input_opaque (rt : runtime) (w : world) (c : PipelineConfig)
    (s : string) (context : pyval) (template_name : option string) :
  validate_schemas c = true ->
  PYDANTIC_AVAILABLE w = true ->
  pydantic_str rt (VStr s) = Some s ->
  PyStr.strip s = EmptyString ->
  result (process rt w (new_pipeline c) (VStr s) context template_name)
    = Ok internal_failure_envelope
  /\ internal_failure_envelope !! "input" = None
  /\ internal_failure_envelope !! "context" = None
  /\ posts_of (trace (process rt w (new_pipeline c) (VStr s) context template_name)) = 0%nat.
Proof.
  intros Hval Hpyd Hstr Hstrip.
  assert (process_body rt w (new_pipeline c) (VStr s) context template_name
          = ([EvLog ERROR], Raise ValidationError)) as Hbody.
  { unfold process_body. simpl. rewrite Hval.
    unfold Validators.validate_input. rewrite Hpyd. simpl.
    unfold Validators.PipelineInput, Validators.text_field.
    rewrite lookup_insert_eq. simpl. rewrite Hstr. simpl.
    unfold Validators.not_empty. rewrite Hstrip. reflexivity. }
  split; [|split; [done|split; [done|]]].
  - rewrite process_result. by rewrite Hbody.
  - unfold process. rewrite Hbody. unfold record_request, record_failure.
    by destruct (metrics_on w (new_pipeline c)).
Qed.

Lemma process_blank_input_opaque_witness :
  result (process strict_runtime offline_world (new_pipeline default_config)
            (VStr "   ") (VStr "Polite Tone") None)
  = Ok internal_failure_envelope.
Proof.
  apply (process_blank_input_opaque strict_runtime offline_world default_config
           "   " (VStr "Polite Tone") None); reflexivity.
Defined.

(** X3. With pydantic importable, [validate_input] either returns,
    without logging, an envelope with exactly the keys [input_text] and
    [context] (keys added by pre-hooks are dropped), whose text is the
    validated string, not blank, and whose context is the one given
    ([None] when absent), or it logs one error and raises pydantic's
    [ValidationError], never a [PipelineError]. *)
Theorem validate_input_normal_form (rt : runtime) (w : world) (input_data : pydict) :
  PYDANTIC_AVAILABLE w = true ->
  (forall t validated,
     Validators.validate_input rt w input_data = (t, Ok validated) ->
     t = []
     /\ dom validated = {[ "input_text"; "context" ]}
     /\ (exists v s, input_data !! "input_text" = Some v
                     /\ pydantic_str rt v = Some s
                     /\ PyStr.strip s <> EmptyString
                     /\ validated !! "input_text" = Some (VStr s))
     /\ validated !! "context" = Some (default VNone (input_data !! "context")))
  /\ (forall t e,
        Validators.validate_input rt w input_data = (t, Raise e) ->
        t = [EvLog ERROR] /\ e = ValidationError).
Proof.
  intros Hpyd. unfold Validators.validate_input. rewrite Hpyd. simpl.
  unfold Validators.PipelineInput, Validators.text_field.
  destruct (input_data !! "input_text") as [v|] eqn:Hv; simpl;
    [|by split; [|intros t e [= <- <-]]].
  destruct (pydantic_str rt v) as [s|] eqn:Hs; simpl;
    [|by split; [|intros t e [= <- <-]]].
  unfold Validators.not_empty.
  destruct (String.eqb_spec (PyStr.strip s) EmptyString) as [Hblank|Hblank]; simpl;
    [by split; [|intros t e [= <- <-]]|].
  split; [|done]. intros t validated [= <- <-].
  split; [done|]. split; [set_solver|]. split; [|done].
  by exists v, s.
Qed.

Lemma validate_input_normal_form_witness :
  dom ({[ "input_text" := VStr " Hello "; "context" := VStr "Polite Tone" ]} : pydict)
    = {[ "input_text"; "context" ]}
  /\ ({[ "input_text" := VStr " Hello "; "context" := VStr "Polite Tone" ]} : pydict)
       !! "trace_id" = None.
Proof.
  split; [|reflexivity].
  apply (proj1 (validate_input_normal_form strict_runtime offline_world annotated_input
                  eq_refl) [] {[ "input_text" := VStr " Hello ";
                                 "context" := VStr "Polite Tone" ]}).
  reflexivity.
Defined.

(** ** The retry loop, further *)

(** X4. With a credential and a non-empty prompt, a retry budget of
    zero or less makes [run_inference] raise "Inference failed" at
    once: nothing is posted, nothing is slept, nothing is logged. *)
Theorem run_inference_no_budget (w : world) (self : LLMPipeline) (prompt : string) :
  prompt <> EmptyString ->
  llm_api_key (config self) <> EmptyString ->
  (max_retries (config self) <= 0)%Z ->
  run_inference w self prompt = ([], Raise (PipelineError "Inference failed")).
Proof.
  intros Hprompt Hkey Hn. rewrite run_inference_with_key by done.
  unfold range. by replace (Z.to_nat (max_retries (config self))) with 0%nat by lia.
Qed.

Lemma run_inference_no_budget_witness :
  run_inference offline_world (new_pipeline (with_key "test_key" 0 default_config)) "Test prompt"
  = ([], Raise (PipelineError "Inference failed")).
Proof.
  apply (run_inference_no_budget offline_world
           (new_pipeline (with_key "test_key" 0 default_config)) "Test prompt");
    [discriminate|discriminate|reflexivity].
Defined.

Lemma sleeps_of_failure_events (w : world) (req : request) (attempts : list nat) :
  sleeps_of (flat_map (failure_events w req) attempts) = omap (backoff_of w req) attempts.
Proof.
  induction attempts as [|a l IH]; [done|].
  cbn [flat_map]. rewrite sleeps_of_app, IH. unfold failure_events, backoff_of.
  cbn [omap list_omap]. by destruct (transport_failure _).
Qed.

(** X5. The loop stops at the first success.  With a credential and a
    non-empty prompt, when the attempts before attempt [k] fail, [k] is
    within the budget and its status-200 body is read without error,
    [run_inference] returns what was read from that body, having
    posted exactly [k + 1] times and slept [2^a] after each earlier
    attempt [a] that failed in transport, and after no other. *)
Theorem run_inference_first_success (w : world) (self : LLMPipeline) (prompt : string)
    (k : nat) (body : pyval) (out : pydict) :
  prompt <> EmptyString ->
  llm_api_key (config self) <> EmptyString ->
  (Z.of_nat k < max_retries (config self))%Z ->
  (forall a, (a < k)%nat ->
     failed_attempt (requests_post w a (make_request self prompt)) = true) ->
  requests_post w k (make_request self prompt) = Response 200 (Some body) ->
  result (read_response w self body) = Ok out ->
  result (run_inference w self prompt) = Ok out
  /\ posts_of (trace (run_inference w self prompt)) = S k
  /\ sleeps_of (trace (run_inference w self prompt))
     = omap (backoff_of w (make_request self prompt)) (seq 0 k).
Proof.
  intros Hprompt Hkey Hk Hfail Hpost Hout.
  rewrite run_inference_with_key by done.
  rewrite (range_split _ k) by done.
  rewrite attempts_loop_failures by (apply failures_before; [done|lia]).
  rewrite (attempts_loop_200 _ _ _ _ _ body) by done.
  split; [|split].
  - by rewrite result_timing_decorator, !result_after.
  - rewrite posts_of_timing_decorator, !trace_after, !posts_of_app.
    rewrite (quiet_posts (trace (read_response _ _ _))) by apply quiet_read_response.
    rewrite posts_of_failure_events, length_seq, !posts_of_cons. cbn. lia.
  - rewrite sleeps_of_timing_decorator, !trace_after, !sleeps_of_app.
    rewrite (quiet_sleeps (trace (read_response _ _ _))) by apply quiet_read_response.
    rewrite sleeps_of_failure_events. cbn. by rewrite app_nil_r.
Qed.

Lemma run_inference_first_success_witness :
  posts_of (trace (run_inference
                     (test_world "{user_input}" (chat_completion "Hello, how can I help you?"))
                     (new_pipeline test_config) "Test prompt")) = 1%nat
  /\ sleeps_of (trace (run_inference
                     (test_world "{user_input}" (chat_completion "Hello, how can I help you?"))
                     (new_pipeline test_config) "Test prompt")) = [].
Proof.
  apply (run_inference_first_success
           (test_world "{user_input}" (chat_completion "Hello, how can I help you?"))
           (new_pipeline test_config) "Test prompt" 0
           (chat_completion "Hello, how can I help you?")
           {[ "content" := VStr "Hello, how can I help you?";
              "usage" := VDict {[ "prompt_tokens" := VInt 10; "completion_tokens" := VInt 7;
                                  "total_tokens" := VInt 17 ]} ]});
    [discriminate|discriminate|reflexivity|intros a Ha; lia|reflexivity|reflexivity].
Defined.

(** The seconds slept. *)

Lemma sum_Z_app (l l' : list Z) : sum_Z (l ++ l') = (sum_Z l + sum_Z l')%Z.
Proof. induction l as [|x l IH]; simpl; [done|]. rewrite IH. lia. Qed.

Lemma total_sleep_after {A} (t : list event) (m : M A) :
  total_sleep (after t m) = (sum_Z (sleeps_of t) + total_sleep m)%Z.
Proof. unfold total_sleep. by rewrite trace_after, sleeps_of_app, sum_Z_app. Qed.

Lemma total_sleep_timing_decorator {A} (m : M A) :
  total_sleep (timing_decorator m) = total_sleep m.
Proof. unfold total_sleep. by rewrite sleeps_of_timing_decorator. Qed.

Lemma sleep_budget_nonneg (n : Z) (attempt : nat) : (0 <= sleep_budget n attempt)%Z.
Proof. unfold sleep_budget. destruct (_ =? _)%Z; [done|]. apply Z.pow_nonneg. lia. Qed.

Lemma sum_sleep_budget_nonneg (n : Z) (l : list nat) :
  (0 <= sum_Z (map (sleep_budget n) l))%Z.
Proof.
  induction l as [|a l IH]; simpl; [done|].
  pose proof (sleep_budget_nonneg n a). lia.
Qed.

Lemma total_sleep_attempts_loop (w : world) (self : LLMPipeline) (prompt : string)
    (attempts : list nat) :
  (0 <= total_sleep (attempts_loop w self prompt attempts)
   <= sum_Z (map (sleep_budget (max_retries (config self))) attempts))%Z.
Proof.
  induction attempts as [|attempt rest IH]; [done|].
  cbn [map sum_Z foldr]. fold (sum_Z (map (sleep_budget (max_retries (config self))) rest)).
  pose proof (sleep_budget_nonneg (max_retries (config self)) attempt) as Hb.
  pose proof (sum_sleep_budget_nonneg (max_retries (config self)) rest) as Hs.
  destruct (http_outcome_cases (requests_post w attempt (make_request self prompt)))
    as [Htr|[Hnon|[body Hok]]].
  - rewrite attempts_loop_transport by done. unfold sleep_budget in *.
    destruct (_ =? _)%Z.
    + unfold total_sleep. cbn. lia.
    + rewrite total_sleep_after. cbn [sleeps_of omap list_omap is_sleep sum_Z foldr]. lia.
  - rewrite attempts_loop_non_200 by done.
    rewrite total_sleep_after. cbn [sleeps_of omap list_omap is_sleep sum_Z foldr]. lia.
  - rewrite (attempts_loop_200 _ _ _ _ _ body) by done.
    rewrite total_sleep_after. unfold total_sleep.
    rewrite (quiet_sleeps (trace (read_response _ _ _))) by apply quiet_read_response.
    cbn. lia.
Qed.

Lemma sum_powers_of_two (k : nat) :
  sum_Z (map (fun a => 2 ^ Z.of_nat a)%Z (seq 0 k)) = (2 ^ Z.of_nat k - 1)%Z.
Proof.
  induction k as [|k IH]; [done|].
  rewrite seq_S, map_app, sum_Z_app, IH. cbn [map sum_Z foldr Nat.add].
  rewrite Nat2Z.inj_succ, Z.pow_succ_r by lia. lia.
Qed.

Lemma sum_sleep_budget_range (n : Z) :
  sum_Z (map (sleep_budget n) (range n)) = Z.max 0 (2 ^ (n - 1) - 1).
Proof.
  unfold range. destruct (Z_le_gt_dec n 0) as [Hn|Hn].
  - replace (Z.to_nat n) with 0%nat by lia. cbn.
    assert (2 ^ (n - 1) = 0)%Z as -> by (apply Z.pow_neg_r; lia). done.
  - replace (Z.to_nat n) with (S (Z.to_nat (n - 1))) by lia.
    rewrite seq_S, map_app, sum_Z_app. cbn [map sum_Z foldr Nat.add].
    unfold sleep_budget at 2. rewrite (proj2 (Z.eqb_eq _ _)) by lia.
    rewrite (map_ext_in _ (fun a => 2 ^ Z.of_nat a)%Z).
    + rewrite sum_powers_of_two, Z2Nat.id by lia.
      pose proof (Z.pow_pos_nonneg 2 (n - 1)). lia.
    + intros a Ha. apply in_seq in Ha. unfold sleep_budget.
      rewrite (proj2 (Z.eqb_neq _ _)); [done|lia].
Qed.

(** X6. Whatever the endpoint does, one call of [run_inference]
    sleeps at most [2^(max_retries - 1) - 1] seconds in total (3
    seconds for the default budget of 3), and not at all when the
    budget is 1 or less. *)
Theorem run_inference_total_sleep (w : world) (self : LLMPipeline) (prompt : string) :
  (0 <= total_sleep (run_inference w self prompt)
   <= Z.max 0 (2 ^ (max_retries (config self) - 1) - 1))%Z.
Proof.
  unfold run_inference. rewrite total_sleep_timing_decorator.
  destruct (String.eqb prompt EmptyString); [unfold total_sleep; cbn; lia|].
  destruct (String.eqb (llm_api_key (config self)) EmptyString);
    [unfold total_sleep; cbn; lia|].
  rewrite <- sum_sleep_budget_range. apply total_sleep_attempts_loop.
Qed.

(** ** Metrics *)

(** X7. [record_token_usage] does nothing, and cannot fail, when
    metrics are off, whatever it is given.  When they are on and the
    usage block is a dictionary whose three counts (0 for a missing
    key) are non-negative integers, it adds exactly these counts and
    logs once.  When only the total is negative it raises [ValueError]
    after the first two counters have been incremented. *)
Theorem record_token_usage_counts (w : world) (self : LLMPipeline) (usage : pyval) :
  (metrics_on w self = false -> record_token_usage w self usage = ([], Ok tt))
  /\ (forall (d : pydict) (p c t : Z),
        metrics_on w self = true ->
        usage = VDict d ->
        default (VInt 0) (d !! "prompt_tokens") = VInt p ->
        default (VInt 0) (d !! "completion_tokens") = VInt c ->
        default (VInt 0) (d !! "total_tokens") = VInt t ->
        (0 <= p)%Z -> (0 <= c)%Z ->
        record_token_usage w self usage
        = if (t <? 0)%Z
          then ([EvMetric (prompt_tokens_total (VInt p));
                 EvMetric (completion_tokens_total (VInt c))], Raise ValueError)
          else ([EvMetric (prompt_tokens_total (VInt p));
                 EvMetric (completion_tokens_total (VInt c));
                 EvMetric (total_tokens (VInt t)); EvLog INFO], Ok tt)).
Proof.
  split.
  - intros Hoff. unfold record_token_usage. by rewrite Hoff.
  - intros d p c t Hon -> Hp Hc Ht Hp0 Hc0.
    unfold record_token_usage. rewrite Hon, Hp, Hc, Ht. simpl.
    rewrite (proj2 (Z.ltb_ge p 0)), (proj2 (Z.ltb_ge c 0)) by done.
    by destruct (t <? 0)%Z.
Qed.

Lemma record_token_usage_counts_witness :
  record_token_usage flaky_world (new_pipeline default_config) negative_total_usage
  = ([EvMetric (prompt_tokens_total (VInt 3)); EvMetric (completion_tokens_total (VInt 4))],
     Raise ValueError).
Proof.
  apply (proj2 (record_token_usage_counts flaky_world (new_pipeline default_config)
                  negative_total_usage)
           {[ "prompt_tokens" := VInt 3; "completion_tokens" := VInt 4;
              "total_tokens" := VInt (-1) ]} 3%Z 4%Z (-1)%Z);
    first [reflexivity | lia].
Defined.

(** ** Stage 1 is idempotent *)

Lemma isspace_lower_char (c : ascii) : PyStr.isspace (PyStr.lower_char c) = PyStr.isspace c.
Proof. destruct c as [[] [] [] [] [] [] [] []]; reflexivity. Qed.

Lemma lower_char_idem (c : ascii) : PyStr.lower_char (PyStr.lower_char c) = PyStr.lower_char c.
Proof. destruct c as [[] [] [] [] [] [] [] []]; reflexivity. Qed.

Lemma lower_idem (s : string) : PyStr.lower (PyStr.lower s) = PyStr.lower s.
Proof.
  unfold PyStr.lower. induction s as [|c s IH]; simpl; [done|].
  by rewrite lower_char_idem, IH.
Qed.

Lemma lstrip_lower (s : string) : PyStr.lstrip (PyStr.lower s) = PyStr.lower (PyStr.lstrip s).
Proof.
  unfold PyStr.lower. induction s as [|c s IH]; simpl; [done|].
  rewrite isspace_lower_char. by destruct (PyStr.isspace c).
Qed.

Lemma rstrip_lower (s : string) : PyStr.rstrip (PyStr.lower s) = PyStr.lower (PyStr.rstrip s).
Proof.
  unfold PyStr.lower. induction s as [|c s IH]; simpl; [done|].
  rewrite IH, isspace_lower_char.
  destruct (PyStr.rstrip s); simpl; [by destruct (PyStr.isspace c)|done].
Qed.

Lemma strip_lower (s : string) : PyStr.strip (PyStr.lower s) = PyStr.lower (PyStr.strip s).
Proof. unfold PyStr.strip. by rewrite lstrip_lower, rstrip_lower. Qed.

Lemma strip_idem (s : string) : PyStr.strip (PyStr.strip s) = PyStr.strip s.
Proof.
  destruct (strip_split s) as (pre & post & _ & _ & _ & Hfirst & Hlast).
  unfold PyStr.strip at 1. by rewrite lstrip_id, rstrip_id.
Qed.

Lemma normalized_idem (c : PipelineConfig) (s : string) :
  normalized c (normalized c s) = normalized c s.
Proof.
  unfold normalized. destruct (lowercase_input c), (strip_input c); simpl; try done.
  - by rewrite strip_lower, strip_idem, lower_idem.
  - apply lower_idem.
  - apply strip_idem.
Qed.

(** X8. Stage 1 is idempotent: for every configuration, string and
    context, preprocessing the text that [preprocess_input] returned
    gives the same envelope again. *)
Theorem preprocess_input_idempotent (self : LLMPipeline) (s : string) (ctx : pyval)
    (out : pydict) :
  result (preprocess_input self (VStr s) ctx) = Ok out ->
  exists t, out !! "input" = Some (VStr t)
            /\ result (preprocess_input self (VStr t) ctx) = Ok out.
Proof.
  rewrite preprocess_input_str. intros [= <-].
  exists (normalized (config self) s). split; [done|].
  rewrite preprocess_input_str. fold (normalized (config self) (normalized (config self) s)).
  by rewrite normalized_idem.
Qed.

Lemma preprocess_input_idempotent_witness :
  exists t, ({[ "input" := VStr "test input"; "context" := VNone ]} : pydict) !! "input"
              = Some (VStr t)
            /\ result (preprocess_input (new_pipeline default_config) (VStr t) VNone)
               = Ok {[ "input" := VStr "test input"; "context" := VNone ]}.
Proof.
  apply (preprocess_input_idempotent (new_pipeline default_config) "  TEST Input  " VNone).
  reflexivity.
Defined.

(** ** Templates with other placeholders *)

Lemma format_scan_field_name (rt : runtime) (kwargs : pydict) (read name rest : string) :
  plain_name name = true ->
  format_scan rt kwargs (Some read) (name +:+ "}" +:+ rest)
  = match lookup_field rt kwargs (read +:+ name) with
    | Ok v => prepend v (format_scan rt kwargs None rest)
    | Raise e => Raise e
    end.
Proof.
  revert read. induction name as [|c name IH]; intros read Hname.
  - rewrite append_empty, append_cons, append_empty. cbn [format_scan]. simpl.
    replace (read +:+ EmptyString) with read; [done|].
    clear. induction read as [|x read IH]; [done|]. by rewrite append_cons, <- IH.
  - simpl in Hname. apply andb_prop in Hname as [Hc Hname].
    apply andb_prop in Hc as [Hc Hcomplex]. apply andb_prop in Hc as [Hopen Hclose].
    apply negb_true_iff in Hopen, Hclose, Hcomplex.
    rewrite append_cons. cbn [format_scan]. rewrite Hopen, Hclose, Hcomplex.
    rewrite IH by done. by rewrite append_assoc.
Qed.

Lemma format_scan_field (rt : runtime) (kwargs : pydict) (name rest : string) :
  plain_name name = true ->
  format_scan rt kwargs None ("{" +:+ name +:+ "}" +:+ rest)
  = match lookup_field rt kwargs name with
    | Ok v => prepend v (format_scan rt kwargs None rest)
    | Raise e => Raise e
    end.
Proof.
  intros Hname.
  pose proof (format_scan_field_name rt kwargs EmptyString name rest Hname) as Hscan.
  rewrite append_empty in Hscan. rewrite <- Hscan. clear Hscan.
  rewrite append_cons, append_empty.
  destruct name as [|c name].
  - by rewrite append_empty.
  - simpl in Hname. apply andb_prop in Hname as [Hc _].
    apply andb_prop in Hc as [Hc _]. apply andb_prop in Hc as [Hopen _].
    apply negb_true_iff in Hopen.
    rewrite append_cons. cbn [format_scan]. simpl. by rewrite Hopen.
Qed.

Lemma str_format_pieces_then (rt : runtime) (kwargs : pydict) (user_input context : pyval)
    (ps : list piece) (rest : string) :
  kwargs = {[ "user_input" := user_input; "context" := context ]} ->
  forallb plain_piece ps = true ->
  format_scan rt kwargs None (template_source ps +:+ rest)
  = prepend (template_value rt user_input context ps) (format_scan rt kwargs None rest).
Proof.
  intros -> Hps. unfold template_source, template_value.
  induction ps as [|p ps IH]; [by rewrite append_empty, prepend_empty|].
  simpl in Hps. apply andb_prop in Hps as [Hp Hps].
  cbn [concat_strings map]. rewrite append_assoc.
  destruct p; cbn [piece_source piece_value].
  - by rewrite format_scan_text, IH, prepend_prepend.
  - by rewrite (format_scan_user_input _ _ user_input), IH, prepend_prepend.
  - by rewrite (format_scan_context _ _ context), IH, prepend_prepend.
Qed.

(** X9. A template whose first placeholder other than [{user_input}]
    and [{context}] is a plain name makes [compose_prompt] raise, even
    though the preprocessed data has both keys: a [PipelineError] that
    reports the name as a key missing from the preprocessed data when
    the name is not numeric, and an [IndexError], which is not wrapped,
    when the name is omitted or numeric. *)
Theorem compose_prompt_other_placeholder (rt : runtime) (w : world) (self : LLMPipeline)
    (data : pydict) (template_name : option string) (user_input context : pyval)
    (ps : list piece) (name rest : string) :
  data !! "input" = Some user_input ->
  data !! "context" = Some context ->
  forallb plain_piece ps = true ->
  plain_name name = true ->
  name <> "user_input" -> name <> "context" ->
  result (_load_template w self template_name)
    = Ok (template_source ps +:+ "{" +:+ name +:+ "}" +:+ rest) ->
  result (compose_prompt rt w self data template_name)
  = if all_digits name
    then if (PY_SSIZE_T_MAX <? digits_value 0 name)%Z then Raise ValueError else Raise IndexError
    else Raise (PipelineError
                  ("Missing required key in preprocessed data: " +:+ PyStr.repr name)).
Proof.
  intros Hin Hctx Hps Hname Hui Hc Hload.
  assert (str_format rt (template_source ps +:+ "{" +:+ name +:+ "}" +:+ rest)
            {[ "user_input" := user_input; "context" := context ]}
          = if all_digits name
            then if (PY_SSIZE_T_MAX <? digits_value 0 name)%Z
                 then Raise ValueError else Raise IndexError
            else Raise (KeyError (PyStr.repr name))) as Hfmt.
  { unfold str_format.
    rewrite (str_format_pieces_then rt _ user_input context) by done.
    rewrite format_scan_field by done. unfold lookup_field.
    destruct (all_digits name).
    - by destruct (_ <? _)%Z.
    - by rewrite lookup_insert_ne, lookup_singleton_ne. }
  unfold compose_prompt. rewrite result_timing_decorator.
  destruct (all_digits name) eqn:Hdigits.
  - set (e := if (PY_SSIZE_T_MAX <? digits_value 0 name)%Z then ValueError else IndexError).
    assert (result (user_input0 <- lift (getitem data "input");;
                    context0 <- lift (getitem data "context");;
                    template <- _load_template w self template_name;;
                    prompt <- lift (str_format rt template
                                      {[ "user_input" := user_input0; "context" := context0 ]});;
                    emit (EvLog DEBUG);;; ret prompt) = Raise e) as Hbody.
    { erewrite result_bind_ok by (unfold getitem; by rewrite Hin).
      erewrite result_bind_ok by (unfold getitem; by rewrite Hctx).
      erewrite result_bind_ok by exact Hload.
      apply result_bind_raise. rewrite result_lift, Hfmt. unfold e.
      by destruct (_ <? _)%Z. }
    destruct (_ <- _ ;; _) as [t o]. simpl in Hbody. subst o. unfold e.
    by destruct (_ <? _)%Z.
  - rewrite (result_try_except_raise _ _ (KeyError (PyStr.repr name))
               (raise (PipelineError
                  ("Missing required key in preprocessed data: " +:+ PyStr.repr name))));
      [reflexivity| |reflexivity].
    erewrite result_bind_ok by (unfold getitem; by rewrite Hin).
    erewrite result_bind_ok by (unfold getitem; by rewrite Hctx).
    erewrite result_bind_ok by exact Hload.
    apply result_bind_raise. by rewrite result_lift, Hfmt.
Qed.

Lemma compose_prompt_other_placeholder_witness :
  result (compose_prompt strict_runtime (test_world "Dear {name}, {user_input}" VNone)
            (new_pipeline test_config)
            {[ "input" := VStr "hello"; "context" := VNone ]} None)
  = Raise (PipelineError "Missing required key in preprocessed data: 'name'").
Proof.
  apply (compose_prompt_other_placeholder strict_runtime
           (test_world "Dear {name}, {user_input}" VNone) (new_pipeline test_config)
           {[ "input" := VStr "hello"; "context" := VNone ]} None (VStr "hello") VNone
           [Text "Dear "] "name" ", {user_input}");
    first [reflexivity | discriminate].
Defined.

(** ** What a call of [process] posts and counts *)

Lemma trace_bind {A B} (m : M A) (k : A -> M B) :
  trace (bind m k)
  = trace m ++ match result m with Ok a => trace (k a) | Raise _ => [] end.
Proof.
  destruct m as [t [a|e]]; simpl; [|by rewrite app_nil_r].
  unfold bind. by destruct (k a).
Qed.

Lemma count_events_app (P : event -> bool) (t t' : list event) :
  count_events P (t ++ t') = (count_events P t + count_events P t')%nat.
Proof. unfold count_events. by rewrite filter_app, length_app. Qed.


Lemma silent_count (P : event -> bool) (t : list event) :
  silent P t -> count_events P t = 0%nat.
Proof.
  induction 1 as [|ev t Hev _ IH]; [done|].
  unfold count_events in *. rewrite filter_cons. by rewrite decide_False by congruence.
Qed.

Lemma silent_nil (P : event -> bool) : silent P [].
Proof. constructor. Qed.

Lemma silent_one (P : event -> bool) (ev : event) : P ev = false -> silent P [ev].
Proof. by repeat constructor. Qed.

Lemma silent_bind {A B} (P : event -> bool) (m : M A) (k : A -> M B) :
  silent P (trace m) -> (forall a, silent P (trace (k a))) -> silent P (trace (bind m k)).
Proof.
  intros Hm Hk. rewrite trace_bind. apply Forall_app_2; [done|].
  destruct (result m); [apply Hk|constructor].
Qed.

Lemma silent_try_except {A} (P : event -> bool) (m : M A) (h : exn -> option (M A)) :
  silent P (trace m) ->
  (forall e m', h e = Some m' -> silent P (trace m')) ->
  silent P (trace (try_except m h)).
Proof.
  destruct m as [t [a|e]]; simpl; intros Ht Hh; [done|].
  destruct (h e) as [[t' r]|] eqn:He; [|done].
  apply Forall_app_2; [done|]. by apply (Hh e (t', r)).
Qed.

Lemma silent_timing_decorator {A} (P : event -> bool) (m : M A) :
  log_free P -> silent P (trace m) -> silent P (trace (timing_decorator m)).
Proof.
  intros Hlog Hm. apply silent_bind; [done|]. intros a.
  apply silent_bind; [by apply silent_one|]. intros _. constructor.
Qed.

Lemma silent_preprocess_input (P : event -> bool) (self : LLMPipeline) (v ctx : pyval) :
  log_free P -> silent P (trace (preprocess_input self v ctx)).
Proof.
  intros Hlog. apply silent_timing_decorator; [done|].
  destruct v; try constructor; [apply Hlog|constructor].
Qed.

Lemma silent_load_template (P : event -> bool) (w : world) (self : LLMPipeline)
    (template_name : option string) :
  log_free P -> silent P (trace (_load_template w self template_name)).
Proof.
  intros Hlog. apply silent_try_except; [constructor|].
  intros e m' He. destruct e; try discriminate He. injection He as <-.
  by apply silent_one.
Qed.

Lemma silent_compose_prompt (P : event -> bool) (rt : runtime) (w : world)
    (self : LLMPipeline) (data : pydict) (template_name : option string) :
  log_free P -> silent P (trace (compose_prompt rt w self data template_name)).
Proof.
  intros Hlog. apply silent_timing_decorator; [done|].
  apply silent_try_except.
  - apply silent_bind; [constructor|intros ?].
    apply silent_bind; [constructor|intros ?].
    apply silent_bind; [by apply silent_load_template|intros ?].
    apply silent_bind; [constructor|intros ?].
    apply silent_bind; [by apply silent_one|intros ?]. constructor.
  - intros e m' He. destruct e; try discriminate He. injection He as <-. constructor.
Qed.

Lemma silent_postprocess_output (P : event -> bool) (w : world) (self : LLMPipeline)
    (d : pydict) (ctx : pyval) :
  log_free P -> silent P (trace (postprocess_output w self d ctx)).
Proof.
  intros Hlog. rewrite postprocess_output_eq.
  destruct (default _ (d !! "content")); try constructor; [apply Hlog|constructor].
Qed.

Lemma silent_validate_input (P : event -> bool) (rt : runtime) (w : world) (d : pydict) :
  log_free P -> silent P (trace (Validators.validate_input rt w d)).
Proof.
  intros Hlog. unfold Validators.validate_input.
  destruct (negb _); [constructor|].
  apply silent_try_except; [constructor|].
  intros e m' [= <-]. by apply silent_one.
Qed.

Lemma silent_validate_output (P : event -> bool) (rt : runtime) (w : world) (d : pydict) :
  log_free P -> silent P (trace (Validators.validate_output rt w d)).
Proof.
  intros Hlog. unfold Validators.validate_output.
  destruct (negb _); [constructor|].
  apply silent_try_except; [constructor|].
  intros e m' [= <-]. by apply silent_one.
Qed.

Lemma silent_log_token_usage (P : event -> bool) (d : pydict) :
  log_free P -> silent P (trace (log_token_usage d)).
Proof.
  intros Hlog. unfold log_token_usage.
  destruct (d !! "token_usage") as [v|]; [|constructor].
  destruct (truthy v); [|constructor].
  destruct v; try constructor; [apply Hlog|constructor].
Qed.






Lemma posts_of_run_inference (w : world) (self : LLMPipeline) (prompt : string) :
  (posts_of (trace (run_inference w self prompt)) <= Z.to_nat (max_retries (config self)))%nat
  /\ (llm_api_key (config self) = EmptyString ->
      posts_of (trace (run_inference w self prompt)) = 0%nat).
Proof.
  unfold run_inference. rewrite posts_of_timing_decorator.
  destruct (String.eqb prompt EmptyString); [split; [apply Nat.le_0_l|done]|].
  destruct (String.eqb_spec (llm_api_key (config self)) EmptyString) as [Hkey|Hkey].
  - split; [apply Nat.le_0_l|done].
  - split; [|done].
    etrans; [apply posts_of_attempts_loop|]. unfold range. by rewrite length_seq.
Qed.

(** What [process] adds around its [try] block. *)
Lemma process_trace (rt : runtime) (w : world) (self : LLMPipeline)
    (input_text context : pyval) (template_name : option string) :
  trace (process rt w self input_text context template_name)
  = trace (record_request w self)
    ++ trace (process_body rt w self input_text context template_name)
    ++ match result (process_body rt w self input_text context template_name) with
       | Ok _ => []
       | Raise _ => EvLog ERROR :: trace (record_failure w self)
       end.
Proof.
  unfold process, record_request, record_failure.
  destruct (process_body rt w self input_text context template_name) as [t [r|e]];
    destruct (metrics_on w self); simpl; rewrite ?app_nil_r; try reflexivity;
    by destruct e.
Qed.

Lemma count_bind_silent {A B} (P : event -> bool) (m : M A) (k : A -> M B) :
  silent P (trace m) ->
  count_events P (trace (bind m k))
  = match result m with Ok a => count_events P (trace (k a)) | Raise _ => 0%nat end.
Proof.
  intros Hm. rewrite trace_bind, count_events_app, (silent_count P (trace m)) by done.
  by destruct (result m).
Qed.



Lemma bounded_bind_silent {A B} (P : event -> bool) (N : nat) (m : M A) (k : A -> M B) :
  silent P (trace m) ->
  (forall a, (count_events P (trace (k a)) <= N)%nat) ->
  (count_events P (trace (bind m k)) <= N)%nat.
Proof.
  intros Hm Hk. rewrite count_bind_silent by done.
  destruct (result m); [apply Hk|lia].
Qed.

Lemma bounded_bind_then_silent {A B} (P : event -> bool) (N : nat) (m : M A) (k : A -> M B) :
  (count_events P (trace m) <= N)%nat ->
  (forall a, silent P (trace (k a))) ->
  (count_events P (trace (bind m k)) <= N)%nat.
Proof.
  intros Hm Hk. rewrite trace_bind, count_events_app.
  destruct (result m);
    [rewrite (silent_count P (trace (k _))) by done
    |rewrite (silent_count P []) by constructor]; lia.
Qed.

Lemma log_free_is_post : log_free is_post.
Proof. by intros lvl. Qed.

Lemma silent_metrics_call (P : event -> bool) (on : bool) (m : metric) :
  P (EvMetric m) = false -> silent P (trace (if on then emit (EvMetric m) else ret tt)).
Proof. intros Hm. destruct on; [by apply silent_one|constructor]. Qed.

Lemma process_body_posts (rt : runtime) (w : world) (self : LLMPipeline)
    (input_text context : pyval) (template_name : option string) (N : nat) :
  (forall prompt, (posts_of (trace (run_inference w self prompt)) <= N)%nat) ->
  (count_events is_post (trace (process_body rt w self input_text context template_name))
   <= N)%nat.
Proof.
  intros Hrun. pose proof log_free_is_post as Hlog. unfold process_body.
  apply bounded_bind_silent; [constructor|intros input_data].
  apply bounded_bind_silent;
    [destruct (validate_schemas _); [by apply silent_validate_input|constructor]
    |intros validated].
  do 2 (apply bounded_bind_silent; [constructor|intros ?]).
  apply bounded_bind_silent; [by apply silent_one|intros _].
  do 2 (apply bounded_bind_silent; [constructor|intros ?]).
  apply bounded_bind_silent; [by apply silent_preprocess_input|intros preprocessed].
  apply bounded_bind_silent; [by apply silent_compose_prompt|intros prompt].
  apply bounded_bind_then_silent; [apply Hrun|intros inference_result].
  apply silent_bind; [constructor|intros ctx].
  apply silent_bind; [by apply silent_postprocess_output|intros r0].
  apply silent_bind; [by apply silent_log_token_usage|intros _].
  apply silent_bind;
    [destruct (validate_schemas _); [by apply silent_validate_output|constructor]
    |intros r1].
  apply silent_bind; [constructor|intros r2].
  apply silent_bind; [by apply silent_metrics_call|intros _].
  apply silent_bind; [by apply silent_metrics_call|intros _].
  apply silent_bind; [by apply silent_one|intros _]. constructor.
Qed.

Lemma process_posts (rt : runtime) (w : world) (self : LLMPipeline)
    (input_text context : pyval) (template_name : option string) :
  posts_of (trace (process rt w self input_text context template_name))
  = count_events is_post (trace (process_body rt w self input_text context template_name)).
Proof.
  change (posts_of ?t) with (count_events is_post t).
  rewrite process_trace, !count_events_app.
  rewrite (silent_count is_post (trace (record_request w self)))
    by (by apply silent_metrics_call).
  destruct (result _); [done|].
  rewrite (silent_count is_post (_ :: _)); [lia|].
  constructor; [done|]. by apply silent_metrics_call.
Qed.

(** X10. Whatever the input, the hooks and the endpoint, one call of
    [process] posts to the endpoint at most [max_retries] times, and
    never when no credential is configured. *)
Theorem process_posts_bounded (rt : runtime) (w : world) (self : LLMPipeline)
    (input_text context : pyval) (template_name : option string) :
  (posts_of (trace (process rt w self input_text context template_name))
   <= Z.to_nat (max_retries (config self)))%nat
  /\ (llm_api_key (config self) = EmptyString ->
      posts_of (trace (process rt w self input_text context template_name)) = 0%nat).
Proof.
  rewrite process_posts. split.
  - apply process_body_posts. intros prompt. apply posts_of_run_inference.
  - intros Hkey. apply Nat.le_0_r. apply process_body_posts. intros prompt.
    by rewrite (proj2 (posts_of_run_inference w self prompt)).
Qed.






(** ** The success envelope of a pipeline without hooks *)

Lemma truthy_dict (d : pydict) : truthy (VDict d) = true -> d <> ∅.
Proof. simpl. intros H ->. by rewrite bool_decide_eq_true_2 in H. Qed.

Lemma int_values_nonempty (rt : runtime) (d : pydict) (u : pyval) :
  d <> ∅ -> Validators.int_values rt d = Some u -> exists d', u = VDict d' /\ d' <> ∅.
Proof.
  intros Hd. unfold Validators.int_values. case_bool_decide as Hall; [|done].
  intros [= <-]. eexists. split; [done|].
  apply map_choose in Hd as (k & v & Hk).
  destruct (Hall k v Hk) as [z Hz]. intros Hempty.
  assert ((VInt <$> omap (pydantic_int rt) d) !! k = Some (VInt z)) as Hlook.
  { by rewrite lookup_fmap, lookup_omap, Hk; simpl; rewrite Hz. }
  by rewrite Hempty, lookup_empty in Hlook.
Qed.

(** What stage 4 returns, and the log line that follows it. *)
Lemma postprocess_output_logged (w : world) (self : LLMPipeline) (d : pydict)
    (ctx : pyval) (r0 : pydict) :
  result (postprocess_output w self d ctx) = Ok r0 ->
  result (log_token_usage r0) = Ok tt ->
  exists (s : string) (usage : pyval),
    r0 = {[ "final_output" := VStr s; "context_used" := ctx;
            "timestamp" := VFloat (time_time w); "token_usage" := usage ]}
    /\ (usage = VNone \/ exists u, usage = VDict u /\ u <> ∅).
Proof.
  rewrite postprocess_output_eq.
  destruct (default _ (d !! "content")) as [| | | |s| |]; try discriminate.
  intros [= <-]. unfold log_token_usage.
  change (_ !! "token_usage") with
    (Some (if truthy (default (VDict ∅) (d !! "usage"))
           then default (VDict ∅) (d !! "usage") else VNone)).
  cbv iota. intros Hlog. eexists _, _. split; [reflexivity|].
  destruct (truthy (default (VDict ∅) (d !! "usage"))) eqn:Htruthy; [|by left].
  rewrite Htruthy in Hlog. right.
  destruct (default (VDict ∅) (d !! "usage")) as [| | | | | |u]; try discriminate Hlog.
  exists u. split; [done|]. by apply truthy_dict.
Qed.

Lemma validate_output_success (rt : runtime) (w : world) (s : string) (ctx usage : pyval)
    (ts : Q) (r : pydict) :
  (usage = VNone \/ exists u, usage = VDict u /\ u <> ∅) ->
  result (Validators.validate_output rt w
            {[ "final_output" := VStr s; "context_used" := ctx;
               "timestamp" := VFloat ts; "token_usage" := usage ]}) = Ok r ->
  exists (s' : string) (ts' : Q) (usage' : pyval),
    r = {[ "final_output" := VStr s'; "context_used" := ctx;
           "timestamp" := VFloat ts'; "token_usage" := usage' ]}
    /\ (usage' = VNone \/ exists u, usage' = VDict u /\ u <> ∅)
    /\ (PYDANTIC_AVAILABLE w = true -> PyStr.strip s' <> EmptyString).
Proof.
  intros Husage. unfold Validators.validate_output.
  destruct (PYDANTIC_AVAILABLE w); simpl.
  - unfold Validators.PipelineOutput, Validators.text_field, Validators.usage_field.
    change (_ !! "final_output") with (Some (VStr s)).
    change (_ !! "timestamp") with (Some (VFloat ts)).
    change (_ !! "token_usage") with (Some usage).
    change (_ !! "context_used") with (Some ctx).
    simpl. destruct (pydantic_str rt (VStr s)) as [s'|]; simpl; [|discriminate].
    unfold Validators.not_empty.
    destruct (String.eqb_spec (PyStr.strip s') EmptyString) as [|Hblank]; [discriminate|].
    destruct (pydantic_float rt (VFloat ts)) as [ts'|]; [|discriminate].
    destruct Husage as [->|(u & -> & Hu)].
    + intros [= <-]. exists s', ts', VNone. split; [done|]. split; [by left|done].
    + destruct (Validators.int_values rt u) as [usage'|] eqn:Hint; [|discriminate].
      intros [= <-]. exists s', ts', usage'. split; [done|].
      split; [right; by apply (int_values_nonempty rt u)|done].
  - intros [= <-]. exists s, ts, usage. split; [done|]. split; [done|discriminate].
Qed.

Lemma validate_input_context (rt : runtime) (w : world) (input_text context : pyval)
    (validated : pydict) :
  result (Validators.validate_input rt w
            {[ "input_text" := input_text; "context" := context ]}) = Ok validated ->
  validated !! "context" = Some context.
Proof.
  unfold Validators.validate_input. destruct (PYDANTIC_AVAILABLE w); simpl.
  - unfold Validators.PipelineInput.
    destruct (Validators.text_field _ _ _); [|discriminate]. by intros [= <-].
  - by intros [= <-].
Qed.

Lemma process_body_success (rt : runtime) (w : world) (self : LLMPipeline)
    (input_text context : pyval) (template_name : option string) (r : pydict) :
  pre_hooks self = [] ->
  post_hooks self = [] ->
  result (process_body rt w self input_text context template_name) = Ok r ->
  exists (s : string) (ts : Q) (usage : pyval),
    r = {[ "final_output" := VStr s; "context_used" := context;
           "timestamp" := VFloat ts; "token_usage" := usage ]}
    /\ (usage = VNone \/ exists u, usage = VDict u /\ u <> ∅)
    /\ (validate_schemas (config self) = true -> PYDANTIC_AVAILABLE w = true ->
        PyStr.strip s <> EmptyString).
Proof.
  intros Hpre Hposthooks H. unfold process_body in H. rewrite Hpre, Hposthooks in H.
  apply result_bind_inv in H as (d1 & Hd1 & H). injection Hd1 as <-.
  apply result_bind_inv in H as (d2 & Hval & H).
  assert (d2 !! "context" = Some context) as Hcontext.
  { destruct (validate_schemas (config self)).
    - by apply (validate_input_context rt w input_text).
    - by injection Hval as <-. }
  do 8 skip_bind H.
  apply result_bind_inv in H as (ctx & Hctx & H).
  unfold getitem in Hctx. rewrite Hcontext in Hctx. injection Hctx as <-.
  apply result_bind_inv in H as (r0 & Hpost & H).
  apply result_bind_inv in H as ([] & Hlog & H).
  apply result_bind_inv in H as (r1 & Hvalout & H).
  apply result_bind_inv in H as (r2 & Hhooks & H). injection Hhooks as <-.
  do 3 skip_bind H. injection H as <-.
  destruct (postprocess_output_logged w self _ _ r0 Hpost Hlog) as (s & usage & -> & Husage).
  destruct (validate_schemas (config self)).
  - destruct (validate_output_success rt w s context usage _ r1 Husage Hvalout)
      as (s' & ts' & usage' & -> & Husage' & Hblank).
    exists s', ts', usage'. split; [done|]. split; [done|]. intros _. apply Hblank.
  - injection Hvalout as <-. exists s, (time_time w), usage.
    split; [done|]. split; [done|discriminate].
Qed.

Lemma envelope_of_success (input_text context : pyval) (o : outcome pydict) :
  has_success_fields (envelope_of input_text context o) = true ->
  o = Ok (envelope_of input_text context o).
Proof. destruct o as [r|e]; [done|]. by destruct e. Qed.

(** X12. For a pipeline without hooks, every envelope with the
    success fields that [process] returns has exactly the four success
    keys, a string as [final_output], the caller's context as
    [context_used], and as [token_usage] either [None] or a non-empty
    dictionary (never an empty one, never a value of another type). *)
Theorem process_success_envelope (rt : runtime) (w : world) (self : LLMPipeline)
    (input_text context : pyval) (template_name : option string) (envelope : pydict) :
  pre_hooks self = [] ->
  post_hooks self = [] ->
  result (process rt w self input_text context template_name) = Ok envelope ->
  has_success_fields envelope = true ->
  dom envelope = {[ "final_output"; "context_used"; "timestamp"; "token_usage" ]}
  /\ (exists s, envelope !! "final_output" = Some (VStr s))
  /\ envelope !! "context_used" = Some context
  /\ (envelope !! "token_usage" = Some VNone
      \/ exists u, envelope !! "token_usage" = Some (VDict u) /\ u <> ∅).
Proof.
  intros Hpre Hposthooks Hret Hshape. rewrite process_result in Hret.
  injection Hret as <-. apply envelope_of_success in Hshape.
  destruct (process_body_success rt w self _ _ _ _ Hpre Hposthooks Hshape)
    as (s & ts & usage & -> & Husage & _).
  split; [set_solver|]. split; [by exists s|]. split; [done|].
  destruct Husage as [->|(u & -> & Hu)]; [by left|right; by exists u].
Qed.

Lemma process_success_envelope_witness :
  dom (mock_envelope : pydict)
    = {[ "final_output"; "context_used"; "timestamp"; "token_usage" ]}
  /\ mock_envelope !! "context_used" = Some (VStr "Polite Tone").
Proof.
  destruct (process_success_envelope strict_runtime offline_world
              (new_pipeline default_config) (VStr "Hello") (VStr "Polite Tone") None
              mock_envelope eq_refl eq_refl eq_refl eq_refl) as (Hdom & _ & Hctx & _).
  by split.
Defined.

(** X13. With schema validation enabled and pydantic importable, a
    pipeline without hooks never returns a success envelope whose
    [final_output] is blank: an output that is empty after trimming is
    rejected. *)
Theorem process_output_not_blank (rt : runtime) (w : world) (self : LLMPipeline)
    (input_text context : pyval) (template_name : option string) (envelope : pydict) :
  validate_schemas (config self) = true ->
  PYDANTIC_AVAILABLE w = true ->
  pre_hooks self = [] ->
  post_hooks self = [] ->
  result (process rt w self input_text context template_name) = Ok envelope ->
  has_success_fields envelope = true ->
  exists s, envelope !! "final_output" = Some (VStr s) /\ PyStr.strip s <> EmptyString.
Proof.
  intros Hval Hpyd Hpre Hposthooks Hret Hshape. rewrite process_result in Hret.
  injection Hret as <-. apply envelope_of_success in Hshape.
  destruct (process_body_success rt w self _ _ _ _ Hpre Hposthooks Hshape)
    as (s & ts & usage & -> & _ & Hblank).
  exists s. split; [done|]. by apply Hblank.
Qed.

Lemma process_output_not_blank_witness :
  exists s, ({[ "final_output" := VStr "Test response"; "context_used" := VNone;
                "timestamp" := VFloat 0; "token_usage" := VNone ]} : pydict)
              !! "final_output" = Some (VStr s)
            /\ PyStr.strip s <> EmptyString.
Proof.
  apply (process_output_not_blank strict_runtime
           (test_world "{user_input}"
              (VDict {[ "choices" := VList [VDict {[ "message" :=
                                      VDict {[ "content" := VStr "Test response" ]} ]}] ]}))
           (new_pipeline (with_key "test_key" 3 default_config))
           (VStr "Hello") VNone None); reflexivity.
Defined.

(** ** The whole pipeline in development mode *)





(** ** Output validation *)

(** X15. With pydantic importable, [validate_output] either returns,
    without logging, an envelope with exactly the four success keys
    (other keys are dropped, a missing [context_used] becomes [None])
    whose [final_output] is the validated string, not blank, or it logs
    one error and raises pydantic's [ValidationError].  Without
    pydantic both validators return their argument unchanged. *)
Theorem validate_output_normal_form (rt : runtime) (w : world) (output_data : pydict) :
  (PYDANTIC_AVAILABLE w = true ->
   (forall t validated,
      Validators.validate_output rt w output_data = (t, Ok validated) ->
      t = []
      /\ dom validated = {[ "final_output"; "context_used"; "timestamp"; "token_usage" ]}
      /\ (exists v s, output_data !! "final_output" = Some v
                      /\ pydantic_str rt v = Some s
                      /\ PyStr.strip s <> EmptyString
                      /\ validated !! "final_output" = Some (VStr s))
      /\ validated !! "context_used" = Some (default VNone (output_data !! "context_used")))
   /\ (forall t e,
         Validators.validate_output rt w output_data = (t, Raise e) ->
         t = [EvLog ERROR] /\ e = ValidationError))
  /\ (PYDANTIC_AVAILABLE w = false ->
      Validators.validate_output rt w output_data = ([], Ok output_data)
      /\ Validators.validate_input rt w output_data = ([], Ok output_data)).
Proof.
  split.
  - intros Hpyd. unfold Validators.validate_output. rewrite Hpyd. simpl.
    unfold Validators.PipelineOutput, Validators.text_field.
    destruct (output_data !! "final_output") as [v|] eqn:Hv; simpl;
      [|by split; [|intros t e [= <- <-]]].
    destruct (pydantic_str rt v) as [s|] eqn:Hs; simpl;
      [|by split; [|intros t e [= <- <-]]].
    unfold Validators.not_empty.
    destruct (String.eqb_spec (PyStr.strip s) EmptyString) as [Hblank|Hblank]; simpl;
      [by split; [|intros t e [= <- <-]]|].
    destruct (output_data !! "timestamp" ≫= pydantic_float rt) as [ts|]; simpl;
      [|by split; [|intros t e [= <- <-]]].
    destruct (Validators.usage_field rt output_data "token_usage") as [usage|]; simpl;
      [|by split; [|intros t e [= <- <-]]].
    split; [|done]. intros t validated [= <- <-].
    split; [done|]. split; [set_solver|]. split; [|done].
    by exists v, s.
  - intros Hpyd. unfold Validators.validate_output, Validators.validate_input.
    by rewrite Hpyd.
Qed.

Lemma validate_output_normal_form_witness :
  dom ({[ "final_output" := VStr "Test POST"; "context_used" := VNone;
          "timestamp" := VFloat 3; "token_usage" := VNone ]} : pydict)
  = {[ "final_output"; "context_used"; "timestamp"; "token_usage" ]}.
Proof.
  apply (proj1 (proj1 (validate_output_normal_form strict_runtime offline_world
                         annotated_output) eq_refl) []
           {[ "final_output" := VStr "Test POST"; "context_used" := VNone;
              "timestamp" := VFloat 3; "token_usage" := VNone ]}).
  reflexivity.
Defined.

(** ** The stages read the configuration only *)

Lemma bind_lift_ok {A B} (a : A) (k : A -> M B) : bind (lift (Ok a)) k = k a.
Proof. unfold bind, lift. by destruct (k a). Qed.

Lemma bind_ext {A B} (m m' : M A) (k k' : A -> M B) :
  m = m' -> (forall a, k a = k' a) -> bind m k = bind m' k'.
Proof.
  intros <- Hk. unfold bind. destruct m as [t [a|e]]; [|done]. by rewrite Hk.
Qed.

Lemma attempts_loop_config (w : world) (self self' : LLMPipeline) (prompt : string)
    (attempts : list nat) :
  config self = config self' ->
  attempts_loop w self prompt attempts = attempts_loop w self' prompt attempts.
Proof.
  intros Hconfig. destruct self as [c pre post], self' as [c' pre' post'].
  simpl in Hconfig. subst c'.
  induction attempts as [|attempt rest IH]; [done|].
  cbn [attempts_loop]. rewrite IH. reflexivity.
Qed.

Lemma run_inference_config (w : world) (self self' : LLMPipeline) (prompt : string) :
  config self = config self' ->
  run_inference w self prompt = run_inference w self' prompt.
Proof.
  intros Hconfig. unfold run_inference.
  by rewrite (attempts_loop_config w self self'), Hconfig.
Qed.

(** ** Every attempt posts the same request *)

Lemma posts_app (t t' : list event) : posts (t ++ t') = posts t ++ posts t'.
Proof. apply filter_app. Qed.

Lemma posts_quiet (t : list event) : quiet t -> posts t = [].
Proof.
  induction 1 as [|ev t [Hp _] _ IH]; [done|].
  unfold posts in *. rewrite filter_cons. by rewrite decide_False by congruence.
Qed.

Lemma posts_cons_post (attempt : nat) (req : request) (t : list event) :
  posts (EvPost attempt req :: t) = EvPost attempt req :: posts t.
Proof. unfold posts. rewrite filter_cons. by rewrite decide_True. Qed.

Lemma posts_cons_other (ev : event) (t : list event) :
  is_post ev = false -> posts (ev :: t) = posts t.
Proof. intros Hev. unfold posts. rewrite filter_cons. by rewrite decide_False by congruence. Qed.

Lemma posts_attempts_loop (w : world) (self : LLMPipeline) (prompt : string)
    (attempts : list nat) :
  exists made, made `prefix_of` attempts
    /\ posts (trace (attempts_loop w self prompt attempts))
       = map (fun attempt => EvPost attempt (make_request self prompt)) made.
Proof.
  induction attempts as [|attempt rest (made & Hmade & IH)].
  - by exists [].
  - destruct (http_outcome_cases (requests_post w attempt (make_request self prompt)))
      as [Htr|[Hnon|[body Hok]]].
    + rewrite attempts_loop_transport by done. destruct (_ =? _)%Z.
      * exists [attempt]. split; [by apply prefix_cons, prefix_nil|].
        unfold trace, fst. rewrite posts_cons_post. by rewrite posts_cons_other.
      * exists (attempt :: made). split; [by apply prefix_cons|].
        rewrite trace_after. cbn [app]. rewrite posts_cons_post, !posts_cons_other by done.
        cbn [map]. by rewrite IH.
    + rewrite attempts_loop_non_200 by done.
      exists (attempt :: made). split; [by apply prefix_cons|].
      rewrite trace_after. cbn [app]. rewrite posts_cons_post, !posts_cons_other by done.
      cbn [map]. by rewrite IH.
    + rewrite (attempts_loop_200 _ _ _ _ _ body) by done.
      exists [attempt]. split; [by apply prefix_cons, prefix_nil|].
      rewrite trace_after. cbn [app]. rewrite posts_cons_post.
      by rewrite (posts_quiet (trace (read_response _ _ _))) by apply quiet_read_response.
Qed.

Lemma prefix_of_seq (made : list nat) (n : nat) :
  made `prefix_of` seq 0 n -> made = seq 0 (length made) /\ (length made <= n)%nat.
Proof.
  intros [rest Hrest].
  assert (length made <= n)%nat as Hlen.
  { apply (f_equal length) in Hrest. rewrite length_seq, length_app in Hrest. lia. }
  split; [|done].
  apply (f_equal (take (length made))) in Hrest.
  rewrite take_app_length, take_seq, Nat.min_l in Hrest by done. by symmetry.
Qed.

(** X17. Whatever the endpoint does, the posts of one call of
    [run_inference] are the attempts 0, 1, ..., k-1 in this order, for
    some [k] within the budget, and each of them sends the same
    request: the configured URL, credential, model and timeout, and the
    prompt. *)
Theorem run_inference_posts_same_request (w : world) (self : LLMPipeline) (prompt : string) :
  exists k : nat,
    (k <= Z.to_nat (max_retries (config self)))%nat
    /\ posts (trace (run_inference w self prompt))
       = map (fun attempt =>
                EvPost attempt
                  {| req_url := llm_api_url (config self);
                     req_bearer := llm_api_key (config self);
                     req_model := model_name (config self);
                     req_prompt := prompt;
                     req_timeout := timeout_seconds (config self) |}) (seq 0 k).
Proof.
  unfold run_inference.
  assert (forall m : M pydict, posts (trace (timing_decorator m)) = posts (trace m)) as Htime.
  { intros m. destruct (trace_timing_decorator m) as (t & Ht & ->).
    by rewrite posts_app, (posts_quiet t), app_nil_r. }
  rewrite Htime.
  destruct (String.eqb prompt EmptyString); [exists 0%nat; split; [lia|done]|].
  destruct (String.eqb (llm_api_key (config self)) EmptyString);
    [exists 0%nat; split; [lia|done]|].
  destruct (posts_attempts_loop w self prompt (range (max_retries (config self))))
    as (made & Hmade & ->).
  apply prefix_of_seq in Hmade as [Hmade Hlen].
  exists (length made). split; [done|]. by rewrite Hmade at 1.
Qed.

(** * The orchestrator, with hooks that act on the caller's objects *)

Lemma bind_assoc {A B C} (m : M A) (k : A -> M B) (k' : B -> M C) :
  bind (bind m k) k' = bind m (fun a => bind (k a) k').
Proof.
  destruct m as [t [a|e]]; [|reflexivity]. simpl.
  destruct (k a) as [t' [b|e]]; simpl; [|reflexivity].
  destruct (k' b) as [t'' r]. by rewrite app_assoc.
Qed.

Lemma bind_ok_after {A B} (t : list event) (a : A) (k : A -> M B) :
  bind (t, Ok a) k = after t (k a).
Proof. unfold bind, after. by destruct (k a). Qed.

Lemma bind_ret_ok {A B} (a : A) (k : A -> M B) : bind (ret a) k = k a.
Proof. unfold bind, ret. by destruct (k a). Qed.

(** The [try] block is the pre-hooks, the validated stages, the
    post-hooks and the bookkeeping of a success. *)
Lemma process_body_validated_stages (rt : runtime) (w : world) (self : LLMPipeline)
    (input_text context : pyval) (template_name : option string) :
  process_body rt w self input_text context template_name
  = (input_data <- lift (run_hooks (pre_hooks self)
                           {[ "input_text" := input_text; "context" := context ]}) ;;
     result <- validated_stages rt w self input_data template_name ;;
     result <- lift (run_hooks (post_hooks self) result) ;;
     record_success w self ;;;
     time_pipeline w self ;;;
     emit (EvLog INFO) ;;;
     ret result).
Proof.
  unfold process_body, validated_stages.
  apply bind_ext; [reflexivity|intros input_data].
  repeat (rewrite bind_assoc; apply bind_ext; [reflexivity|intros ?]).
  by rewrite bind_ret_ok.
Qed.

Lemma validated_stages_config (rt : runtime) (w : world) (self self' : LLMPipeline)
    (input_data : pydict) (template_name : option string) :
  config self = config self' ->
  validated_stages rt w self input_data template_name
  = validated_stages rt w self' input_data template_name.
Proof.
  intros Hconfig. unfold validated_stages. rewrite Hconfig.
  destruct self as [c pre post], self' as [c' pre' post']. simpl in Hconfig. subst c'.
  repeat (apply bind_ext; [first [by apply run_inference_config | reflexivity]|intros ?]).
  reflexivity.
Qed.

(** ** What the hooks can do to the caller's objects *)

Lemma in_place_immutable (old new : pyval) :
  Effectful.mutable old = false -> Effectful.in_place old new = old.
Proof. by destruct old. Qed.

Lemma in_place_type (old new : pyval) :
  type_name (Effectful.in_place old new) = type_name old.
Proof. by destruct old, new. Qed.

Lemma in_place_same (v : pyval) : Effectful.in_place v v = v.
Proof. by destruct v. Qed.

Lemma updated_same (objects : Effectful.caller_objects) :
  Effectful.updated objects objects = objects.
Proof. destruct objects. unfold Effectful.updated. simpl. by rewrite !in_place_same. Qed.

Lemma kept_refl (v : pyval) : Effectful.kept v v.
Proof. by repeat split. Qed.

Lemma kept_trans (a b c : pyval) :
  Effectful.kept a b -> Effectful.kept b c -> Effectful.kept a c.
Proof.
  intros (Hty & Hmut & Hval) (Hty' & Hmut' & Hval'). repeat split.
  - by rewrite Hty'.
  - by rewrite Hmut'.
  - intros Ha. rewrite <- (Hval Ha). apply Hval'. by rewrite Hmut.
Qed.

Lemma kept_in_place (old new : pyval) : Effectful.kept old (Effectful.in_place old new).
Proof.
  repeat split.
  - apply in_place_type.
  - by destruct old, new.
  - apply in_place_immutable.
Qed.

Lemma run_hooks_kept (hooks : list Effectful.hook) (data : pydict)
    (objects : Effectful.caller_objects) :
  let objects' := fst (Effectful.run_hooks hooks data objects) in
  Effectful.kept (Effectful.input_text_object objects) (Effectful.input_text_object objects')
  /\ Effectful.kept (Effectful.context_object objects) (Effectful.context_object objects').
Proof.
  revert data objects. induction hooks as [|h rest IH]; intros data objects; simpl.
  - split; apply kept_refl.
  - destruct (h data objects) as [objects' done].
    assert (Effectful.kept (Effectful.input_text_object objects)
              (Effectful.input_text_object (Effectful.updated objects objects'))
            /\ Effectful.kept (Effectful.context_object objects)
                 (Effectful.context_object (Effectful.updated objects objects')))
      as [Htext Hctx] by (split; apply kept_in_place).
    destruct done as [data'| |]; simpl; [|done|done].
    destruct (IH data' (Effectful.updated objects objects')) as [Htext' Hctx'].
    split; eapply kept_trans; eauto.
Qed.

Lemma run_hooks_leaves_objects (hooks : list Effectful.hook) (data : pydict)
    (objects : Effectful.caller_objects) :
  Forall Effectful.leaves_objects hooks ->
  fst (Effectful.run_hooks hooks data objects) = objects.
Proof.
  intros Hhooks. revert data. induction Hhooks as [|h rest Hh _ IH]; intros data; simpl.
  - done.
  - specialize (Hh data objects). destruct (h data objects) as [objects' done].
    simpl in Hh. rewrite Hh. destruct done; simpl; [apply IH|done|done].
Qed.

Lemma run_hooks_exceptions_only (hooks : list Effectful.hook) (data : pydict)
    (objects : Effectful.caller_objects) (b : Effectful.base_exception) :
  Forall Effectful.raises_exceptions_only hooks ->
  snd (Effectful.run_hooks hooks data objects) <> Effectful.Escapes b.
Proof.
  intros Hhooks. revert data objects.
  induction Hhooks as [|h rest Hh _ IH]; intros data objects; simpl.
  - done.
  - specialize (Hh data objects b). destruct (h data objects) as [objects' done].
    simpl in Hh. destruct done; simpl; [apply IH|done|done].
Qed.

Lemma run_hooks_pure (hooks : list hook) (data : pydict) (objects : Effectful.caller_objects) :
  Effectful.run_hooks (Effectful.pure_hook <$> hooks) data objects
  = (objects, match run_hooks hooks data with
              | Ok data' => Effectful.Returns data'
              | Raise e => Effectful.Raises e
              end).
Proof.
  revert data. induction hooks as [|h rest IH]; intros data; simpl; [done|].
  unfold Effectful.pure_hook at 1. rewrite updated_same.
  destruct (h data) as [data'|e]; [apply IH|done].
Qed.

(** The validators raise pydantic's error only. *)
Lemma validate_input_raises (rt : runtime) (w : world) (input_data : pydict) (e : exn) :
  result (Validators.validate_input rt w input_data) = Raise e -> e = ValidationError.
Proof.
  unfold Validators.validate_input, Validators.PipelineInput.
  destruct (negb (PYDANTIC_AVAILABLE w)); [done|].
  destruct (Validators.text_field rt input_data "input_text"); simpl; [done|].
  by intros [= <-].
Qed.

Lemma validate_output_raises (rt : runtime) (w : world) (output_data : pydict) (e : exn) :
  result (Validators.validate_output rt w output_data) = Raise e -> e = ValidationError.
Proof.
  unfold Validators.validate_output, Validators.PipelineOutput.
  destruct (negb (PYDANTIC_AVAILABLE w)); [done|].
  destruct (Validators.text_field rt output_data "final_output"); simpl;
    [|by intros [= <-]].
  destruct (output_data !! "timestamp" ≫= pydantic_float rt); simpl; [|by intros [= <-]].
  destruct (Validators.usage_field rt output_data "token_usage"); simpl; [done|].
  by intros [= <-].
Qed.

(** ** The two models of [process] agree on hooks that leave the
    caller's objects alone *)

Lemma process_body_pure_hooks (rt : runtime) (w : world) (self : LLMPipeline)
    (input_text context : pyval) (template_name : option string) :
  Effectful.process_body rt w (with_pure_hooks self) input_text context template_name
  = Effectful.Run
      (trace (process_body rt w self input_text context template_name))
      {| Effectful.input_text_object := input_text; Effectful.context_object := context |}
      match result (process_body rt w self input_text context template_name) with
      | Ok r => Effectful.Returns r
      | Raise e => Effectful.Raises e
      end.
Proof.
  rewrite process_body_validated_stages.
  unfold Effectful.process_body, with_pure_hooks. cbn [Effectful.config Effectful.pre_hooks Effectful.post_hooks].
  rewrite run_hooks_pure.
  destruct (run_hooks (pre_hooks self) _) as [input_data|e]; [|reflexivity].
  rewrite bind_lift_ok.
  rewrite (validated_stages_config rt w (new_pipeline (config self)) self) by reflexivity.
  destruct (validated_stages rt w self input_data template_name) as [t [r|e]];
    [|reflexivity].
  rewrite run_hooks_pure, bind_ok_after.
  destruct (run_hooks (post_hooks self) r) as [r'|e]; simpl; [|by rewrite app_nil_r].
  unfold record_success, time_pipeline, metrics_on.
  destruct self as [c pre post]; simpl.
  destruct (collect_metrics c && PROMETHEUS_AVAILABLE w); reflexivity.
Qed.

Lemma process_pure_hooks (rt : runtime) (w : world) (self : LLMPipeline)
    (input_text context : pyval) (template_name : option string) :
  Effectful.process rt w (with_pure_hooks self) input_text context template_name
  = Effectful.Run
      (trace (process rt w self input_text context template_name))
      {| Effectful.input_text_object := input_text; Effectful.context_object := context |}
      (Effectful.Returned
         (envelope_of input_text context
            (result (process_body rt w self input_text context template_name)))).
Proof.
  unfold Effectful.process. rewrite process_body_pure_hooks, process_trace.
  cbn [Effectful.events Effectful.objects Effectful.ending
       Effectful.input_text_object Effectful.context_object].
  unfold with_pure_hooks; cbn [Effectful.config].
  unfold record_request, record_failure, metrics_on.
  destruct self as [c pre post]; cbn [config new_pipeline].
  destruct (result (process_body rt w _ input_text context template_name)) as [r|e].
  - by rewrite app_nil_r.
  - rewrite <- app_assoc.
    destruct e, (collect_metrics c && PROMETHEUS_AVAILABLE w); reflexivity.
Qed.

(** ** What [process] returns, and what it lets through *)

Lemma process_body_objects (rt : runtime) (w : world) (self : Effectful.LLMPipeline)
    (input_text context : pyval) (template_name : option string) :
  let now := Effectful.objects
               (Effectful.process_body rt w self input_text context template_name) in
  Effectful.kept input_text (Effectful.input_text_object now)
  /\ Effectful.kept context (Effectful.context_object now).
Proof.
  unfold Effectful.process_body.
  pose proof (run_hooks_kept (Effectful.pre_hooks self)
                {[ "input_text" := input_text; "context" := context ]}
                {| Effectful.input_text_object := input_text;
                   Effectful.context_object := context |}) as Hpre.
  destruct (Effectful.run_hooks (Effectful.pre_hooks self) _ _) as [objects pre].
  simpl in Hpre. destruct pre as [input_data| |]; simpl; [|done|done].
  destruct (validated_stages rt w _ input_data template_name) as [t [r|e]]; simpl; [|done].
  pose proof (run_hooks_kept (Effectful.post_hooks self) r objects) as Hpost.
  destruct (Effectful.run_hooks (Effectful.post_hooks self) r objects) as [objects' post].
  simpl in Hpost. destruct Hpre, Hpost.
  destruct post; simpl; split; eapply kept_trans; eauto.
Qed.

Lemma process_body_leaves_objects (rt : runtime) (w : world) (self : Effectful.LLMPipeline)
    (input_text context : pyval) (template_name : option string) :
  Forall Effectful.leaves_objects (Effectful.pre_hooks self ++ Effectful.post_hooks self) ->
  Effectful.objects (Effectful.process_body rt w self input_text context template_name)
  = {| Effectful.input_text_object := input_text; Effectful.context_object := context |}.
Proof.
  intros [Hpre Hpost]%Forall_app. unfold Effectful.process_body.
  pose proof (run_hooks_leaves_objects (Effectful.pre_hooks self)
                {[ "input_text" := input_text; "context" := context ]}
                {| Effectful.input_text_object := input_text;
                   Effectful.context_object := context |} Hpre) as Hobjects.
  destruct (Effectful.run_hooks (Effectful.pre_hooks self) _ _) as [objects pre].
  simpl in Hobjects. subst objects. destruct pre as [input_data| |]; simpl; [|done|done].
  destruct (validated_stages rt w _ input_data template_name) as [t [r|e]]; simpl; [|done].
  pose proof (run_hooks_leaves_objects (Effectful.post_hooks self) r
                {| Effectful.input_text_object := input_text;
                   Effectful.context_object := context |} Hpost) as Hobjects.
  destruct (Effectful.run_hooks (Effectful.post_hooks self) r _) as [objects' post].
  simpl in Hobjects. subst objects'. by destruct post.
Qed.

Lemma process_body_exceptions_only (rt : runtime) (w : world) (self : Effectful.LLMPipeline)
    (input_text context : pyval) (template_name : option string)
    (b : Effectful.base_exception) :
  Forall Effectful.raises_exceptions_only
    (Effectful.pre_hooks self ++ Effectful.post_hooks self) ->
  Effectful.ending (Effectful.process_body rt w self input_text context template_name)
  <> Effectful.Escapes b.
Proof.
  intros [Hpre Hpost]%Forall_app. unfold Effectful.process_body.
  pose proof (run_hooks_exceptions_only (Effectful.pre_hooks self)
                {[ "input_text" := input_text; "context" := context ]}
                {| Effectful.input_text_object := input_text;
                   Effectful.context_object := context |} b Hpre) as Hb.
  destruct (Effectful.run_hooks (Effectful.pre_hooks self) _ _) as [objects pre].
  simpl in Hb. destruct pre as [input_data| |]; simpl; [|done|done].
  destruct (validated_stages rt w _ input_data template_name) as [t [r|e]]; simpl; [|done].
  pose proof (run_hooks_exceptions_only (Effectful.post_hooks self) r objects b Hpost) as Hb'.
  destruct (Effectful.run_hooks (Effectful.post_hooks self) r objects) as [objects' post].
  simpl in Hb'. by destruct post.
Qed.

Lemma process_objects (rt : runtime) (w : world) (self : Effectful.LLMPipeline)
    (input_text context : pyval) (template_name : option string) :
  Effectful.objects (Effectful.process rt w self input_text context template_name)
  = Effectful.objects (Effectful.process_body rt w self input_text context template_name).
Proof.
  unfold Effectful.process.
  destruct (Effectful.ending _) as [r|e|b]; [done| |done]. by destruct e.
Qed.

(** C1, as stated: for every input, context, template name and hooks
    [process] returns an envelope and propagates nothing, and whenever a
    stage or the validation raises a classified pipeline error the
    envelope has the status "failed" and carries the input text and the
    context that the caller passed.  It fails on each count: a
    [KeyboardInterrupt] raised in a hook reaches the caller; without
    any hook, a text that the input validation rejects gives an envelope
    with neither [input] nor [context]; and when a pre-hook has updated
    the caller's context in place, the envelope of a stage failure
    carries the updated context, not the one passed. *)
Lemma process_propagates_and_loses_echo :
  ~ (forall (rt : runtime) (w : world) (self : Effectful.LLMPipeline)
            (input_text context : pyval) (template_name : option string),
       exists envelope,
         Effectful.ending (Effectful.process rt w self input_text context template_name)
         = Effectful.Returned envelope)
  /\ ~ (forall (rt : runtime) (w : world) (c : PipelineConfig)
               (input_text context : pyval) (template_name : option string)
               (e : exn) (envelope : pydict),
          Effectful.ending (Effectful.process_body rt w (effectful_pipeline c [] [])
                              input_text context template_name)
          = Effectful.Raises e ->
          classified e = true ->
          Effectful.ending (Effectful.process rt w (effectful_pipeline c [] [])
                              input_text context template_name)
          = Effectful.Returned envelope ->
          envelope !! "status" = Some (VStr "failed")
          /\ envelope !! "input" = Some input_text
          /\ envelope !! "context" = Some context)
  /\ ~ (forall (rt : runtime) (w : world) (self : Effectful.LLMPipeline)
               (input_text context : pyval) (template_name : option string)
               (msg : string) (envelope : pydict),
          Effectful.ending (Effectful.process_body rt w self
                              input_text context template_name)
          = Effectful.Raises (PipelineError msg) ->
          Effectful.ending (Effectful.process rt w self input_text context template_name)
          = Effectful.Returned envelope ->
          envelope !! "status" = Some (VStr "failed")
          /\ envelope !! "input" = Some input_text
          /\ envelope !! "context" = Some context).
Proof.
  split; [|split].
  - intros Hclaim.
    destruct (Hclaim strict_runtime offline_world
                (effectful_pipeline default_config [interrupted_hook] [])
                (VStr "Hello") (VStr "Polite Tone") None) as [envelope Hret].
    discriminate Hret.
  - intros Hclaim.
    destruct (Hclaim strict_runtime offline_world default_config
                (VStr "   ") (VStr "Polite Tone") None ValidationError
                internal_failure_envelope eq_refl eq_refl eq_refl) as (_ & Hinput & _).
    discriminate Hinput.
  - intros Hclaim.
    destruct (Hclaim strict_runtime bad_request_world
                (effectful_pipeline (with_key "test_key" 1 default_config) [marking_hook] [])
                (VStr "Hello") (VDict ∅) None "Inference failed"
                (failure_envelope "Inference failed" (VStr "Hello")
                   (VDict {[ "seen" := VBool true ]}))
                eq_refl eq_refl) as (_ & _ & Hcontext).
    vm_compute in Hcontext. discriminate Hcontext.
Qed.

(** C1, amended.  A call of [process] ends in one of two ways.  It
    propagates an exception exactly when a hook raises one that does
    not derive from [Exception]; when every hook raises exceptions of
    class [Exception] only, it returns an envelope.  The envelope is
    the result of the [try] block when that returns.  When the block
    raises a [PipelineError], the envelope has the message of the error,
    the status "failed", and under [input] and [context] the caller's
    two objects as they are when [process] returns.  When the block
    raises any other exception, a rejection by the input or output
    validation included, the envelope is the opaque one: the error
    "Internal pipeline error" and the status "failed", without [input]
    and [context].  The caller's objects keep their type, an immutable
    one (a string, a number, a boolean, [None]) keeps its value, and
    both are as the caller passed them when no hook updates them in
    place. *)
Theorem process_returns_or_propagates (rt : runtime) (w : world)
    (self : Effectful.LLMPipeline) (input_text context : pyval)
    (template_name : option string) :
  let body := Effectful.process_body rt w self input_text context template_name in
  let call := Effectful.process rt w self input_text context template_name in
  let now := Effectful.objects call in
  (forall b, Effectful.ending call = Effectful.Propagated b
             <-> Effectful.ending body = Effectful.Escapes b)
  /\ (Forall Effectful.raises_exceptions_only
        (Effectful.pre_hooks self ++ Effectful.post_hooks self) ->
      exists envelope, Effectful.ending call = Effectful.Returned envelope)
  /\ (forall result,
        Effectful.ending body = Effectful.Returns result ->
        Effectful.ending call = Effectful.Returned result)
  /\ (forall msg,
        Effectful.ending body = Effectful.Raises (PipelineError msg) ->
        Effectful.ending call
        = Effectful.Returned
            {[ "error" := VStr msg;
               "input" := Effectful.input_text_object now;
               "context" := Effectful.context_object now;
               "status" := VStr "failed" ]})
  /\ (forall e,
        Effectful.ending body = Effectful.Raises e ->
        is_PipelineError e = false ->
        Effectful.ending call
        = Effectful.Returned
            {[ "error" := VStr "Internal pipeline error"; "status" := VStr "failed" ]})
  /\ (forall data e,
        result (Validators.validate_input rt w data) = Raise e
        \/ result (Validators.validate_output rt w data) = Raise e ->
        is_PipelineError e = false)
  /\ (forall objects input_data e,
        validate_schemas (Effectful.config self) = true ->
        Effectful.run_hooks (Effectful.pre_hooks self)
          {[ "input_text" := input_text; "context" := context ]}
          {| Effectful.input_text_object := input_text;
             Effectful.context_object := context |}
        = (objects, Effectful.Returns input_data) ->
        result (Validators.validate_input rt w input_data) = Raise e ->
        Effectful.ending call
        = Effectful.Returned
            {[ "error" := VStr "Internal pipeline error"; "status" := VStr "failed" ]})
  /\ Effectful.kept input_text (Effectful.input_text_object now)
  /\ Effectful.kept context (Effectful.context_object now)
  /\ (Forall Effectful.leaves_objects
        (Effectful.pre_hooks self ++ Effectful.post_hooks self) ->
      now = {| Effectful.input_text_object := input_text;
               Effectful.context_object := context |}).
Proof.
  intros body call now.
  assert (forall e, Effectful.ending body = Effectful.Raises e ->
                    is_PipelineError e = false ->
                    Effectful.ending call = Effectful.Returned internal_failure_envelope)
    as Hopaque.
  { intros e He Hclass. unfold call, Effectful.process. fold body. rewrite He.
    by destruct e. }
  assert (forall data e,
            result (Validators.validate_input rt w data) = Raise e
            \/ result (Validators.validate_output rt w data) = Raise e ->
            is_PipelineError e = false) as Hvalidation.
  { by intros data e [->%validate_input_raises| ->%validate_output_raises]. }
  split; [|split; [|split; [|split; [|split; [|split; [|split; [|split; [|split]]]]]]]].
  - intros b. unfold call, Effectful.process. fold body.
    destruct (Effectful.ending body) as [r|e|b']; simpl.
    + split; discriminate.
    + destruct e; split; discriminate.
    + split; by intros [= ->].
  - intros Hhooks.
    pose proof (fun b => process_body_exceptions_only rt w self input_text context
                           template_name b Hhooks) as Hbody.
    fold body in Hbody. unfold call, Effectful.process. fold body.
    destruct (Effectful.ending body) as [r|e|b]; simpl.
    + by eexists.
    + destruct e; by eexists.
    + by destruct (Hbody b).
  - intros r Hr. unfold call, Effectful.process. fold body. by rewrite Hr.
  - intros msg Hmsg. unfold now, call. rewrite process_objects.
    unfold Effectful.process. fold body. by rewrite Hmsg.
  - exact Hopaque.
  - exact Hvalidation.
  - intros objects input_data e Hon Hpre He.
    apply (Hopaque e); [|by apply (Hvalidation input_data); left].
    unfold body, Effectful.process_body. rewrite Hpre.
    unfold validated_stages. cbn [new_pipeline config]. rewrite Hon.
    destruct (Validators.validate_input rt w input_data) as [t o]. simpl in He. by subst o.
  - unfold now, call. rewrite process_objects. apply process_body_objects.
  - unfold now, call. rewrite process_objects. apply process_body_objects.
  - intros Hhooks. unfold now, call. rewrite process_objects.
    by apply process_body_leaves_objects.
Qed.

Lemma process_returns_or_propagates_witness :
  Effectful.ending
    (Effectful.process strict_runtime bad_request_world
       (effectful_pipeline (with_key "test_key" 1 default_config) [marking_hook] [])
       (VStr "Hello") (VDict ∅) None)
  = Effectful.Returned
      {[ "error" := VStr "Inference failed";
         "input" := VStr "Hello";
         "context" := VDict {[ "seen" := VBool true ]};
         "status" := VStr "failed" ]}.
Proof.
  destruct (process_returns_or_propagates strict_runtime bad_request_world
              (effectful_pipeline (with_key "test_key" 1 default_config) [marking_hook] [])
              (VStr "Hello") (VDict ∅) None) as (_ & _ & _ & Hecho & _).
  apply (Hecho "Inference failed"). reflexivity.
Defined.

(** The three ways of the counterexample, run *)

Example process_interrupted :
  Effectful.ending
    (Effectful.process strict_runtime offline_world
       (effectful_pipeline default_config [interrupted_hook] [])
       (VStr "Hello") (VStr "Polite Tone") None)
  = Effectful.Propagated Effectful.KeyboardInterrupt.
Proof. reflexivity. Qed.

Example process_rejected_by_validation :
  Effectful.ending
    (Effectful.process strict_runtime offline_world
       (effectful_pipeline default_config [] [])
       (VStr "   ") (VStr "Polite Tone") None)
  = Effectful.Returned
      {[ "error" := VStr "Internal pipeline error"; "status" := VStr "failed" ]}.
Proof. reflexivity. Qed.

Example process_marked_context :
  Effectful.objects
    (Effectful.process strict_runtime bad_request_world
       (effectful_pipeline (with_key "test_key" 1 default_config) [marking_hook] [])
       (VStr "Hello") (VDict ∅) None)
  = {| Effectful.input_text_object := VStr "Hello";
       Effectful.context_object := VDict {[ "seen" := VBool true ]} |}.
Proof. reflexivity. Qed.

